(** * AutoFixer: the issue remediation pipeline

    A shallow embedding of the webhook handler
    ([pages/api/github-webhook.ts], in the version that runs the BEFORE and
    AFTER sandboxes, the agent and the publication), the signature check
    and event filter
    ([lib/github-webhook.ts]), the issue parser ([lib/issue-parser.ts]), the
    in-memory run store ([lib/db.ts]) and the Daytona client
    ([lib/daytona.ts]), followed by the properties the design document
    states about them.

    Conventions.
    - A JavaScript string is represented by its UTF-8 encoding, as a Rocq
      [string] (a sequence of bytes).  [Buffer.from(s)] is then the byte
      sequence itself.
    - JavaScript numbers that the code uses (issue numbers, exit codes,
      ports, timestamps) are integers, modelled in [Z].
    - [await]ed calls are sequential; a rejected promise is a thrown error.
    - [console.log] and friends are not modelled. *)

From Stdlib Require Import ZArith String Ascii List Bool Lia.
From stdpp Require Import base gmap strings pretty list.

Local Open Scope Z_scope.
Local Open Scope string_scope.

(** ** JavaScript values and errors *)

(** [Error] objects: the constructor name and the message. *)
Record JsError := mkError { err_name : string; err_message : string }.

(** A call either returns or throws. *)
Inductive Outcome (A : Type) : Type :=
| Returned (a : A)
| Thrown (e : JsError).
Arguments Returned {A} a.
Arguments Thrown {A} e.

(** The values [JSON.parse] produces, plus [undefined].  A number written
    without fraction and exponent is a [JNum]; any other number keeps its
    text. *)
#[local] Unset Elimination Schemes.
Inductive JsVal : Type :=
| JUndefined
| JNull
| JBool (b : bool)
| JNum (n : Z)
| JFloat (literal : string)
| JStr (s : string)
| JArr (items : list JsVal)
| JObj (fields : list (string * JsVal)).
#[local] Set Elimination Schemes.

(** A property that may be absent ([undefined]), [null], or present. *)
Inductive JsOpt (A : Type) : Type :=
| Undefined
| Null
| Defined (a : A).
Arguments Undefined {A}.
Arguments Null {A}.
Arguments Defined {A} a.

(** The double quote character, and a string put between double quotes. *)
Definition dq : string := String (ascii_of_nat 34) EmptyString.
Definition quoted (s : string) : string := dq +:+ s +:+ dq.

(** ** The JavaScript runtime and the Node library

    What the repository takes from the platform: [crypto.createHmac],
    [JSON.parse] and [String.prototype.toLowerCase]. *)
Record Runtime := {
  (** [crypto.createHmac('sha256', key).update(msg).digest('hex')] *)
  hmac_sha256_hex : string -> string -> string;
  (** [JSON.parse(text)]; [None] when it throws a [SyntaxError] *)
  JSON_parse : string -> option JsVal;
  (** [s.toLowerCase()] *)
  toLowerCase : string -> string
}.

(** ** Strings *)

Definition is_lower_alnum (c : ascii) : bool :=
  let n := nat_of_ascii c in
  ((97 <=? n)%nat && (n <=? 122)%nat) || ((48 <=? n)%nat && (n <=? 57)%nat).

Definition is_hyphen (c : ascii) : bool := Ascii.eqb c "-"%char.

(** [s.replace(/[^a-z0-9]+/g, '-')]: every maximal run of characters outside
    [a-z0-9] becomes one hyphen.  [in_run] tells that the previous character
    was outside the class. *)
Fixpoint replace_unsafe_runs (in_run : bool) (s : string) : string :=
  match s with
  | EmptyString => EmptyString
  | String c r =>
      if is_lower_alnum c then String c (replace_unsafe_runs false r)
      else if in_run then replace_unsafe_runs true r
      else String "-"%char (replace_unsafe_runs true r)
  end.

(** The first alternative of [/^-+|-+$/g]: the leading hyphens go. *)
Fixpoint strip_leading_hyphens (s : string) : string :=
  match s with
  | EmptyString => EmptyString
  | String c r => if is_hyphen c then strip_leading_hyphens r else s
  end.

(** The second alternative: the trailing hyphens go. *)
Fixpoint strip_trailing_hyphens (s : string) : string :=
  match s with
  | EmptyString => EmptyString
  | String c r =>
      match strip_trailing_hyphens r with
      | EmptyString => if is_hyphen c then EmptyString else String c EmptyString
      | r' => String c r'
      end
  end.

(** [s.substring(0, n)] *)
Fixpoint substring0 (n : nat) (s : string) : string :=
  match n, s with
  | O, _ => EmptyString
  | _, EmptyString => EmptyString
  | S n', String c r => String c (substring0 n' r)
  end.

(** [s.trim()].  The white space of JavaScript: tab, line feed, vertical
    tab, form feed, carriage return, space, and, in their UTF-8 encodings,
    U+00A0, U+1680, U+2000 to U+200A, U+2028, U+2029, U+202F, U+205F,
    U+3000 and U+FEFF.  [whitespace_width s] is the number of bytes of the
    white space character [s] starts with, [0] if it starts with none. *)
Definition whitespace_width (s : string) : nat :=
  match s with
  | EmptyString => 0
  | String a r =>
      let x := nat_of_ascii a in
      if ((x =? 32) || ((9 <=? x) && (x <=? 13)))%nat then 1
      else
        match r with
        | EmptyString => 0
        | String b r' =>
            let y := nat_of_ascii b in
            if ((x =? 194) && (y =? 160))%nat then 2
            else
              match r' with
              | EmptyString => 0
              | String c _ =>
                  let z := nat_of_ascii c in
                  if ((x =? 225) && (y =? 154) && (z =? 128))%nat then 3
                  else if ((x =? 226) && (y =? 128) &&
                           (((128 <=? z) && (z <=? 138)) || (z =? 168) || (z =? 169) ||
                            (z =? 175)))%nat then 3
                  else if ((x =? 226) && (y =? 129) && (z =? 159))%nat then 3
                  else if ((x =? 227) && (y =? 128) && (z =? 128))%nat then 3
                  else if ((x =? 239) && (y =? 187) && (z =? 191))%nat then 3
                  else 0
              end
        end
  end.

Fixpoint drop_bytes (n : nat) (s : string) : string :=
  match n, s with
  | S n', String _ r => drop_bytes n' r
  | _, _ => s
  end.

(** [fuel] bounds the number of characters looked at. *)
Fixpoint trimStart_go (fuel : nat) (s : string) : string :=
  match fuel with
  | O => s
  | S fuel' =>
      match whitespace_width s with
      | O => s
      | width => trimStart_go fuel' (drop_bytes width s)
      end
  end.

Definition trimStart (s : string) : string := trimStart_go (String.length s) s.

(** The string is white space from its first byte to its last. *)
Definition is_blank (s : string) : bool :=
  String.eqb (trimStart s) EmptyString.

(** The longest prefix that does not end in white space. *)
Fixpoint trimEnd (s : string) : string :=
  match s with
  | EmptyString => EmptyString
  | String c r => if is_blank s then EmptyString else String c (trimEnd r)
  end.

Definition trim (s : string) : string := trimEnd (trimStart s).

(** [haystack.includes(needle)] *)
Fixpoint includes (needle haystack : string) : bool :=
  String.prefix needle haystack ||
  match haystack with
  | EmptyString => false
  | String _ r => includes needle r
  end.

(** Template interpolation of an integer: its decimal digits. *)
Definition num (n : Z) : string := pretty n.

(** ** Signature verification ([lib/github-webhook.ts]) *)

Definition Buffer_from (s : string) : list Byte.byte := list_byte_of_string s.

Fixpoint bytes_eqb (a b : list Byte.byte) : bool :=
  match a, b with
  | [], [] => true
  | x :: a', y :: b' => Byte.eqb x y && bytes_eqb a' b'
  | _, _ => false
  end.

(** [crypto.timingSafeEqual(a, b)] throws a [RangeError] when the two
    buffers differ in byte length, and compares them otherwise. *)
Definition timingSafeEqual (a b : list Byte.byte) : Outcome bool :=
  if (List.length a =? List.length b)%nat
  then Returned (bytes_eqb a b)
  else Thrown (mkError "RangeError" "Input buffers must have the same byte length").

Section GithubWebhook.
Variable rt : Runtime.

Definition verifyGitHubSignature
    (payload : string) (signature : option string) (secret : string)
  : Outcome bool :=
  match signature with
  | None => Returned false
  | Some EmptyString => Returned false
  | Some sig =>
      let digest := "sha256=" +:+ hmac_sha256_hex rt secret payload in
      timingSafeEqual (Buffer_from sig) (Buffer_from digest)
  end.
End GithubWebhook.

(** ** Data model ([types/github.ts], [types/daytona.ts])

    Each interface is a record in a module of its name; fields the pipeline
    never reads ([id], [state], [user], [sender], ...) are left out. *)

Module GitHubUser.
Record t := mk { login : string }.
End GitHubUser.

Module GitHubIssue.
(** [body: string | null] *)
Record t := mk {
  number : Z;
  title : string;
  body : option string;
  html_url : string
}.
End GitHubIssue.

Module GitHubRepository.
Record t := mk {
  name : string;
  owner : GitHubUser.t;
  clone_url : string;
  html_url : string;
  default_branch : string
}.
End GitHubRepository.

Module GitHubWebhookPayload.
(** The interface declares [issue: GitHubIssue]; events that are not about
    an issue carry no such property, and [isIssueOpenedEvent] tests for
    it, so the field is one that can be absent or [null]. *)
Record t := mk {
  action : string;
  issue : JsOpt GitHubIssue.t;
  repository : GitHubRepository.t
}.
End GitHubWebhookPayload.

Module ParsedIssue.
Record t := mk {
  issueNumber : Z;
  title : string;
  body : string;
  repositoryUrl : string;
  repositoryName : string;
  repositoryOwner : string;
  cloneUrl : string;
  defaultBranch : string;
  issueUrl : string
}.
End ParsedIssue.

Inductive Status := pending | processing | completed | failed.

Module InMemoryIssue.
Record t := mk {
  issueNumber : Z;
  repositoryName : string;
  repositoryOwner : string;
  title : string;
  body : string;
  beforeWorkspaceId : option string;
  afterWorkspaceId : option string;
  status : Status;
  createdAt : Z;
  updatedAt : Z
}.
End InMemoryIssue.

(** [Partial<InMemoryIssue>], for the properties [updateIssue] is called
    with: [None] is a property the object literal does not have. *)
Module Updates.
Record t := mk {
  beforeWorkspaceId : option string;
  afterWorkspaceId : option string;
  status : option Status
}.
Definition only_status (s : Status) : t := mk None None (Some s).
End Updates.

Module DaytonaWorkspace.
Record t := mk {
  id : string;
  name : string;
  project_name : string;
  project_repository_url : string;
  status : option string;
  previewUrl : option string;
  previewToken : option string
}.
End DaytonaWorkspace.

Module SandboxPair.
Record t := mk { before : DaytonaWorkspace.t; after : DaytonaWorkspace.t }.
End SandboxPair.

(** ** The Daytona SDK, as seen from the client *)

Module Sandbox.
Record t := mk { id : string; name : string; state : option string }.
End Sandbox.

Module CreateOptions.
Record t := mk {
  name : string;
  labels : list (string * string);
  public : bool;
  snapshot : option string;
  envVars : option (list (string * string))
}.
End CreateOptions.

Module ExecuteResponse.
(** [artifacts] is only ever logged. *)
Record t := mk { exitCode : Z; result : option string }.
End ExecuteResponse.

Module PreviewLink.
Record t := mk { url : string; token : string }.
End PreviewLink.

(** One request sent to the provider.  The sandbox a method is called on is
    named by its id. *)
Inductive Call :=
| CCreate (options : CreateOptions.t)
| CGet (sandboxId : string)
| CExecuteCommand (sandboxId command : string) (cwd : option string) (timeout : option Z)
| CGetWorkDir (sandboxId : string)
| CGitClone (sandboxId url path : string) (username password : option string)
| CGetPreviewLink (sandboxId : string) (port : Z)
| CUploadFile (sandboxId content path : string).

Definition is_create (c : Call) : bool :=
  match c with CCreate _ => true | _ => false end.

(** The provider answers each request given the requests made before it,
    and takes its time to answer.  The agent run keeps a timer going while
    its command is pending; [pending_polls h] is the number of times that
    timer gets to ask the sandbox for its process list before the answer to
    the last request of [h] arrives. *)
Record Daytona := {
  sdk_create : list Call -> CreateOptions.t -> Outcome Sandbox.t;
  sdk_get : list Call -> string -> Outcome Sandbox.t;
  sdk_executeCommand :
    list Call -> string -> string -> option string -> option Z -> Outcome ExecuteResponse.t;
  sdk_getWorkDir : list Call -> string -> Outcome (option string);
  sdk_git_clone :
    list Call -> string -> string -> string -> option string -> option string -> Outcome unit;
  sdk_getPreviewLink : list Call -> string -> Z -> Outcome PreviewLink.t;
  sdk_uploadFile : list Call -> string -> string -> string -> Outcome unit;
  pending_polls : list Call -> nat
}.

(** The surroundings of the process: [process.env], and the clock.
    [Date_now h] is what [Date.now()] and [new Date()] read once the
    requests [h] have been made. *)
Record ProcessEnv := {
  WEBHOOK_SECRET : option string;
  DAYTONA_API_KEY : option string;
  DAYTONA_API_URL : option string;
  ANTHROPIC_API_KEY : option string;
  GITHUB_TOKEN : option string;
  Date_now : list Call -> Z
}.

(** A string in a condition: [undefined] and [''] are falsy. *)
Definition truthy (s : option string) : option string :=
  match s with
  | Some (String c r) => Some (String c r)
  | _ => None
  end.

(** [s || fallback] *)
Definition or_else (s : option string) (fallback : string) : string :=
  match truthy s with Some v => v | None => fallback end.

(** ** The run store ([lib/db.ts]) and the state of the process *)

Record World := mkWorld {
  issues : gmap Z InMemoryIssue.t;
  calls : list Call
}.

(** A computation reads and changes the world, and returns or throws. *)
Definition M (A : Type) : Type := World -> Outcome A * World.

Definition ret {A} (a : A) : M A := fun w => (Returned a, w).
Definition throw {A} (e : JsError) : M A := fun w => (Thrown e, w).
Definition bind {A B} (m : M A) (k : A -> M B) : M B :=
  fun w =>
    match m w with
    | (Returned a, w') => k a w'
    | (Thrown e, w') => (Thrown e, w')
    end.
(** [try { m } catch (e) { h e }] *)
Definition try_catch {A} (m : M A) (h : JsError -> M A) : M A :=
  fun w =>
    match m w with
    | (Returned a, w') => (Returned a, w')
    | (Thrown e, w') => h e w'
    end.
Definition lift {A} (o : Outcome A) : M A := fun w => (o, w).

Declare Scope js_scope.
Delimit Scope js_scope with js.
Notation "x <- m ;; k" := (bind m (fun x => k))
  (at level 100, m at next level, right associativity) : js_scope.
Notation "m ;;; k" := (bind m (fun _ => k))
  (at level 100, right associativity) : js_scope.
Local Open Scope js_scope.

(** Sending one request: the answer depends on the requests so far, and the
    request is appended to them. *)
Definition request {A} (c : Call) (answer : list Call -> Outcome A) : M A :=
  fun w => (answer (calls w), mkWorld (issues w) (calls w ++ [c])).

Definition get_calls : M (list Call) := fun w => (Returned (calls w), w).

(** [try { await m } catch (error) { }]: the error is logged and dropped. *)
Definition attempt {A} (m : M A) : M unit :=
  try_catch (m ;;; ret tt) (fun _ => ret tt).

(** [await m] while a timer runs [background]: the request of [m] is sent,
    the timer does its work while the answer is awaited, and the outcome
    is the one of [m]. *)
Definition during {A} (m : M A) (background : M unit) : M A :=
  fun w =>
    match m w with
    | (outcome, w') => (outcome, snd (background w'))
    end.

Module db.
Definition saveIssue (issue : InMemoryIssue.t) : M unit :=
  fun w => (Returned tt,
            mkWorld (<[InMemoryIssue.issueNumber issue := issue]> (issues w)) (calls w)).

Definition getIssue (issueNumber : Z) : M (option InMemoryIssue.t) :=
  fun w => (Returned (issues w !! issueNumber), w).

(** [{ ...issue, ...updates, updatedAt: new Date() }] *)
Definition merge (issue : InMemoryIssue.t) (updates : Updates.t) (now : Z)
  : InMemoryIssue.t :=
  InMemoryIssue.mk
    (InMemoryIssue.issueNumber issue)
    (InMemoryIssue.repositoryName issue)
    (InMemoryIssue.repositoryOwner issue)
    (InMemoryIssue.title issue)
    (InMemoryIssue.body issue)
    (match Updates.beforeWorkspaceId updates with
     | Some i => Some i | None => InMemoryIssue.beforeWorkspaceId issue end)
    (match Updates.afterWorkspaceId updates with
     | Some i => Some i | None => InMemoryIssue.afterWorkspaceId issue end)
    (match Updates.status updates with
     | Some s => s | None => InMemoryIssue.status issue end)
    (InMemoryIssue.createdAt issue)
    now.

Definition updateIssue (now : Z) (issueNumber : Z) (updates : Updates.t) : M unit :=
  fun w =>
    match issues w !! issueNumber with
    | Some issue =>
        (Returned tt,
         mkWorld (<[issueNumber := merge issue updates now]> (issues w)) (calls w))
    | None => (Returned tt, w)
    end.
End db.

(** ** Encodings used when building remote commands *)

Definition base64_alphabet : string :=
  "ABCDEFGHIJKLMNOPQRSTUVWXYZabcdefghijklmnopqrstuvwxyz0123456789+/".

Definition base64_digit (n : nat) : ascii :=
  match String.get n base64_alphabet with
  | Some c => c
  | None => "="%char
  end.

(** [Buffer.from(s).toString('base64')] *)
Fixpoint base64 (s : string) : string :=
  match s with
  | EmptyString => EmptyString
  | String a EmptyString =>
      let x := nat_of_ascii a in
      String (base64_digit (x / 4))
        (String (base64_digit (x mod 4 * 16)) "==")
  | String a (String b EmptyString) =>
      let x := nat_of_ascii a in
      let y := nat_of_ascii b in
      String (base64_digit (x / 4))
        (String (base64_digit (x mod 4 * 16 + y / 16))
           (String (base64_digit (y mod 16 * 4)) "="))
  | String a (String b (String c r)) =>
      let x := nat_of_ascii a in
      let y := nat_of_ascii b in
      let z := nat_of_ascii c in
      String (base64_digit (x / 4))
        (String (base64_digit (x mod 4 * 16 + y / 16))
           (String (base64_digit (y mod 16 * 4 + z / 64))
              (String (base64_digit (z mod 64)) (base64 r))))
  end.

Definition hex_digit (n : nat) : ascii :=
  match String.get n "0123456789abcdef" with
  | Some c => c
  | None => "?"%char
  end.

Definition backslash : string := String (ascii_of_nat 92) EmptyString.

(** The characters of a JSON string literal for one character of the
    value: quote and backslash are escaped, control characters use the
    short escapes or [\u00XX]. *)
Definition json_escape (c : ascii) : string :=
  let n := nat_of_ascii c in
  if (n =? 34)%nat then backslash +:+ dq
  else if (n =? 92)%nat then backslash +:+ backslash
  else if (n =? 8)%nat then backslash +:+ "b"
  else if (n =? 12)%nat then backslash +:+ "f"
  else if (n =? 10)%nat then backslash +:+ "n"
  else if (n =? 13)%nat then backslash +:+ "r"
  else if (n =? 9)%nat then backslash +:+ "t"
  else if (n <? 32)%nat then
    backslash +:+ "u00" +:+
      String (hex_digit (n / 16)) (String (hex_digit (n mod 16)) EmptyString)
  else String c EmptyString.

Fixpoint json_escape_all (s : string) : string :=
  match s with
  | EmptyString => EmptyString
  | String c r => json_escape c +:+ json_escape_all r
  end.

(** [JSON.stringify(s)] for a string [s] *)
Definition JSON_stringify (s : string) : string := quoted (json_escape_all s).

(** [s.replace(/'/g, "'\\''")], the quoting of the commit message *)
Fixpoint escape_single_quotes (s : string) : string :=
  match s with
  | EmptyString => EmptyString
  | String c r =>
      if Ascii.eqb c "'"%char
      then "'" +:+ backslash +:+ "''" +:+ escape_single_quotes r
      else String c (escape_single_quotes r)
  end.

(** [text.match(/\{[\s\S]*\}/)]: from the first opening brace to the last
    closing brace after it; [None] is [null]. *)
Fixpoint from_first_brace (s : string) : option string :=
  match s with
  | EmptyString => None
  | String c r => if Ascii.eqb c "{"%char then Some s else from_first_brace r
  end.

Fixpoint upto_last_brace (s : string) : option string :=
  match s with
  | EmptyString => None
  | String c r =>
      match upto_last_brace r with
      | Some p => Some (String c p)
      | None => if Ascii.eqb c "}"%char then Some (String c EmptyString) else None
      end
  end.

Definition match_braces (text : string) : option string :=
  match from_first_brace text with
  | Some t => upto_last_brace t
  | None => None
  end.

(** [v[key]] for a value: reading a property of [undefined] or [null]
    throws; an object yields the property or [undefined]; the other values
    have none of the properties the code reads. *)
Fixpoint lookup_field (key : string) (fields : list (string * JsVal)) : JsVal :=
  match fields with
  | [] => JUndefined
  | (k, v) :: rest => if String.eqb k key then v else lookup_field key rest
  end.

Definition get_prop (v : JsVal) (key : string) : Outcome JsVal :=
  match v with
  | JUndefined | JNull =>
      Thrown (mkError "TypeError" ("Cannot read properties of undefined or null (reading '" +:+ key +:+ "')"))
  | JObj fields => Returned (lookup_field key fields)
  | _ => Returned JUndefined
  end.

Definition newline : string := String (ascii_of_nat 10) EmptyString.

(** ** The Daytona client ([lib/daytona.ts]) *)

Definition CLAUDE_SNAPSHOT_NAME : string := "claude-code-bugfixer:1.0.0".

Section DaytonaClient.
Variable rt : Runtime.
Variable env : ProcessEnv.
Variable sdk : Daytona.

(** The SDK calls, each one request. *)
Definition daytona_create (options : CreateOptions.t) : M Sandbox.t :=
  request (CCreate options) (fun h => sdk_create sdk h options).

Definition daytona_get (sandboxId : string) : M Sandbox.t :=
  request (CGet sandboxId) (fun h => sdk_get sdk h sandboxId).

Definition executeCommand
    (sandbox : Sandbox.t) (command : string) (cwd : option string) (timeout : option Z)
  : M ExecuteResponse.t :=
  request (CExecuteCommand (Sandbox.id sandbox) command cwd timeout)
          (fun h => sdk_executeCommand sdk h (Sandbox.id sandbox) command cwd timeout).

Definition getWorkDir (sandbox : Sandbox.t) : M (option string) :=
  request (CGetWorkDir (Sandbox.id sandbox))
          (fun h => sdk_getWorkDir sdk h (Sandbox.id sandbox)).

Definition git_clone
    (sandbox : Sandbox.t) (url path : string) (username password : option string)
  : M unit :=
  request (CGitClone (Sandbox.id sandbox) url path username password)
          (fun h => sdk_git_clone sdk h (Sandbox.id sandbox) url path username password).

Definition getPreviewLink (sandbox : Sandbox.t) (port : Z) : M PreviewLink.t :=
  request (CGetPreviewLink (Sandbox.id sandbox) port)
          (fun h => sdk_getPreviewLink sdk h (Sandbox.id sandbox) port).

Definition uploadFile (sandbox : Sandbox.t) (content path : string) : M unit :=
  request (CUploadFile (Sandbox.id sandbox) content path)
          (fun h => sdk_uploadFile sdk h (Sandbox.id sandbox) content path).

Definition createOptionsFor
    (workspaceName : string) (labels : list (string * string))
    (useClaudeSnapshot : bool) (anthropicApiKey : option string)
  : CreateOptions.t :=
  CreateOptions.mk
    workspaceName
    labels
    true
    (if useClaudeSnapshot then Some CLAUDE_SNAPSHOT_NAME else None)
    (if useClaudeSnapshot
     then match truthy anthropicApiKey with
          | Some key => Some [("ANTHROPIC_API_KEY", key)]
          | None => None
          end
     else None).

Definition createAndSetupSandbox
    (issue : ParsedIssue.t) (workspaceName : string)
    (labels : list (string * string))
    (useClaudeSnapshot : bool) (anthropicApiKey : option string)
  : M (Sandbox.t * DaytonaWorkspace.t) :=
  let createOptions :=
    createOptionsFor workspaceName labels useClaudeSnapshot anthropicApiKey in
  sandbox <- daytona_create createOptions ;;
  (if useClaudeSnapshot
   then attempt (executeCommand sandbox
                   "id claude || useradd -m -s /bin/bash claude" None None)
   else ret tt) ;;;
  workDir <- getWorkDir sandbox ;;
  let clonePath := or_else workDir "/home/user" in
  let repoPath := clonePath +:+ "/" +:+ ParsedIssue.repositoryName issue in
  (match truthy (GITHUB_TOKEN env) with
   | Some githubToken =>
       if includes "github.com" (ParsedIssue.cloneUrl issue)
       then git_clone sandbox (ParsedIssue.cloneUrl issue) repoPath
                      (Some "git") (Some githubToken)
       else git_clone sandbox (ParsedIssue.cloneUrl issue) repoPath None None
   | None => git_clone sandbox (ParsedIssue.cloneUrl issue) repoPath None None
   end) ;;;
  previewInfo <- getPreviewLink sandbox 3000 ;;
  let workspace :=
    DaytonaWorkspace.mk
      (Sandbox.id sandbox)
      (Sandbox.name sandbox)
      (ParsedIssue.repositoryName issue)
      (ParsedIssue.cloneUrl issue)
      (Sandbox.state sandbox)
      (Some (PreviewLink.url previewInfo))
      (Some (PreviewLink.token previewInfo)) in
  ret (sandbox, workspace).

Definition labelsFor (issue : ParsedIssue.t) (type : string) : list (string * string) :=
  [ ("issueNumber", num (ParsedIssue.issueNumber issue));
    ("repository", ParsedIssue.repositoryName issue);
    ("repositoryOwner", ParsedIssue.repositoryOwner issue);
    ("type", type) ].

Definition createSandboxPair (issue : ParsedIssue.t) (anthropicApiKey : string)
  : M SandboxPair.t :=
  h <- get_calls ;;
  let timestamp := Date_now env h in
  let baseName := "issue-" +:+ num (ParsedIssue.issueNumber issue) in
  try_catch
    (beforeResult <-
       createAndSetupSandbox issue
         (baseName +:+ "-before-" +:+ num timestamp)
         (labelsFor issue "before") true None ;;
     afterResult <-
       createAndSetupSandbox issue
         (baseName +:+ "-after-" +:+ num timestamp)
         (labelsFor issue "after") true (Some anthropicApiKey) ;;
     ret (SandboxPair.mk (snd beforeResult) (snd afterResult)))
    (fun error => throw error).

(** *** The agent run *)

Definition promptFor (issueTitle issueBody : string) : string :=
  "Fix the following GitHub issue. Do it quick, dont take too long.:

Title: " +:+ issueTitle +:+ "

Description:
" +:+ issueBody +:+ "

Please:
1. Implement the fix or thing asked in the issue title and description
2. Make the necessary file changes directly".

Definition chownToClaude (repoPath : string) : string :=
  "chown -R claude:claude " +:+ repoPath.

Definition chownToRoot (repoPath : string) : string :=
  "chown -R root:root " +:+ repoPath.

Definition claudeCommandFor (repoPath promptBase64 : string) : string :=
  "su claude -c " +:+ dq +:+ "cd " +:+ repoPath +:+
  " && claude --dangerously-skip-permissions -p " +:+
  backslash +:+ dq +:+ backslash +:+ "$(echo '" +:+ promptBase64 +:+
  "' | base64 -d)" +:+ backslash +:+ dq +:+ " --output-format json" +:+ dq.

(** [response.result && response.result.trim()] as a condition *)
Definition has_output (result : option string) : bool :=
  match result with
  | Some r => negb (String.eqb (trim r) EmptyString)
  | None => false
  end.

Definition PARSE_WARNING : string := "Could not parse JSON response".

(** The object returned when the output holds no JSON that parses. *)
Definition rawResult (outputToParse : string) (exitCode : Z) : JsVal :=
  JObj [ ("result", JStr outputToParse);
         ("warning", JStr PARSE_WARNING);
         ("exitCode", JNum exitCode) ].

(** The [try]/[catch] around the match and [JSON.parse]. *)
Definition parseAgentOutput (outputToParse : string) (exitCode : Z) : JsVal :=
  match match_braces outputToParse with
  | Some jsonText =>
      match JSON_parse rt jsonText with
      | Some parsed => parsed
      | None => rawResult outputToParse exitCode
      end
  | None => rawResult outputToParse exitCode
  end.

(** The command of the progress timer. *)
Definition processCheckCommand : string :=
  "ps aux | grep -E '[c]laude.*--output-format' || echo 'NOT_RUNNING'".

(** The progress timer ([setInterval], every five seconds) while the agent
    command is pending: when the whole seconds elapsed are a multiple of
    ten it asks the sandbox for the process list, and what it learns, or
    the error it catches, only goes to the terminal.  [polls] is the number
    of times it asks.  The timer is cleared once the agent command has
    returned.  When the agent command throws, the timer is never cleared
    and goes on for as long as the process lives; what it sends after the
    run has ended is not in the model. *)
Fixpoint progressPolls (sandbox : Sandbox.t) (polls : nat) : M unit :=
  match polls with
  | O => ret tt
  | S polls' =>
      attempt (executeCommand sandbox processCheckCommand None None) ;;;
      progressPolls sandbox polls'
  end.

Definition progressInterval (sandbox : Sandbox.t) : M unit :=
  h <- get_calls ;;
  progressPolls sandbox (pending_polls sdk h).

Definition runClaudeCodeInSandbox
    (sandboxId repoName issueTitle issueBody : string) : M JsVal :=
  sandbox <- daytona_get sandboxId ;;
  workDir <- getWorkDir sandbox ;;
  let repoPath := or_else workDir "/home/user" +:+ "/" +:+ repoName in
  let prompt := promptFor issueTitle issueBody in
  let promptBase64 := base64 prompt in
  attempt (executeCommand sandbox (chownToClaude repoPath) None None) ;;;
  let claudeCommand := claudeCommandFor repoPath promptBase64 in
  commandResult <-
    try_catch
      (response <-
         during (executeCommand sandbox claudeCommand (Some repoPath) (Some 600000))
                (progressInterval sandbox) ;;
       (if has_output (ExecuteResponse.result response)
        then ret tt
        else
          attempt (executeCommand sandbox "which claude" (Some repoPath) None) ;;;
          attempt (executeCommand sandbox
                     ("test -d " +:+ repoPath +:+ " && echo " +:+ quoted "EXISTS" +:+
                      " || echo " +:+ quoted "NOT FOUND")
                     (Some repoPath) None)) ;;;
       ret response)
      (fun error => throw error) ;;
  let outputToParse := or_else (ExecuteResponse.result commandResult) "" in
  let result := parseAgentOutput outputToParse (ExecuteResponse.exitCode commandResult) in
  attempt (executeCommand sandbox (chownToRoot repoPath) None None) ;;;
  ret result.
End DaytonaClient.

(** *** Publication: branch, commit, push and pull request *)

Module PullRequestResult.
Record t := mk { branchName : JsVal; prUrl : JsVal; prNumber : JsVal }.
End PullRequestResult.

Section Publisher.
Variable rt : Runtime.
Variable env : ProcessEnv.
Variable sdk : Daytona.

(** The script that is written to [.create-pr.js] in the sandbox and run
    with [node], in three parts: the text up to the initialiser of
    [prBody], the source text of that initialiser, and the rest.  This is
    the value of the template literal of [createBranchAndPR]: a backslash
    before a backquote or a dollar sign yields that character, and each
    substitution is the text of its value. *)
Definition prScriptHead (githubToken issueTitle beforePreviewUrl beforePreviewToken
       afterPreviewUrl afterPreviewToken changesSummary : string) : string :=
  "
const { Octokit } = require('@octokit/rest');

const octokit = new Octokit({
  auth: " +:+
  JSON_stringify githubToken +:+
  ",
});

async function createPR() {
  try {
    const prTitle = 'AutoFix: ' + " +:+
  JSON_stringify issueTitle +:+
  ";
    const beforePreviewUrl = " +:+
  JSON_stringify beforePreviewUrl +:+
  ";
    const beforePreviewToken = " +:+
  JSON_stringify beforePreviewToken +:+
  ";
    const afterPreviewUrl = " +:+
  JSON_stringify afterPreviewUrl +:+
  ";
    const afterPreviewToken = " +:+
  JSON_stringify afterPreviewToken +:+
  ";
    const changesSummary = " +:+
  JSON_stringify changesSummary +:+
  ";
    
    const prBody = ".

Definition prBodySource (issueNumber : Z) : string :=
  "`## 🤖 AutoFixer Pull Request

This PR was automatically generated to address issue #" +:+
  num issueNumber +:+
  ".

### 📋 Summary of Changes

```
${changesSummary}
```

### 🔗 Preview Sandboxes

**🔴 BEFORE Sandbox (Original State)**
- Preview URL: ${beforePreviewUrl}
- Access Token: `${beforePreviewToken}`
- Access with: `curl -H " +:+ dq +:+ "x-daytona-preview-token: ${beforePreviewToken}" +:+ dq +:+ " ${beforePreviewUrl}`

**🟢 AFTER Sandbox (With Fixes Applied)**
- Preview URL: ${afterPreviewUrl}
- Access Token: `${afterPreviewToken}`
- Access with: `curl -H " +:+ dq +:+ "x-daytona-preview-token: ${afterPreviewToken}" +:+ dq +:+ " ${afterPreviewUrl}`

### 📝 Issue
Closes #" +:+
  num issueNumber +:+
  "

---
*This PR was automatically created by AutoFixer. Please review the changes and sandbox previews before merging.*
`".

Definition prScriptTail (repositoryOwner repositoryName branchName defaultBranch : string) : string :=
  ";

    const { data } = await octokit.rest.pulls.create({
      owner: " +:+
  JSON_stringify repositoryOwner +:+
  ",
      repo: " +:+
  JSON_stringify repositoryName +:+
  ",
      title: prTitle,
      body: prBody,
      head: " +:+
  JSON_stringify branchName +:+
  ",
      base: " +:+
  JSON_stringify defaultBranch +:+
  ",
    });

    console.log(JSON.stringify({
      prNumber: data.number,
      prUrl: data.html_url,
      branchName: " +:+
  JSON_stringify branchName +:+
  ",
    }));
  } catch (error) {
    console.error('Error creating PR:', error.message);
    process.exit(1);
  }
}

createPR();
".

Definition prScript
    (githubToken issueTitle beforePreviewUrl beforePreviewToken
     afterPreviewUrl afterPreviewToken changesSummary : string)
    (issueNumber : Z)
    (repositoryOwner repositoryName branchName defaultBranch : string) : string :=
  prScriptHead githubToken issueTitle beforePreviewUrl beforePreviewToken
               afterPreviewUrl afterPreviewToken changesSummary +:+
  prBodySource issueNumber +:+
  prScriptTail repositoryOwner repositoryName branchName defaultBranch.

(** The branch name: the lower-cased title with every run of other
    characters turned into a hyphen, without hyphens at either end, cut at
    50 characters. *)
Definition slug (issueTitle : string) : string :=
  substring0 50
    (strip_trailing_hyphens
       (strip_leading_hyphens
          (replace_unsafe_runs false (toLowerCase rt issueTitle)))).

Definition branchNameOf (issueNumber : Z) (issueTitle : string) : string :=
  "autofix/issue-" +:+ num issueNumber +:+ "-" +:+ slug issueTitle.

Definition NO_CHANGES_SUMMARY : string :=
  "No code changes detected. This PR was created to track the issue resolution process.".

Definition commitMessageFor (issueTitle : string) (issueNumber : Z) : string :=
  "AutoFix: " +:+ issueTitle +:+ newline +:+ newline +:+
  "Fixes #" +:+ num issueNumber +:+ newline +:+ newline +:+
  "This PR was automatically generated by AutoFixer.".

Definition commitCommandFor (issueTitle : string) (issueNumber : Z) : string :=
  "git commit -m '" +:+
  escape_single_quotes (commitMessageFor issueTitle issueNumber) +:+ "'".

Definition gitConfigCommand : string :=
  "git config user.name " +:+ quoted "AutoFixer Bot" +:+
  " && git config user.email " +:+ quoted "autofixer@daytona.io".

Definition createBranchAndPR
    (sandboxId repoName : string) (issueNumber : Z)
    (issueTitle repositoryOwner repositoryName defaultBranch githubToken : string)
    (beforePreviewUrl afterPreviewUrl beforePreviewToken afterPreviewToken : string)
  : M PullRequestResult.t :=
  sandbox <- daytona_get sdk sandboxId ;;
  workDir <- getWorkDir sdk sandbox ;;
  let repoPath := or_else workDir "/home/user" +:+ "/" +:+ repoName in
  let branchName := branchNameOf issueNumber issueTitle in
  let run := fun command => executeCommand sdk sandbox command (Some repoPath) None in
  run gitConfigCommand ;;;
  try_catch
    (run ("git checkout " +:+ defaultBranch) ;;; ret tt)
    (fun _ =>
       run "git fetch origin" ;;;
       run ("git checkout " +:+ defaultBranch) ;;;
       ret tt) ;;;
  statusResult <- run "git status --short" ;;
  let hasChanges := has_output (ExecuteResponse.result statusResult) in
  run ("git checkout -b " +:+ branchName) ;;;
  (if negb hasChanges
   then ret tt
   else
     run "git add -A" ;;;
     run (commitCommandFor issueTitle issueNumber) ;;;
     ret tt) ;;;
  let remoteUrl :=
    "https://" +:+ githubToken +:+ "@github.com/" +:+ repositoryOwner +:+ "/" +:+
    repositoryName +:+ ".git" in
  try_catch
    (run ("git remote set-url origin " +:+ remoteUrl +:+
          " || git remote add origin " +:+ remoteUrl) ;;;
     run ("git push -u origin " +:+ branchName) ;;;
     ret tt)
    (fun error => throw error) ;;;
  changesSummary <-
    (if hasChanges
     then
       try_catch
         (diffResult <-
            run ("git diff " +:+ defaultBranch +:+ ".." +:+ branchName +:+ " --stat") ;;
          ret (or_else (ExecuteResponse.result diffResult) "Changes made (see diff)"))
         (fun _ => ret "Changes made (unable to generate diff summary)")
     else ret NO_CHANGES_SUMMARY) ;;
  let script :=
    prScript githubToken issueTitle beforePreviewUrl beforePreviewToken
             afterPreviewUrl afterPreviewToken changesSummary
             issueNumber repositoryOwner repositoryName branchName defaultBranch in
  let prScriptPath := repoPath +:+ "/.create-pr.js" in
  uploadFile sdk sandbox script prScriptPath ;;;
  prResult <- run ("node " +:+ prScriptPath) ;;
  prData <-
    (let output := or_else (ExecuteResponse.result prResult) "" in
     match match_braces output with
     | Some jsonText =>
         match JSON_parse rt jsonText with
         | Some data => ret data
         | None => throw (mkError "Error" "Failed to create PR")
         end
     | None => throw (mkError "Error" "Failed to create PR")
     end) ;;
  prNumber <- lift (get_prop prData "prNumber") ;;
  prUrl <- lift (get_prop prData "prUrl") ;;
  branchName' <- lift (get_prop prData "branchName") ;;
  ret (PullRequestResult.mk branchName' prUrl prNumber).

(** *** Installing and starting the application *)

Definition setupAndRunApp (sandboxId repoName : string) : M unit :=
  sandbox <- daytona_get sdk sandboxId ;;
  workDir <- getWorkDir sdk sandbox ;;
  let repoPath := or_else workDir "/home/user" +:+ "/" +:+ repoName in
  let run := fun command => executeCommand sdk sandbox command (Some repoPath) None in
  found <-
    try_catch
      (pnpmCheck <- run "which pnpm" ;;
       ret (has_output (ExecuteResponse.result pnpmCheck)))
      (fun _ => ret false) ;;
  usePnpm <-
    (if found : bool
     then ret true
     else
       try_catch
         (run "corepack enable" ;;;
          run "corepack prepare pnpm@latest --activate" ;;;
          ret true)
         (fun _ => ret false)) ;;
  let packageManager := if usePnpm : bool then "pnpm" else "npm" in
  run (packageManager +:+ " install") ;;;
  run ("nohup " +:+ packageManager +:+ " dev > /tmp/dev-server.log 2>&1 &") ;;;
  ret tt.

Definition getPreviewUrl (sandboxId : string) (port : Z) : M PreviewLink.t :=
  sandbox <- daytona_get sdk sandboxId ;;
  previewInfo <- getPreviewLink sdk sandbox port ;;
  ret (PreviewLink.mk (PreviewLink.url previewInfo) (PreviewLink.token previewInfo)).
End Publisher.

(** ** Event filter and issue parser
    ([lib/github-webhook.ts], [lib/issue-parser.ts]) *)

(** [payload.action === 'opened' && payload.issue !== undefined] *)
Definition isIssueOpenedEvent (payload : GitHubWebhookPayload.t) : bool :=
  String.eqb (GitHubWebhookPayload.action payload) "opened" &&
  match GitHubWebhookPayload.issue payload with
  | Undefined => false
  | Null => true
  | Defined _ => true
  end.

(** Reading a property of [payload.issue]. *)
Definition issue_of (payload : GitHubWebhookPayload.t) (property : string)
  : Outcome GitHubIssue.t :=
  match GitHubWebhookPayload.issue payload with
  | Defined issue => Returned issue
  | Null =>
      Thrown (mkError "TypeError"
                ("Cannot read properties of null (reading '" +:+ property +:+ "')"))
  | Undefined =>
      Thrown (mkError "TypeError"
                ("Cannot read properties of undefined (reading '" +:+ property +:+ "')"))
  end.

Definition parseIssue (payload : GitHubWebhookPayload.t) : Outcome ParsedIssue.t :=
  match issue_of payload "number" with
  | Thrown e => Thrown e
  | Returned issue =>
      let repository := GitHubWebhookPayload.repository payload in
      Returned
        (ParsedIssue.mk
           (GitHubIssue.number issue)
           (GitHubIssue.title issue)
           (or_else (GitHubIssue.body issue) "")
           (GitHubRepository.html_url repository)
           (GitHubRepository.name repository)
           (GitHubUser.login (GitHubRepository.owner repository))
           (GitHubRepository.clone_url repository)
           (GitHubRepository.default_branch repository)
           (GitHubIssue.html_url issue))
  end.

Definition nonempty (s : string) : bool := (0 <? String.length s)%nat.

Definition validateParsedIssue (issue : ParsedIssue.t) : bool :=
  (0 <? ParsedIssue.issueNumber issue)%Z &&
  nonempty (ParsedIssue.title issue) &&
  nonempty (ParsedIssue.repositoryName issue) &&
  nonempty (ParsedIssue.repositoryOwner issue) &&
  nonempty (ParsedIssue.cloneUrl issue).

(** ** The webhook handler ([pages/api/github-webhook.ts]) *)

Module Request.
(** [JSON_parse_rawBody] is [JSON.parse(rawBody)] read at the declared type
    of the payload; [None] when the body is not JSON and [JSON.parse]
    throws. *)
Record t := mk {
  method : string;
  x_hub_signature_256 : option string;
  rawBody : string;
  JSON_parse_rawBody : option GitHubWebhookPayload.t
}.
End Request.

Inductive ResponseBody :=
| ErrorBody (error : string)
| MessageBody (message : string)
| ErrorMessageBody (error message : string)
| ProcessedBody (message : string) (issue : ParsedIssue.t)
                (before after : DaytonaWorkspace.t).

Module Response.
Record t := mk { status : Z; json : ResponseBody }.
End Response.

(** [sandboxPair.before.previewUrl = ...; sandboxPair.before.previewToken = ...] *)
Definition withPreview (workspace : DaytonaWorkspace.t) (preview : PreviewLink.t)
  : DaytonaWorkspace.t :=
  DaytonaWorkspace.mk
    (DaytonaWorkspace.id workspace)
    (DaytonaWorkspace.name workspace)
    (DaytonaWorkspace.project_name workspace)
    (DaytonaWorkspace.project_repository_url workspace)
    (DaytonaWorkspace.status workspace)
    (Some (PreviewLink.url preview))
    (Some (PreviewLink.token preview)).

(** [claudeResult.result?.substring(0, 200) || 'No result'], evaluated for
    the log: the optional chain stops at a missing [result], a string has
    [substring], any other value has not. *)
Definition readClaudeResult (claudeResult : JsVal) : Outcome unit :=
  match get_prop claudeResult "result" with
  | Thrown e => Thrown e
  | Returned JUndefined | Returned JNull | Returned (JStr _) => Returned tt
  | Returned _ =>
      Thrown (mkError "TypeError" "claudeResult.result?.substring is not a function")
  end.

Section Handler.
Variable rt : Runtime.
Variable env : ProcessEnv.
Variable sdk : Daytona.

(** [db.updateIssue], with [new Date()] read at the call. *)
Definition updateIssue (issueNumber : Z) (updates : Updates.t) : M unit :=
  h <- get_calls ;;
  db.updateIssue (Date_now env h) issueNumber updates.

(** Steps 1 to 5: both sandboxes, the application in BEFORE, the agent in
    AFTER, the application in AFTER, and the preview links. *)
Definition steps1to5 (parsedIssue : ParsedIssue.t) (anthropicApiKey : string)
  : M (SandboxPair.t * PreviewLink.t * PreviewLink.t) :=
  let repositoryName := ParsedIssue.repositoryName parsedIssue in
  sandboxPair <- createSandboxPair env sdk parsedIssue anthropicApiKey ;;
  let before := SandboxPair.before sandboxPair in
  let after := SandboxPair.after sandboxPair in
  setupAndRunApp sdk (DaytonaWorkspace.id before) repositoryName ;;;
  claudeResult <-
    runClaudeCodeInSandbox rt sdk (DaytonaWorkspace.id after) repositoryName
      (ParsedIssue.title parsedIssue) (ParsedIssue.body parsedIssue) ;;
  lift (readClaudeResult claudeResult) ;;;
  setupAndRunApp sdk (DaytonaWorkspace.id after) repositoryName ;;;
  beforePreview <- getPreviewUrl sdk (DaytonaWorkspace.id before) 3000 ;;
  afterPreview <- getPreviewUrl sdk (DaytonaWorkspace.id after) 3000 ;;
  ret (SandboxPair.mk (withPreview before beforePreview)
                      (withPreview after afterPreview),
       beforePreview, afterPreview).

(** Step 6: branch, push and pull request, when a GitHub token is set. *)
Definition step6 (parsedIssue : ParsedIssue.t) (afterId : string)
    (beforePreview afterPreview : PreviewLink.t) : M unit :=
  match truthy (GITHUB_TOKEN env) with
  | None => ret tt
  | Some githubToken =>
      attempt
        (createBranchAndPR rt sdk
           afterId (ParsedIssue.repositoryName parsedIssue)
           (ParsedIssue.issueNumber parsedIssue)
           (ParsedIssue.title parsedIssue)
           (ParsedIssue.repositoryOwner parsedIssue)
           (ParsedIssue.repositoryName parsedIssue)
           (ParsedIssue.defaultBranch parsedIssue) githubToken
           (PreviewLink.url beforePreview) (PreviewLink.url afterPreview)
           (PreviewLink.token beforePreview) (PreviewLink.token afterPreview))
  end.

Definition completedUpdates (sandboxPair : SandboxPair.t) : Updates.t :=
  Updates.mk (Some (DaytonaWorkspace.id (SandboxPair.before sandboxPair)))
             (Some (DaytonaWorkspace.id (SandboxPair.after sandboxPair)))
             (Some completed).

(** The run, once the credentials are known. *)
Definition pipeline (parsedIssue : ParsedIssue.t) (anthropicApiKey : string)
  : M Response.t :=
  let issueNumber := ParsedIssue.issueNumber parsedIssue in
  updateIssue issueNumber (Updates.only_status processing) ;;;
  prepared <- steps1to5 parsedIssue anthropicApiKey ;;
  let '(sandboxPair, beforePreview, afterPreview) := prepared in
  step6 parsedIssue (DaytonaWorkspace.id (SandboxPair.after sandboxPair))
        beforePreview afterPreview ;;;
  updateIssue issueNumber (completedUpdates sandboxPair) ;;;
  ret (Response.mk 200
         (ProcessedBody "Issue processed successfully" parsedIssue
            (SandboxPair.before sandboxPair) (SandboxPair.after sandboxPair))).

(** The part of the handler after the event filter. *)
Definition processOpened (payload : GitHubWebhookPayload.t) : M Response.t :=
  lift (issue_of payload "number") ;;;
  parsedIssue <- lift (parseIssue payload) ;;
  if negb (validateParsedIssue parsedIssue)
  then ret (Response.mk 400 (ErrorBody "Invalid issue data"))
  else
    h <- get_calls ;;
    let issueRecord :=
      InMemoryIssue.mk
        (ParsedIssue.issueNumber parsedIssue)
        (ParsedIssue.repositoryName parsedIssue)
        (ParsedIssue.repositoryOwner parsedIssue)
        (ParsedIssue.title parsedIssue)
        (ParsedIssue.body parsedIssue)
        None None pending (Date_now env h) (Date_now env h) in
    db.saveIssue issueRecord ;;;
    match truthy (DAYTONA_API_KEY env) with
    | None =>
        updateIssue (ParsedIssue.issueNumber parsedIssue) (Updates.only_status failed) ;;;
        ret (Response.mk 500 (ErrorBody "Daytona API key not configured"))
    | Some daytonaApiKey =>
        match truthy (ANTHROPIC_API_KEY env) with
        | None =>
            updateIssue (ParsedIssue.issueNumber parsedIssue) (Updates.only_status failed) ;;;
            ret (Response.mk 500 (ErrorBody "Anthropic API key not configured"))
        | Some anthropicApiKey => pipeline parsedIssue anthropicApiKey
        end
    end.

Definition handler (req : Request.t) : M Response.t :=
  if negb (String.eqb (Request.method req) "POST")
  then ret (Response.mk 405 (ErrorBody "Method not allowed"))
  else
    try_catch
      (match truthy (WEBHOOK_SECRET env) with
       | None => ret (Response.mk 500 (ErrorBody "Server configuration error"))
       | Some webhookSecret =>
           isValid <-
             lift (verifyGitHubSignature rt (Request.rawBody req)
                     (Request.x_hub_signature_256 req) webhookSecret) ;;
           if negb isValid
           then ret (Response.mk 401 (ErrorBody "Invalid signature"))
           else
             match Request.JSON_parse_rawBody req with
             | None => throw (mkError "SyntaxError" "Unexpected token in JSON")
             | Some payload =>
                 if negb (isIssueOpenedEvent payload)
                 then ret (Response.mk 200 (MessageBody "Event ignored"))
                 else processOpened payload
             end
       end)
      (fun error =>
         ret (Response.mk 500
                (ErrorMessageBody "Internal server error" (err_message error)))).
End Handler.

(** ** A reference runtime

    SHA-256 and HMAC (FIPS 180-4, RFC 2104), a JSON reader (RFC 8259) and
    the lower-casing of ASCII letters, used to run the pipeline on concrete
    requests.  The properties below hold for every [Runtime]; this one
    serves to evaluate them. *)

Module SHA256.
Local Open Scope N_scope.
Definition w32 (x : N) : N := N.land x 4294967295.
Definition add32 (x y : N) : N := w32 (x + y).
Definition rotr (n x : N) : N := N.lor (N.shiftr x n) (w32 (N.shiftl x (32 - n))).
Definition not32 (x : N) : N := N.lxor x 4294967295.
Definition Ch (x y z : N) : N := N.lxor (N.land x y) (N.land (not32 x) z).
Definition Maj (x y z : N) : N := N.lxor (N.lxor (N.land x y) (N.land x z)) (N.land y z).
Definition Sigma0 (x : N) : N := N.lxor (N.lxor (rotr 2 x) (rotr 13 x)) (rotr 22 x).
Definition Sigma1 (x : N) : N := N.lxor (N.lxor (rotr 6 x) (rotr 11 x)) (rotr 25 x).
Definition sigma0 (x : N) : N := N.lxor (N.lxor (rotr 7 x) (rotr 18 x)) (N.shiftr x 3).
Definition sigma1 (x : N) : N := N.lxor (N.lxor (rotr 17 x) (rotr 19 x)) (N.shiftr x 10).

(** The constants are the first 32 bits of the fractional parts of the
    cube roots (for [K]) and of the square roots (for [H0]) of the first
    primes. *)
Definition is_prime (n : nat) : bool :=
  forallb (fun d => negb (n mod d =? 0)%nat) (seq 2 (n - 2)).

Definition primes : list N :=
  Eval vm_compute in map N.of_nat (filter is_prime (seq 2 310)).

(** The largest [x] below [2 ^ bits] with [x ^ 3 <= n], found bit by bit. *)
Fixpoint cube_root (bits : nat) (n acc : N) : N :=
  match bits with
  | O => acc
  | S b =>
      let candidate := acc + 2 ^ N.of_nat b in
      if candidate * candidate * candidate <=? n
      then cube_root b n candidate
      else cube_root b n acc
  end.

Definition K : list N :=
  Eval vm_compute in map (fun p => w32 (cube_root 40 (p * 2 ^ 96) 0)) primes.

Record state := mkState { sa : N; sb : N; sc : N; sd : N; se : N; sf : N; sg : N; sh : N }.

Definition fractional_sqrt (p : N) : N := w32 (N.sqrt (p * 2 ^ 64)).

Definition H0 : state :=
  Eval vm_compute in
    match map fractional_sqrt (firstn 8 primes) with
    | [a; b; c; d; e; f; g; h] => mkState a b c d e f g h
    | _ => mkState 0 0 0 0 0 0 0 0
    end.

(** message schedule: [rev_w] holds W[t-1], W[t-2], ... *)
Fixpoint extend (n : nat) (rev_w : list N) : list N :=
  match n with
  | O => rev_w
  | S n' =>
      let w := add32 (add32 (sigma1 (nth 1 rev_w 0)) (nth 6 rev_w 0))
                     (add32 (sigma0 (nth 14 rev_w 0)) (nth 15 rev_w 0)) in
      extend n' (w :: rev_w)
  end.

Definition round (s : state) (kw : N * N) : state :=
  let t1 := add32 (add32 (add32 (sh s) (Sigma1 (se s))) (add32 (Ch (se s) (sf s) (sg s)) (fst kw))) (snd kw) in
  let t2 := add32 (Sigma0 (sa s)) (Maj (sa s) (sb s) (sc s)) in
  mkState (add32 t1 t2) (sa s) (sb s) (sc s) (add32 (sd s) t1) (se s) (sf s) (sg s).

Fixpoint words_of (bytes : list N) : list N :=
  match bytes with
  | a :: b :: c :: d :: r => (a * 16777216 + b * 65536 + c * 256 + d) :: words_of r
  | _ => []
  end.

Definition compress (s : state) (block : list N) : state :=
  let w := rev (extend 48 (rev (words_of block))) in
  let s' := fold_left round (combine K w) s in
  mkState (add32 (sa s) (sa s')) (add32 (sb s) (sb s')) (add32 (sc s) (sc s')) (add32 (sd s) (sd s'))
          (add32 (se s) (se s')) (add32 (sf s) (sf s')) (add32 (sg s) (sg s')) (add32 (sh s) (sh s')).

Definition be_bytes (n : nat) (x : N) : list N :=
  map (fun i => N.land (N.shiftr x (8 * N.of_nat i)) 255) (rev (seq 0 n)).

Definition pad (msg : list N) : list N :=
  let len := length msg in
  let zeros := ((64 - ((len + 9) mod 64)) mod 64)%nat in
  msg ++ [128] ++ repeat 0 zeros ++ be_bytes 8 (8 * N.of_nat len).

Fixpoint blocks (n : nat) (s : state) (bytes : list N) : state :=
  match n with
  | O => s
  | S n' => blocks n' (compress s (firstn 64 bytes)) (skipn 64 bytes)
  end.

Definition digest_state (msg : list N) : state :=
  let p := pad msg in blocks (length p / 64) H0 p.

Definition digest (msg : list N) : list N :=
  let s := digest_state msg in
  be_bytes 4 (sa s) ++ be_bytes 4 (sb s) ++ be_bytes 4 (sc s) ++ be_bytes 4 (sd s) ++
  be_bytes 4 (se s) ++ be_bytes 4 (sf s) ++ be_bytes 4 (sg s) ++ be_bytes 4 (sh s).

Definition xor_pad (p : N) (key : list N) : list N :=
  map (fun k => N.lxor k p) (key ++ repeat 0 (64 - length key)).

Definition hmac (key msg : list N) : list N :=
  let key' := if (64 <? length key)%nat then digest key else key in
  digest (xor_pad 0x5c key' ++ digest (xor_pad 0x36 key' ++ msg)).

Definition bytes_of_string (s : string) : list N := map N_of_ascii (list_ascii_of_string s).
Definition hex1 (n : N) : ascii :=
  match String.get (N.to_nat n) "0123456789abcdef" with Some c => c | None => "?"%char end.
Fixpoint hex (bytes : list N) : string :=
  match bytes with
  | [] => EmptyString
  | b :: r => String (hex1 (N.shiftr b 4)) (String (hex1 (N.land b 15)) (hex r))
  end.
Definition hmac_hex (key msg : string) : string := hex (hmac (bytes_of_string key) (bytes_of_string msg)).
End SHA256.

Module JSON.
Definition is_ws (c : ascii) : bool :=
  let n := nat_of_ascii c in
  (n =? 32)%nat || (n =? 9)%nat || (n =? 10)%nat || (n =? 13)%nat.

Fixpoint skip_ws (s : string) : string :=
  match s with
  | String c r => if is_ws c then skip_ws r else s
  | EmptyString => EmptyString
  end.

Definition is_digit (c : ascii) : bool :=
  let n := nat_of_ascii c in (48 <=? n)%nat && (n <=? 57)%nat.

Definition hex_value (c : ascii) : option nat :=
  let n := nat_of_ascii c in
  if (48 <=? n)%nat && (n <=? 57)%nat then Some (n - 48)%nat
  else if (97 <=? n)%nat && (n <=? 102)%nat then Some (n - 87)%nat
  else if (65 <=? n)%nat && (n <=? 70)%nat then Some (n - 55)%nat
  else None.

(** four hexadecimal digits *)
Definition hex4 (s : string) : option (N * string) :=
  match s with
  | String a (String b (String c (String d r))) =>
      match hex_value a, hex_value b, hex_value c, hex_value d with
      | Some x, Some y, Some z, Some w =>
          Some (N.of_nat (((x * 16 + y) * 16 + z) * 16 + w), r)
      | _, _, _, _ => None
      end
  | _ => None
  end.

Definition byte (n : N) : string := String (ascii_of_N n) EmptyString.

(** UTF-8 of a code point; a lone surrogate is written like any other
   three-byte value *)
Definition utf8 (cp : N) : string :=
  (if cp <? 128 then byte cp
   else if cp <? 2048 then byte (192 + cp / 64) +:+ byte (128 + cp mod 64)
   else if cp <? 65536 then
     byte (224 + cp / 4096) +:+ byte (128 + cp / 64 mod 64) +:+ byte (128 + cp mod 64)
   else
     byte (240 + cp / 262144) +:+ byte (128 + cp / 4096 mod 64) ++
     byte (128 + cp / 64 mod 64) +:+ byte (128 + cp mod 64))%N.

Definition is_high_surrogate (u : N) : bool := ((55296 <=? u) && (u <? 56320))%N.
Definition is_low_surrogate (u : N) : bool := ((56320 <=? u) && (u <? 57344))%N.

(** the characters of a string literal, after its opening quote *)
Fixpoint parse_string (fuel : nat) (s : string) : option (string * string) :=
  match fuel with
  | O => None
  | S fuel' =>
      match s with
      | EmptyString => None
      | String c r =>
          let n := nat_of_ascii c in
          if (n =? 34)%nat then Some (EmptyString, r)
          else if (n <? 32)%nat then None
          else if (n =? 92)%nat then
            match r with
            | EmptyString => None
            | String e r' =>
                let continue_with (text rest : string) :=
                  match parse_string fuel' rest with
                  | Some (t, rest') => Some (text +:+ t, rest')
                  | None => None
                  end in
                let m := nat_of_ascii e in
                if (m =? 34)%nat then continue_with dq r'
                else if (m =? 92)%nat then continue_with (byte 92) r'
                else if (m =? 47)%nat then continue_with "/" r'
                else if (m =? 98)%nat then continue_with (byte 8) r'
                else if (m =? 102)%nat then continue_with (byte 12) r'
                else if (m =? 110)%nat then continue_with (byte 10) r'
                else if (m =? 114)%nat then continue_with (byte 13) r'
                else if (m =? 116)%nat then continue_with (byte 9) r'
                else if (m =? 117)%nat then
                  match hex4 r' with
                  | Some (u, r2) =>
                      if is_high_surrogate u then
                        match r2 with
                        | String b1 (String b2 r3) =>
                            if ((nat_of_ascii b1 =? 92) && (nat_of_ascii b2 =? 117))%nat then
                              match hex4 r3 with
                              | Some (l, r4) =>
                                  if is_low_surrogate l
                                  then continue_with
                                         (utf8 (65536 + (u - 55296) * 1024 + (l - 56320))%N) r4
                                  else continue_with (utf8 u) r2
                              | None => None
                              end
                            else continue_with (utf8 u) r2
                        | _ => continue_with (utf8 u) r2
                        end
                      else continue_with (utf8 u) r2
                  | None => None
                  end
                else None
            end
          else
            match parse_string fuel' r with
            | Some (t, rest) => Some (String c t, rest)
            | None => None
            end
      end
  end.

Fixpoint take_digits (s : string) : string * string :=
  match s with
  | String c r =>
      if is_digit c then let (d, rest) := take_digits r in (String c d, rest)
      else (EmptyString, s)
  | EmptyString => (EmptyString, EmptyString)
  end.

Fixpoint digits_value (acc : Z) (s : string) : Z :=
  match s with
  | String c r => digits_value (acc * 10 + Z.of_nat (nat_of_ascii c - 48)) r
  | EmptyString => acc
  end.

Definition starts_with (c : ascii) (s : string) : bool :=
  match s with String d _ => Ascii.eqb c d | EmptyString => false end.

Definition tail (s : string) : string :=
  match s with String _ r => r | EmptyString => EmptyString end.

(** a number: optional minus, integer part without leading zero, optional
   fraction, optional exponent *)
Definition parse_number (s : string) : option (JsVal * string) :=
  let negative := starts_with "-" s in
  let s1 := if negative then tail s else s in
  let (whole, s2) := take_digits s1 in
  if String.eqb whole EmptyString then None
  else if starts_with "0" whole && negb (String.eqb whole "0") then None
  else
    let frac :=
      if starts_with "." s2
      then let (f, r) := take_digits (tail s2) in
           if String.eqb f EmptyString then None else Some ("." +:+ f, r)
      else Some (EmptyString, s2) in
    match frac with
    | None => None
    | Some (ftext, s3) =>
        let exp :=
          if starts_with "e" s3 || starts_with "E" s3
          then
            let s4 := tail s3 in
            let sign := if starts_with "+" s4 then "+" else if starts_with "-" s4 then "-" else "" in
            let s5 := if String.eqb sign "" then s4 else tail s4 in
            let (e, r) := take_digits s5 in
            if String.eqb e EmptyString then None else Some ("e" +:+ sign +:+ e, r)
          else Some (EmptyString, s3) in
        match exp with
        | None => None
        | Some (etext, s6) =>
            if String.eqb ftext EmptyString && String.eqb etext EmptyString
            then Some (JNum (if negative then - digits_value 0 whole else digits_value 0 whole), s6)
            else Some (JFloat ((if negative then "-" else "") +:+ whole +:+ ftext +:+ etext), s6)
        end
    end.

Definition expect (word : string) (v : JsVal) (s : string) : option (JsVal * string) :=
  if String.prefix word s
  then Some (v, String.substring (String.length word) (String.length s - String.length word) s)
  else None.

Fixpoint has_key (k : string) (fields : list (string * JsVal)) : bool :=
  match fields with
  | [] => false
  | (k', _) :: r => String.eqb k k' || has_key k r
  end.

Fixpoint parse_value (fuel : nat) (s : string) {struct fuel} : option (JsVal * string) :=
  match fuel with
  | O => None
  | S f =>
      match skip_ws s with
      | EmptyString => None
      | String c r as t =>
          let n := nat_of_ascii c in
          if (n =? 123)%nat then
            if starts_with "}" (skip_ws r) then Some (JObj [], tail (skip_ws r))
            else match parse_members f r with
                 | Some (fields, rest) => Some (JObj fields, rest)
                 | None => None
                 end
          else if (n =? 91)%nat then
            if starts_with "]" (skip_ws r) then Some (JArr [], tail (skip_ws r))
            else match parse_elements f r with
                 | Some (items, rest) => Some (JArr items, rest)
                 | None => None
                 end
          else if (n =? 34)%nat then
            match parse_string (String.length r + 1) r with
            | Some (text, rest) => Some (JStr text, rest)
            | None => None
            end
          else if (n =? 116)%nat then expect "true" (JBool true) t
          else if (n =? 102)%nat then expect "false" (JBool false) t
          else if (n =? 110)%nat then expect "null" JNull t
          else parse_number t
      end
  end
with parse_elements (fuel : nat) (s : string) {struct fuel} : option (list JsVal * string) :=
  match fuel with
  | O => None
  | S f =>
      match parse_value f s with
      | Some (v, r) =>
          let r' := skip_ws r in
          if starts_with "," r' then
            match parse_elements f (tail r') with
            | Some (vs, rest) => Some (v :: vs, rest)
            | None => None
            end
          else if starts_with "]" r' then Some ([v], tail r')
          else None
      | None => None
      end
  end
with parse_members (fuel : nat) (s : string) {struct fuel}
  : option (list (string * JsVal) * string) :=
  match fuel with
  | O => None
  | S f =>
      match skip_ws s with
      | String c r =>
          if (nat_of_ascii c =? 34)%nat then
            match parse_string (String.length r + 1) r with
            | Some (key, r1) =>
                let r2 := skip_ws r1 in
                if starts_with ":" r2 then
                  match parse_value f (tail r2) with
                  | Some (v, r3) =>
                      let r4 := skip_ws r3 in
                      if starts_with "," r4 then
                        match parse_members f (tail r4) with
                        | Some (fields, rest) =>
                            Some (if has_key key fields then fields else (key, v) :: fields, rest)
                        | None => None
                        end
                      else if starts_with "}" r4 then Some ([(key, v)], tail r4)
                      else None
                  | None => None
                  end
                else None
            | None => None
            end
          else None
      | EmptyString => None
      end
  end.

(** [JSON.parse(text)]: one value, then only white space *)
Definition parse (text : string) : option JsVal :=
  match parse_value (2 * String.length text + 2) text with
  | Some (v, rest) => if String.eqb (skip_ws rest) EmptyString then Some v else None
  | None => None
  end.
End JSON.

Definition ascii_lower (c : ascii) : ascii :=
  let n := nat_of_ascii c in
  if ((65 <=? n) && (n <=? 90))%nat then ascii_of_nat (n + 32) else c.

Fixpoint ascii_toLowerCase (s : string) : string :=
  match s with
  | EmptyString => EmptyString
  | String c r => String (ascii_lower c) (ascii_toLowerCase r)
  end.

(** [toLowerCase] is the one of the platform on ASCII text only. *)
Definition node : Runtime :=
  Build_Runtime SHA256.hmac_hex JSON.parse ascii_toLowerCase.

(** ** Sample requests and providers *)

Module Sample.

Definition issue42 : GitHubIssue.t :=
  GitHubIssue.mk 42 "Button not clickable" (Some "click does nothing")
                 "https://github.com/octo/demo-app/issues/42".

Definition repository : GitHubRepository.t :=
  GitHubRepository.mk "demo-app" (GitHubUser.mk "octo")
                      "https://github.com/octo/demo-app.git"
                      "https://github.com/octo/demo-app" "main".

Definition payloadWith (action : string) (issue : JsOpt GitHubIssue.t)
  : GitHubWebhookPayload.t :=
  GitHubWebhookPayload.mk action issue repository.

Definition secret : string := "s3cret".

(** The JSON text of a payload, as GitHub would send it: the request body. *)
Definition member (key value : string) : string := quoted key +:+ ":" +:+ value.

Definition issueJson (issue : GitHubIssue.t) : string :=
  "{" +:+ member "number" (num (GitHubIssue.number issue)) +:+ "," +:+
  member "title" (JSON_stringify (GitHubIssue.title issue)) +:+ "," +:+
  member "body" (match GitHubIssue.body issue with
                 | Some text => JSON_stringify text
                 | None => "null"
                 end) +:+ "," +:+
  member "html_url" (JSON_stringify (GitHubIssue.html_url issue)) +:+ "}".

Definition repositoryJson (r : GitHubRepository.t) : string :=
  "{" +:+ member "name" (JSON_stringify (GitHubRepository.name r)) +:+ "," +:+
  member "owner"
    ("{" +:+ member "login" (JSON_stringify (GitHubUser.login (GitHubRepository.owner r)))
     +:+ "}") +:+ "," +:+
  member "clone_url" (JSON_stringify (GitHubRepository.clone_url r)) +:+ "," +:+
  member "html_url" (JSON_stringify (GitHubRepository.html_url r)) +:+ "," +:+
  member "default_branch" (JSON_stringify (GitHubRepository.default_branch r)) +:+ "}".

Definition bodyOf (payload : GitHubWebhookPayload.t) : string :=
  "{" +:+ member "action" (JSON_stringify (GitHubWebhookPayload.action payload)) +:+ "," +:+
  match GitHubWebhookPayload.issue payload with
  | Undefined => ""
  | Null => member "issue" "null" +:+ ","
  | Defined issue => member "issue" (issueJson issue) +:+ ","
  end +:+
  member "repository" (repositoryJson (GitHubWebhookPayload.repository payload)) +:+ "}".

(** A parsed body read at the declared type of the payload: the cast of
    [parseWebhookPayload], for the values that have that type. *)
Definition stringAt (key : string) (v : JsVal) : option string :=
  match v with
  | JObj fields =>
      match lookup_field key fields with JStr text => Some text | _ => None end
  | _ => None
  end.

Definition objectAt (key : string) (v : JsVal) : option JsVal :=
  match v with
  | JObj fields =>
      match lookup_field key fields with JObj inner => Some (JObj inner) | _ => None end
  | _ => None
  end.

Definition readIssue (v : JsVal) : option GitHubIssue.t :=
  match v with
  | JObj fields =>
      match lookup_field "number" fields, stringAt "title" v, stringAt "html_url" v with
      | JNum n, Some title, Some url =>
          match lookup_field "body" fields with
          | JStr text => Some (GitHubIssue.mk n title (Some text) url)
          | JNull => Some (GitHubIssue.mk n title None url)
          | _ => None
          end
      | _, _, _ => None
      end
  | _ => None
  end.

Definition readRepository (v : JsVal) : option GitHubRepository.t :=
  match stringAt "name" v, objectAt "owner" v, stringAt "clone_url" v,
        stringAt "html_url" v, stringAt "default_branch" v with
  | Some name, Some owner, Some clone, Some html, Some branch =>
      match stringAt "login" owner with
      | Some login =>
          Some (GitHubRepository.mk name (GitHubUser.mk login) clone html branch)
      | None => None
      end
  | _, _, _, _, _ => None
  end.

Definition readPayload (v : JsVal) : option GitHubWebhookPayload.t :=
  match v with
  | JObj fields =>
      match stringAt "action" v, objectAt "repository" v with
      | Some action, Some repo =>
          match readRepository repo with
          | Some r =>
              match lookup_field "issue" fields with
              | JUndefined => Some (GitHubWebhookPayload.mk action Undefined r)
              | JNull => Some (GitHubWebhookPayload.mk action Null r)
              | issue =>
                  match readIssue issue with
                  | Some i => Some (GitHubWebhookPayload.mk action (Defined i) r)
                  | None => None
                  end
              end
          | None => None
          end
      | _, _ => None
      end
  | _ => None
  end.

(** The request GitHub sends for a payload: the signature is the HMAC of
    the body under the shared secret. *)
Definition signedRequest (payload : GitHubWebhookPayload.t) : Request.t :=
  Request.mk "POST" (Some ("sha256=" +:+ SHA256.hmac_hex secret (bodyOf payload)))
             (bodyOf payload) (Some payload).

Definition opened42 : Request.t :=
  signedRequest (payloadWith "opened" (Defined issue42)).

Definition openedNullIssue : Request.t :=
  signedRequest (payloadWith "opened" Null).

Definition closed42 : Request.t :=
  signedRequest (payloadWith "closed" (Defined issue42)).

(** A header that is not the digest, and shorter. *)
Definition shortHeader42 : Request.t :=
  Request.mk "POST" (Some "sha256=abc")
             (bodyOf (payloadWith "opened" (Defined issue42)))
             (Some (payloadWith "opened" (Defined issue42))).

Definition parsed42 : ParsedIssue.t :=
  ParsedIssue.mk 42 "Button not clickable" "click does nothing"
                 "https://github.com/octo/demo-app" "demo-app" "octo"
                 "https://github.com/octo/demo-app.git" "main"
                 "https://github.com/octo/demo-app/issues/42".

Definition env : ProcessEnv :=
  Build_ProcessEnv (Some secret) (Some "dtn-key") None (Some "sk-ant-key")
                   (Some "ghp-token")
                   (fun h => 1700000000000 + Z.of_nat (List.length h)).

Definition ok (result : string) : Outcome ExecuteResponse.t :=
  Returned (ExecuteResponse.mk 0 (Some result)).

(** What the sandbox prints for a command: the agent answers with JSON
    and the tree has one modified file, or as the provider at hand says. *)
Definition agentJson : string :=
  "{" +:+ quoted "type" +:+ ":" +:+ quoted "result" +:+ "," +:+
  quoted "result" +:+ ":" +:+ quoted "Fixed the click handler" +:+ "}".

(** What [node] prints for the PR script. *)
Definition nodeOutput : string := "SyntaxError: Unexpected token '{'".

Definition output (statusText agentText : string) (command : string) : string :=
  if String.prefix "su claude" command then agentText
  else if String.eqb command "git status --short" then statusText
  else if String.prefix "node " command then nodeOutput
  else if String.eqb command "which pnpm" then "/usr/bin/pnpm"
  else "".

(** A provider is given by what [create] and [executeCommand] do; the
    other calls succeed, and every answer comes within ten seconds. *)
Definition provider
    (create : list Call -> CreateOptions.t -> Outcome Sandbox.t)
    (exec : list Call -> string -> option Z -> Outcome ExecuteResponse.t)
  : Daytona :=
  Build_Daytona
    create
    (fun _ sandboxId => Returned (Sandbox.mk sandboxId sandboxId (Some "started")))
    (fun h _ command _ timeout => exec h command timeout)
    (fun _ _ => Returned (Some "/home/daytona"))
    (fun _ _ _ _ _ _ => Returned tt)
    (fun _ sandboxId port =>
       Returned (PreviewLink.mk ("https://" +:+ num port +:+ "-" +:+ sandboxId +:+ ".proxy.daytona.works")
                                ("token-" +:+ sandboxId)))
    (fun _ _ _ _ => Returned tt)
    (fun _ => O).

(** The same provider, slow: the agent command stays pending long enough
    for [polls] polls of the progress timer. *)
Definition slow (polls : nat) (sdk : Daytona) : Daytona :=
  Build_Daytona (sdk_create sdk) (sdk_get sdk) (sdk_executeCommand sdk)
                (sdk_getWorkDir sdk) (sdk_git_clone sdk) (sdk_getPreviewLink sdk)
                (sdk_uploadFile sdk) (fun _ => polls).

Definition createOk (h : list Call) (options : CreateOptions.t) : Outcome Sandbox.t :=
  Returned (Sandbox.mk ("sb-" +:+ CreateOptions.name options)
                       (CreateOptions.name options) (Some "started")).

(** All calls succeed, the agent changed a file. *)
Definition cooperative : Daytona :=
  provider createOk (fun _ command _ => ok (output " M src/Button.tsx" agentJson command)).

(** The agent prints plain text and changes nothing. *)
Definition idle : Daytona :=
  provider createOk (fun _ command _ => ok (output "" "I could not find the bug." command)).

(** The provider refuses the first sandbox. *)
Definition refusesFirst : Daytona :=
  provider (fun _ _ => Thrown (mkError "DaytonaError" "quota exceeded"))
           (fun _ command _ => ok (output " M src/Button.tsx" agentJson command)).

(** The provider refuses a sandbox once one exists. *)
Definition refusesSecond : Daytona :=
  provider (fun h options =>
              if existsb is_create h
              then Thrown (mkError "DaytonaError" "quota exceeded")
              else createOk h options)
           (fun _ command _ => ok (output " M src/Button.tsx" agentJson command)).

(** The agent command runs into its ten minute timeout; the progress
    timer has polled sixty times by then. *)
Definition agentTimesOut : Daytona :=
  slow 60
    (provider createOk
       (fun _ command _ =>
          if String.prefix "su claude" command
          then Thrown (mkError "DaytonaError" "command timeout exceeded")
          else ok (output " M src/Button.tsx" agentJson command))).

(** The remote rejects the push. *)
Definition pushFails : Daytona :=
  provider createOk
           (fun _ command _ =>
              if String.prefix "git push" command
              then Thrown (mkError "DaytonaError" "Authentication failed")
              else ok (output " M src/Button.tsx" agentJson command)).

Definition emptyWorld : World := mkWorld ∅ [].

(** The record of issue 42 as the handler first stores it, and a store
    that holds it. *)
Definition pending42 : InMemoryIssue.t :=
  InMemoryIssue.mk 42 "demo-app" "octo" "Button not clickable" "click does nothing"
                   None None pending 1600000000000 1600000000000.

Definition pendingWorld : World := mkWorld {[ 42 := pending42 ]} [].


(** The surroundings without a GitHub token. *)
Definition envWithoutToken : ProcessEnv :=
  Build_ProcessEnv (Some secret) (Some "dtn-key") None (Some "sk-ant-key") None
                   (fun h => 1700000000000 + Z.of_nat (List.length h)).

(** The agent fails with exit code 1 and still prints its JSON. *)
Definition agentFails : Daytona :=
  provider createOk
           (fun _ command _ =>
              if String.prefix "su claude" command
              then Returned (ExecuteResponse.mk 1 (Some agentJson))
              else ok (output " M src/Button.tsx" agentJson command)).

(** The agent prints nothing. *)
Definition silent : Daytona :=
  provider createOk (fun _ command _ => ok (output "" "" command)).

(** The agent prints JSON whose [result] is a number. *)
Definition numeric : Daytona :=
  provider createOk
           (fun _ command _ =>
              ok (output "" ("{" +:+ quoted "result" +:+ ":5}") command)).


End Sample.

(** * Vocabulary of the properties *)

(** ** Strings *)

Fixpoint all_chars (p : ascii -> bool) (s : string) : bool :=
  match s with
  | EmptyString => true
  | String c r => p c && all_chars p r
  end.

(** The characters a branch name slug may hold. *)
Definition is_safe (c : ascii) : bool := is_lower_alnum c || is_hyphen c.

(** The text of a JavaScript template literal: [s] starts at the opening
    backquote; the literal runs to the next backquote that no backslash
    precedes.  The result is the text between the two and what follows the
    closing backquote.  A [${] opens a substitution, which this scan does
    not follow: it gives up there. *)
Fixpoint template_chars (s : string) : option (string * string) :=
  match s with
  | EmptyString => None
  | String c r =>
      if Ascii.eqb c "`"%char then Some (EmptyString, r)
      else if Ascii.eqb c (ascii_of_nat 92) then
        match r with
        | String d r' =>
            match template_chars r' with
            | Some (t, rest) => Some (String c (String d t), rest)
            | None => None
            end
        | EmptyString => None
        end
      else if Ascii.eqb c "$"%char && String.prefix "{" r then None
      else
        match template_chars r with
        | Some (t, rest) => Some (String c t, rest)
        | None => None
        end
  end.

Definition template_literal (s : string) : option (string * string) :=
  match s with
  | String c r => if Ascii.eqb c "`"%char then template_chars r else None
  | EmptyString => None
  end.

(** ** Requests and store *)

(** [io P Q m]: running [m] leaves the run store as it is, sends only
    requests that satisfy [P], and returns only values that satisfy [Q]. *)

Definition io {A} (P : Call -> Prop) (Q : A -> Prop) (m : M A) : Prop :=
  forall w,
    issues (snd (m w)) = issues w /\
    (exists ext, calls (snd (m w)) = (calls w ++ ext)%list /\ Forall P ext) /\
    (forall a, fst (m w) = Returned a -> Q a).

Definition any {A} : A -> Prop := fun _ => True.

(** The commands among a list of requests, in order. *)
Definition commandsOf (h : list Call) : list string :=
  flat_map (fun c => match c with
                     | CExecuteCommand _ command _ _ => [command]
                     | _ => []
                     end) h.

(** The requests of the preparation (steps 1 to 5): every sandbox is
    created public, no command is a [git] command, no file is uploaded. *)
Definition is_git (command : string) : bool := String.prefix "git " command.

Definition preparing (c : Call) : Prop :=
  match c with
  | CCreate options => CreateOptions.public options = true
  | CExecuteCommand _ command _ _ =>
      is_git command = false /\ String.prefix "node " command = false
  | CUploadFile _ _ _ => False
  | _ => True
  end.

(** The requests that set up one sandbox: the only [create] is the one with
    the given options. *)
Definition setting_up (options : CreateOptions.t) (c : Call) : Prop :=
  match c with
  | CCreate options' => options' = options
  | _ => preparing c
  end.

(** The requests of the publication (step 6): no sandbox is created. *)
Definition publishing (c : Call) : Prop :=
  match c with
  | CCreate _ => False
  | _ => True
  end.

(** A character that neither ends a template literal nor escapes nor opens
    a substitution. *)
Definition is_plain (c : ascii) : bool :=
  negb (Ascii.eqb c "`"%char) && negb (Ascii.eqb c (ascii_of_nat 92)) &&
  negb (Ascii.eqb c "$"%char).

(** The files of a publication: each one is a script whose initialiser of
    [prBody] is [prBodySource issueNumber]. *)
Definition uploads_pr_script (issueNumber : Z) (c : Call) : Prop :=
  match c with
  | CUploadFile _ content _ =>
      exists before after, content = before +:+ prBodySource issueNumber +:+ after
  | _ => True
  end.

(** The requests of a publication that stages and commits nothing. *)
Definition not_staging (c : Call) : Prop :=
  match c with
  | CExecuteCommand _ command _ _ =>
      String.eqb command "git add -A" = false /\
      String.prefix "git commit" command = false
  | _ => True
  end.

(** ** Sandbox pairs: the two creations of [createSandboxPair] *)

Section PairVocabulary.
Variable env : ProcessEnv.
Variable sdk : Daytona.
Variable issue : ParsedIssue.t.
Variable anthropicApiKey : string.

Definition pairName (role : string) (w : World) : string :=
  ("issue-" +:+ num (ParsedIssue.issueNumber issue)) +:+
  "-" +:+ role +:+ "-" +:+ num (Date_now env (calls w)).

Definition beforeOptions (w : World) : CreateOptions.t :=
  createOptionsFor (pairName "before" w) (labelsFor issue "before") true None.

Definition afterOptions (w : World) : CreateOptions.t :=
  createOptionsFor (pairName "after" w) (labelsFor issue "after") true
                   (Some anthropicApiKey).

Definition createBefore (w : World) : M (Sandbox.t * DaytonaWorkspace.t) :=
  createAndSetupSandbox env sdk issue (pairName "before" w)
                        (labelsFor issue "before") true None.

Definition createAfter (w : World) : M (Sandbox.t * DaytonaWorkspace.t) :=
  createAndSetupSandbox env sdk issue (pairName "after" w)
                        (labelsFor issue "after") true (Some anthropicApiKey).
End PairVocabulary.

(** ** The agent run *)

(** The output holds JSON that [JSON.parse] accepts. *)
Definition parseable (rt : Runtime) (text : string) : bool :=
  match match_braces text with
  | Some jsonText =>
      match JSON_parse rt jsonText with Some _ => true | None => false end
  | None => false
  end.

Section AgentVocabulary.
Variable sdk : Daytona.
Variables sandboxId repoName issueTitle issueBody : string.
Variable w : World.
Variable sandbox : Sandbox.t.
Variable workDir : option string.

(** The path of the repository in the sandbox. *)
Definition agentRepoPath : string := or_else workDir "/home/user" +:+ "/" +:+ repoName.

(** The requests made before the agent command is sent. *)
Definition agentPrelude : list Call :=
  (calls w ++ [CGet sandboxId] ++ [CGetWorkDir (Sandbox.id sandbox)] ++
   [CExecuteCommand (Sandbox.id sandbox) (chownToClaude agentRepoPath) None None])%list.

(** What the provider answers to the agent command. *)
Definition agentAnswer : Outcome ExecuteResponse.t :=
  sdk_executeCommand sdk agentPrelude (Sandbox.id sandbox)
    (claudeCommandFor agentRepoPath (base64 (promptFor issueTitle issueBody)))
    (Some agentRepoPath) (Some 600000).

(** The request of the agent command, and one poll of the progress timer. *)
Definition agentRequest : Call :=
  CExecuteCommand (Sandbox.id sandbox)
    (claudeCommandFor agentRepoPath (base64 (promptFor issueTitle issueBody)))
    (Some agentRepoPath) (Some 600000).

Definition agentPoll : Call :=
  CExecuteCommand (Sandbox.id sandbox) processCheckCommand None None.

(** The polls sent while the agent command is pending. *)
Definition agentPolls : list Call :=
  repeat agentPoll (pending_polls sdk (agentPrelude ++ [agentRequest])%list).

(** The requests made by the time the answer to the agent command
    arrives. *)
Definition agentAwaited : list Call :=
  (agentPrelude ++ [agentRequest] ++ agentPolls)%list.
End AgentVocabulary.

(** ** The run record along the handler *)

Section RunVocabulary.
Variable env : ProcessEnv.
Variable parsedIssue : ParsedIssue.t.

(** The record [db.saveIssue] is called with. *)
Definition freshRecord (w : World) : InMemoryIssue.t :=
  InMemoryIssue.mk
    (ParsedIssue.issueNumber parsedIssue)
    (ParsedIssue.repositoryName parsedIssue)
    (ParsedIssue.repositoryOwner parsedIssue)
    (ParsedIssue.title parsedIssue)
    (ParsedIssue.body parsedIssue)
    None None pending (Date_now env (calls w)) (Date_now env (calls w)).

(** The world after [db.saveIssue]: whatever record the issue had is
    replaced. *)
Definition saved (w : World) : World :=
  mkWorld (<[ParsedIssue.issueNumber parsedIssue := freshRecord w]> (issues w)) (calls w).

(** The world in which steps 1 to 5 start: the record is [processing]. *)
Definition started (w : World) (r : InMemoryIssue.t) : World :=
  mkWorld (<[ParsedIssue.issueNumber parsedIssue :=
               db.merge r (Updates.only_status processing) (Date_now env (calls w))]>
             (issues w))
          (calls w).
End RunVocabulary.

(** ** Encodings *)

(** A character other than [x]. *)
Definition is_not (x : ascii) (c : ascii) : bool := negb (Ascii.eqb c x).

(** The characters of base64 text. *)
Definition is_base64_char (c : ascii) : bool :=
  let n := nat_of_ascii c in
  ((65 <=? n) && (n <=? 90) || (97 <=? n) && (n <=? 122) || (48 <=? n) && (n <=? 57) ||
   (n =? 43) || (n =? 47) || (n =? 61))%nat.

(** The place of a character in an alphabet. *)
Fixpoint index_in (c : ascii) (alphabet : string) : option nat :=
  match alphabet with
  | EmptyString => None
  | String d r => if Ascii.eqb c d then Some O else S <$> index_in c r
  end.

Definition base64_value (c : ascii) : option nat := index_in c base64_alphabet.

(** Reading base64 text back, as [base64 -d] does in the sandbox: four
    characters give three bytes, and the last group may end in one or two
    [=]. *)
Fixpoint base64_decode (s : string) : option string :=
  match s with
  | EmptyString => Some EmptyString
  | String c1 (String c2 (String c3 (String c4 r))) =>
      match base64_value c1, base64_value c2 with
      | Some v1, Some v2 =>
          let b1 := ascii_of_nat (v1 * 4 + v2 / 16) in
          match base64_value c3 with
          | Some v3 =>
              let b2 := ascii_of_nat (v2 mod 16 * 16 + v3 / 4) in
              match base64_value c4 with
              | Some v4 =>
                  let b3 := ascii_of_nat (v3 mod 4 * 64 + v4) in
                  match base64_decode r with
                  | Some t => Some (String b1 (String b2 (String b3 t)))
                  | None => None
                  end
              | None =>
                  if Ascii.eqb c4 "=" && String.eqb r EmptyString
                  then Some (String b1 (String b2 EmptyString))
                  else None
              end
          | None =>
              if Ascii.eqb c3 "=" && Ascii.eqb c4 "=" && String.eqb r EmptyString
              then Some (String b1 EmptyString)
              else None
          end
      | _, _ => None
      end
  | _ => None
  end.

(** What a POSIX shell reads from a word made of single-quoted parts and
    backslash escapes: between single quotes every character stands for
    itself up to the next single quote; outside, a backslash makes the next
    character stand for itself.  [in_quotes] tells on which side the reading
    is.  Any other character outside quotes is not read: [None]. *)
Fixpoint sh_word (in_quotes : bool) (s : string) : option string :=
  match s with
  | EmptyString => if in_quotes then None else Some EmptyString
  | String c r =>
      if in_quotes then
        if Ascii.eqb c "'" then sh_word false r
        else String c <$> sh_word true r
      else if Ascii.eqb c "'" then sh_word true r
      else if Ascii.eqb c (ascii_of_nat 92) then
        match r with
        | String d r' => String d <$> sh_word false r'
        | EmptyString => None
        end
      else None
  end.

(** ** Slugs *)

Definition starts_with_hyphen (s : string) : bool :=
  match s with
  | String c _ => is_hyphen c
  | EmptyString => false
  end.

(** No two hyphens follow each other. *)
Fixpoint single_hyphens (s : string) : bool :=
  match s with
  | EmptyString => true
  | String c r => negb (is_hyphen c && starts_with_hyphen r) && single_hyphens r
  end.

(** No character of the string is a lowercase letter or a digit. *)
Definition no_alnum (s : string) : bool :=
  all_chars (fun c => negb (is_lower_alnum c)) s.

(** ** Deliveries *)

(** The issue number of the event of a request, when it has one. *)
Definition issueNumberOf (req : Request.t) : option Z :=
  match Request.JSON_parse_rawBody req with
  | Some payload =>
      match GitHubWebhookPayload.issue payload with
      | Defined issue => Some (GitHubIssue.number issue)
      | _ => None
      end
  | None => None
  end.

(** The requests that create a sandbox, counted. *)
Definition creates (h : list Call) : nat := List.length (List.filter is_create h).

(** Requests that carry no credentials of GitHub and publish nothing: a
    clone without user name and password, no [git] command, no script. *)
Definition unauthenticated (c : Call) : Prop :=
  match c with
  | CGitClone _ _ _ username password => username = None /\ password = None
  | CExecuteCommand _ command _ _ =>
      is_git command = false /\ String.prefix "node " command = false
  | CUploadFile _ _ _ => False
  | _ => True
  end.


(** The event of a request is accepted: the request is an authenticated
    POST whose body is an "opened" event with an issue, read as
    [parsedIssue], that passes the validation. *)
Definition accepts (rt : Runtime) (env : ProcessEnv) (req : Request.t)
    (parsedIssue : ParsedIssue.t) : Prop :=
  Request.method req = "POST" /\
  exists webhookSecret payload issue,
    truthy (WEBHOOK_SECRET env) = Some webhookSecret /\
    verifyGitHubSignature rt (Request.rawBody req) (Request.x_hub_signature_256 req)
                          webhookSecret = Returned true /\
    Request.JSON_parse_rawBody req = Some payload /\
    GitHubWebhookPayload.action payload = "opened" /\
    GitHubWebhookPayload.issue payload = Defined issue /\
    parseIssue payload = Returned parsedIssue /\
    validateParsedIssue parsedIssue = true.

(** The answer of the handler's [catch] block. *)
Definition internalError (e : JsError) : Response.t :=
  Response.mk 500 (ErrorMessageBody "Internal server error" (err_message e)).

Section DeliveryVocabulary.
Variable env : ProcessEnv.
Variable parsedIssue : ParsedIssue.t.

(** The world once a missing key has made the handler give up: the fresh
    record, [failed]. *)
Definition abandoned (w : World) : World :=
  mkWorld (<[ParsedIssue.issueNumber parsedIssue :=
               db.merge (freshRecord env parsedIssue w) (Updates.only_status failed)
                        (Date_now env (calls w))]> (issues w))
          (calls w).

(** The world in which steps 1 to 5 of an accepted event start. *)
Definition accepted (w : World) : World :=
  started env parsedIssue (saved env parsedIssue w) (freshRecord env parsedIssue w).
End DeliveryVocabulary.

(** ** Sandbox set-up *)

(** The clone of the repository of [issue] as [createAndSetupSandbox]
    sends it: user name and password go with it only if [GITHUB_TOKEN] is
    set and the clone URL holds "github.com", and are then "git" and the
    token. *)
Definition clone_policy (env : ProcessEnv) (issue : ParsedIssue.t) (c : Call) : Prop :=
  match c with
  | CGitClone _ url _ username password =>
      url = ParsedIssue.cloneUrl issue /\
      (username, password) =
        match truthy (GITHUB_TOKEN env) with
        | Some githubToken =>
            if includes "github.com" url then (Some "git", Some githubToken) else (None, None)
        | None => (None, None)
        end
  | _ => True
  end.

(** The [create] requests of a pair. *)
Definition creates_pair (before after : CreateOptions.t) (c : Call) : Prop :=
  match c with
  | CCreate options => options = before \/ options = after
  | _ => True
  end.

Section SetupVocabulary.
Variable sandbox : Sandbox.t.
Variable repoPath : string.



End SetupVocabulary.

(** * Properties *)

(** ** The samples *)

(** The body of each sample request is JSON that reads back as its
    payload. *)
Example sample_bodies_read_back :
  List.map (fun payload =>
              match JSON.parse (Sample.bodyOf payload) with
              | Some v => Sample.readPayload v
              | None => None
              end)
           [ Sample.payloadWith "opened" (Defined Sample.issue42);
             Sample.payloadWith "opened" Null;
             Sample.payloadWith "opened" Undefined;
             Sample.payloadWith "closed" (Defined Sample.issue42) ]
  = [ Some (Sample.payloadWith "opened" (Defined Sample.issue42));
      Some (Sample.payloadWith "opened" Null);
      Some (Sample.payloadWith "opened" Undefined);
      Some (Sample.payloadWith "closed" (Defined Sample.issue42)) ].
Proof. vm_compute. reflexivity. Qed.

(** The run of the handler on issue 42 when every request succeeds: the
    answer is 200, the record ends [completed] with both sandbox ids. *)
Example first_delivery :
  let run := handler node Sample.env Sample.cooperative Sample.opened42 Sample.emptyWorld in
  Response.status <$> (match fst run with Returned r => Some r | Thrown _ => None end)
    = Some 200 /\
  issues (snd run) !! 42 =
    Some (InMemoryIssue.mk 42 "demo-app" "octo" "Button not clickable"
            "click does nothing"
            (Some "sb-issue-42-before-1700000000000")
            (Some "sb-issue-42-after-1700000000000")
            completed 1700000000000 1700000000042).
Proof. split; vm_compute; reflexivity. Qed.

(** ** Strings *)

Lemma replace_unsafe_runs_safe (in_run : bool) (s : string) :
  all_chars is_safe (replace_unsafe_runs in_run s) = true.
Proof.
  revert in_run. induction s as [|c r IH]; intros in_run; simpl; [reflexivity|].
  destruct (is_lower_alnum c) eqn:Hc.
  - simpl. unfold is_safe at 1. rewrite Hc. simpl. apply IH.
  - destruct in_run; simpl; apply IH.
Qed.

Lemma strip_leading_hyphens_safe (p : ascii -> bool) (s : string) :
  all_chars p s = true -> all_chars p (strip_leading_hyphens s) = true.
Proof.
  induction s as [|c r IH]; simpl; [reflexivity|].
  intros H. apply andb_true_iff in H as [Hc Hr].
  destruct (is_hyphen c); [auto|]. simpl. rewrite Hc. exact Hr.
Qed.

Lemma strip_trailing_hyphens_safe (p : ascii -> bool) (s : string) :
  all_chars p s = true -> all_chars p (strip_trailing_hyphens s) = true.
Proof.
  induction s as [|c r IH]; simpl; [reflexivity|].
  intros H. apply andb_true_iff in H as [Hc Hr].
  specialize (IH Hr).
  destruct (strip_trailing_hyphens r) as [|d t].
  - destruct (is_hyphen c); simpl; [reflexivity|]. rewrite Hc. reflexivity.
  - simpl in *. rewrite Hc. exact IH.
Qed.

Lemma substring0_safe (p : ascii -> bool) (n : nat) (s : string) :
  all_chars p s = true -> all_chars p (substring0 n s) = true.
Proof.
  revert s. induction n as [|n IH]; intros [|c r]; simpl; try reflexivity.
  intros H. apply andb_true_iff in H as [Hc Hr]. rewrite Hc. simpl. auto.
Qed.

Lemma substring0_length (n : nat) (s : string) :
  (String.length (substring0 n s) <= n)%nat.
Proof.
  revert s. induction n as [|n IH]; intros [|c r]; simpl; try lia.
  specialize (IH r). lia.
Qed.

Lemma slug_safe (rt : Runtime) (issueTitle : string) :
  all_chars is_safe (slug rt issueTitle) = true.
Proof.
  unfold slug.
  apply substring0_safe, strip_trailing_hyphens_safe, strip_leading_hyphens_safe,
    replace_unsafe_runs_safe.
Qed.

(** C7.  The branch name is [autofix/issue-<number>-<slug>]; whatever the
    title and whatever [toLowerCase] makes of it, the slug holds only
    lowercase letters, digits and hyphens and is at most 50 characters
    long; issue 42 titled "Button not clickable" gets
    [autofix/issue-42-button-not-clickable] as soon as [toLowerCase] turns
    the title into lower case. *)
Theorem branch_name_safe_and_bounded
    (rt : Runtime) (issueNumber : Z) (issueTitle : string) :
  branchNameOf rt issueNumber issueTitle =
    "autofix/issue-" +:+ num issueNumber +:+ "-" +:+ slug rt issueTitle /\
  all_chars is_safe (slug rt issueTitle) = true /\
  (String.length (slug rt issueTitle) <= 50)%nat /\
  (toLowerCase rt "Button not clickable" = "button not clickable" ->
   branchNameOf rt 42 "Button not clickable" = "autofix/issue-42-button-not-clickable").
Proof.
  split; [reflexivity|]. split; [apply slug_safe|].
  split; [apply substring0_length|].
  intros H. unfold branchNameOf, slug. rewrite H. reflexivity.
Qed.

Lemma branch_name_safe_and_bounded_witness :
  toLowerCase node "Button not clickable" = "button not clickable" /\
  branchNameOf node 42 "Button not clickable" = "autofix/issue-42-button-not-clickable" /\
  all_chars is_safe (slug node "Ünïcödé & symbols!! 2 + 2 = 5 ... 日本語のタイトル and a very long tail of words") = true.
Proof.
  split; [reflexivity|]. split.
  - apply (branch_name_safe_and_bounded node 42 "Button not clickable"). reflexivity.
  - apply (branch_name_safe_and_bounded node 42).
Defined.

(** A title of non-ASCII characters only leaves an empty slug, and a long
    title is cut at 50 characters, possibly after a hyphen. *)
Example slug_of_unicode_title : branchNameOf node 7 "日本語" = "autofix/issue-7-".
Proof. reflexivity. Qed.

Example slug_of_long_title :
  slug node "The quick brown fox jumps over the lazy dog and keeps on running"
  = "the-quick-brown-fox-jumps-over-the-lazy-dog-and-ke".
Proof. reflexivity. Qed.

(** ** Signature verification *)

Lemma bytes_eqb_refl (a : list Byte.byte) : bytes_eqb a a = true.
Proof.
  induction a as [|x a IH]; simpl; [reflexivity|].
  rewrite IH, andb_true_r. destruct x; reflexivity.
Qed.

Lemma bytes_eqb_eq (a b : list Byte.byte) : bytes_eqb a b = true -> a = b.
Proof.
  revert b. induction a as [|x a IH]; intros [|y b]; simpl; try congruence.
  intros H. apply andb_true_iff in H as [Hxy Hab].
  apply Byte.byte_dec_bl in Hxy. f_equal; auto.
Qed.

Lemma verify_missing_header (rt : Runtime) (payload secret : string) :
  verifyGitHubSignature rt payload None secret = Returned false.
Proof. reflexivity. Qed.

Lemma verify_valid_header (rt : Runtime) (payload secret : string) :
  verifyGitHubSignature rt payload
    (Some ("sha256=" +:+ hmac_sha256_hex rt secret payload)) secret = Returned true.
Proof.
  unfold verifyGitHubSignature. simpl. unfold timingSafeEqual.
  rewrite Nat.eqb_refl, bytes_eqb_refl. reflexivity.
Qed.

Lemma verify_same_length (rt : Runtime) (payload sig secret : string) :
  sig <> EmptyString ->
  List.length (Buffer_from sig) =
    List.length (Buffer_from ("sha256=" +:+ hmac_sha256_hex rt secret payload)) ->
  sig <> "sha256=" +:+ hmac_sha256_hex rt secret payload ->
  verifyGitHubSignature rt payload (Some sig) secret = Returned false.
Proof.
  intros Hne Hlen Hdiff. unfold verifyGitHubSignature.
  destruct sig as [|c r]; [congruence|].
  cbv zeta. unfold timingSafeEqual. rewrite Hlen, Nat.eqb_refl. f_equal.
  destruct (bytes_eqb _ _) eqn:E; [|reflexivity].
  apply bytes_eqb_eq in E. exfalso. apply Hdiff.
  unfold Buffer_from in E.
  rewrite <- (string_of_list_byte_of_string (String c r)), E.
  apply string_of_list_byte_of_string.
Qed.

(** A header of another length than the digest makes [timingSafeEqual]
    throw, and with it [verifyGitHubSignature]. *)
Lemma verify_other_length (rt : Runtime) (payload sig secret : string) :
  sig <> EmptyString ->
  List.length (Buffer_from sig) <>
    List.length (Buffer_from ("sha256=" +:+ hmac_sha256_hex rt secret payload)) ->
  verifyGitHubSignature rt payload (Some sig) secret =
    Thrown (mkError "RangeError" "Input buffers must have the same byte length").
Proof.
  intros Hne Hlen. unfold verifyGitHubSignature.
  destruct sig as [|c r]; [congruence|].
  cbv zeta. unfold timingSafeEqual.
  apply Nat.eqb_neq in Hlen. rewrite Hlen. reflexivity.
Qed.

(** The reference HMAC agrees with the test vector of the HMAC-SHA256
    literature. *)
Example hmac_sha256_test_vector :
  SHA256.hmac_hex "key" "The quick brown fox jumps over the lazy dog"
  = "f7bc83f430538424b13298e6aa6fb143ef4d59a14946175997479dbc2d1a3cd8".
Proof. vm_compute. reflexivity. Qed.

(** C2.  A header that is present but shorter than the digest: the
    function throws a [RangeError] instead of answering [false], and the
    handler answers 500 instead of 401. *)
Theorem verify_throws_on_short_header :
  verifyGitHubSignature node (Request.rawBody Sample.shortHeader42)
                        (Some "sha256=abc") Sample.secret
    = Thrown (mkError "RangeError" "Input buffers must have the same byte length") /\
  handler node Sample.env Sample.cooperative Sample.shortHeader42 Sample.emptyWorld
    = (Returned (Response.mk 500
                   (ErrorMessageBody "Internal server error"
                      "Input buffers must have the same byte length")),
       Sample.emptyWorld).
Proof. split; vm_compute; reflexivity. Qed.

Section ProgramLogic.
Context {A B : Type}.
Variable P : Call -> Prop.

Lemma io_ret (Q : A -> Prop) (a : A) : Q a -> io P Q (ret a).
Proof.
  intros Ha w. simpl. split; [reflexivity|]. split.
  - exists []. rewrite app_nil_r. auto.
  - intros a' [= <-]. exact Ha.
Qed.

Lemma io_throw (Q : A -> Prop) (e : JsError) : io P Q (throw e).
Proof.
  intros w. simpl. split; [reflexivity|]. split.
  - exists []. rewrite app_nil_r. auto.
  - intros a' [=].
Qed.

Lemma io_lift (Q : A -> Prop) (o : Outcome A) :
  (forall a, o = Returned a -> Q a) -> io P Q (lift o).
Proof.
  intros Ho w. simpl. split; [reflexivity|]. split.
  - exists []. rewrite app_nil_r. auto.
  - exact Ho.
Qed.

Lemma io_request (Q : A -> Prop) (c : Call) (answer : list Call -> Outcome A) :
  P c -> (forall h a, answer h = Returned a -> Q a) -> io P Q (request c answer).
Proof.
  intros Hc Ha w. simpl. split; [reflexivity|]. split.
  - exists [c]. auto.
  - apply Ha.
Qed.

Lemma io_bind (Q1 : A -> Prop) (Q2 : B -> Prop) (m : M A) (k : A -> M B) :
  io P Q1 m -> (forall a, Q1 a -> io P Q2 (k a)) -> io P Q2 (bind m k).
Proof.
  intros Hm Hk w. unfold bind.
  destruct (Hm w) as (Hi & (ext & Hc & Hext) & Hq).
  destruct (m w) as [[a|e] w1]; simpl in *.
  - destruct (Hk a (Hq a eq_refl) w1) as (Hi' & (ext' & Hc' & Hext') & Hq').
    split; [congruence|]. split; [|exact Hq'].
    exists (ext ++ ext')%list. rewrite Hc', Hc, app_assoc. split; [reflexivity|].
    apply Forall_app; auto.
  - split; [exact Hi|]. split; [eauto|]. intros b [=].
Qed.

Lemma io_weaken (P' : Call -> Prop) (Q Q' : A -> Prop) (m : M A) :
  (forall c, P' c -> P c) -> (forall a, Q a -> Q' a) -> io P' Q m -> io P Q' m.
Proof.
  intros HP HQ Hm w. destruct (Hm w) as (Hi & (ext & Hc & Hext) & Hq).
  split; [exact Hi|]. split; [|auto].
  exists ext. split; [exact Hc|]. eapply Forall_impl; eauto.
Qed.

Lemma io_try_catch (Q : A -> Prop) (m : M A) (h : JsError -> M A) :
  io P Q m -> (forall e, io P Q (h e)) -> io P Q (try_catch m h).
Proof.
  intros Hm Hh w. unfold try_catch.
  destruct (Hm w) as (Hi & (ext & Hc & Hext) & Hq).
  destruct (m w) as [[a|e] w1]; simpl in *.
  - split; [exact Hi|]. split; [eauto|exact Hq].
  - destruct (Hh e w1) as (Hi' & (ext' & Hc' & Hext') & Hq').
    split; [congruence|]. split; [|exact Hq'].
    exists (ext ++ ext')%list. rewrite Hc', Hc, app_assoc. split; [reflexivity|].
    apply Forall_app; auto.
Qed.

Lemma io_get_calls : io P any get_calls.
Proof.
  intros w. simpl. split; [reflexivity|]. split.
  - exists []. rewrite app_nil_r. auto.
  - intros; exact I.
Qed.
End ProgramLogic.

Lemma io_attempt {A} (P : Call -> Prop) (m : M A) :
  io P any m -> io P any (attempt m).
Proof.
  intros Hm. unfold attempt. apply io_try_catch.
  - eapply io_bind; [exact Hm|]. intros a _. apply io_ret. exact I.
  - intros e. apply io_ret. exact I.
Qed.

Lemma io_bind_any {A B} (P : Call -> Prop) (Q : B -> Prop) (m : M A) (k : A -> M B) :
  io P any m -> (forall a, io P Q (k a)) -> io P Q (bind m k).
Proof. intros Hm Hk. eapply io_bind; [exact Hm|]. intros a _. apply Hk. Qed.

(** [attempt m] returns, whatever [m] does. *)
Lemma attempt_returns {A} (m : M A) (w : World) :
  fst (attempt m w) = Returned tt.
Proof.
  unfold attempt, try_catch, bind, ret.
  destruct (m w) as [[a|e] w1]; reflexivity.
Qed.

Lemma io_during {A} (P : Call -> Prop) (Q : A -> Prop) (m : M A) (background : M unit) :
  io P Q m -> io P any background -> io P Q (during m background).
Proof.
  intros Hm Hb w. unfold during.
  destruct (Hm w) as (Hi & (ext & Hc & Hext) & Hq).
  destruct (m w) as [o w1]; simpl in *.
  destruct (Hb w1) as (Hi' & (ext' & Hc' & Hext') & _).
  split; [congruence|]. split; [|exact Hq].
  exists (ext ++ ext')%list. rewrite Hc', Hc, app_assoc. split; [reflexivity|].
  apply Forall_app; auto.
Qed.

Lemma io_progressPolls (P : Call -> Prop) (sdk : Daytona) (sandbox : Sandbox.t) (polls : nat) :
  P (CExecuteCommand (Sandbox.id sandbox) processCheckCommand None None) ->
  io P any (progressPolls sdk sandbox polls).
Proof.
  intros Hp. induction polls as [|polls IH]; simpl.
  - apply io_ret. exact I.
  - apply io_bind_any; [|intros _; exact IH].
    apply io_attempt. unfold executeCommand. apply io_request; [exact Hp|].
    intros; exact I.
Qed.

Ltac io_side :=
  cbv beta;
  first
    [ exact I
    | reflexivity
    | split; reflexivity
    | intros; exact I
    | eexists; eexists; reflexivity
    | repeat match goal with b : bool |- _ => destruct b end;
      first [reflexivity | split; reflexivity] ].

Ltac io_step :=
  lazymatch goal with
  | |- io _ _ (ret _) => apply io_ret; io_side
  | |- io _ _ (throw _) => apply io_throw
  | |- io _ _ (lift _) => apply io_lift; io_side
  | |- io _ _ get_calls => apply io_get_calls
  | |- io _ _ (bind _ _) => apply io_bind_any; [|intros ?]
  | |- io _ _ (try_catch _ _) => apply io_try_catch; [|intros ?]
  | |- io _ _ (attempt _) => apply io_attempt
  | |- io _ _ (during _ _) => apply io_during
  | |- io _ _ (progressInterval _ _) => unfold progressInterval
  | |- io _ _ (progressPolls _ _ _) => apply io_progressPolls; io_side
  | |- io _ _ (request _ _) => apply io_request; io_side
  | |- io _ _ (match ?x with _ => _ end) => destruct x
  end.

Ltac io_auto := cbv zeta; repeat (io_step; cbv zeta).

Section ClientRequests.
Variable rt : Runtime.
Variable env : ProcessEnv.
Variable sdk : Daytona.

Lemma io_createAndSetupSandbox
    (issue : ParsedIssue.t) (workspaceName : string) (labels : list (string * string))
    (useClaudeSnapshot : bool) (anthropicApiKey : option string) :
  io (setting_up (createOptionsFor workspaceName labels useClaudeSnapshot anthropicApiKey))
     any
     (createAndSetupSandbox env sdk issue workspaceName labels useClaudeSnapshot
                            anthropicApiKey).
Proof.
  unfold createAndSetupSandbox, daytona_create, executeCommand, getWorkDir, git_clone,
    getPreviewLink.
  io_auto.
Qed.

Lemma setting_up_preparing (options : CreateOptions.t) (c : Call) :
  CreateOptions.public options = true -> setting_up options c -> preparing c.
Proof. intros Hp. destruct c; simpl; auto. intros ->. exact Hp. Qed.

Lemma io_createAndSetupSandbox_preparing
    (issue : ParsedIssue.t) (workspaceName : string) (labels : list (string * string))
    (useClaudeSnapshot : bool) (anthropicApiKey : option string) :
  io preparing any
     (createAndSetupSandbox env sdk issue workspaceName labels useClaudeSnapshot
                            anthropicApiKey).
Proof.
  eapply io_weaken; [| |apply io_createAndSetupSandbox].
  - intros c. apply setting_up_preparing. reflexivity.
  - auto.
Qed.

Lemma io_createSandboxPair (issue : ParsedIssue.t) (anthropicApiKey : string) :
  io preparing any (createSandboxPair env sdk issue anthropicApiKey).
Proof.
  unfold createSandboxPair. io_auto; apply io_createAndSetupSandbox_preparing.
Qed.

Lemma io_runClaudeCodeInSandbox (sandboxId repoName issueTitle issueBody : string) :
  io preparing any
     (runClaudeCodeInSandbox rt sdk sandboxId repoName issueTitle issueBody).
Proof.
  unfold runClaudeCodeInSandbox, daytona_get, executeCommand, getWorkDir.
  io_auto.
Qed.

Lemma io_setupAndRunApp (sandboxId repoName : string) :
  io preparing any (setupAndRunApp sdk sandboxId repoName).
Proof.
  unfold setupAndRunApp, daytona_get, executeCommand, getWorkDir.
  io_auto.
Qed.

Lemma io_getPreviewUrl (sandboxId : string) (port : Z) :
  io preparing any (getPreviewUrl sdk sandboxId port).
Proof.
  unfold getPreviewUrl, daytona_get, getPreviewLink.
  io_auto.
Qed.

Lemma io_createBranchAndPR
    (sandboxId repoName : string) (issueNumber : Z)
    (issueTitle repositoryOwner repositoryName defaultBranch githubToken : string)
    (beforePreviewUrl afterPreviewUrl beforePreviewToken afterPreviewToken : string) :
  io publishing any
     (createBranchAndPR rt sdk sandboxId repoName issueNumber issueTitle
        repositoryOwner repositoryName defaultBranch githubToken
        beforePreviewUrl afterPreviewUrl beforePreviewToken afterPreviewToken).
Proof.
  unfold createBranchAndPR, daytona_get, executeCommand, getWorkDir, uploadFile.
  io_auto.
Qed.
End ClientRequests.

(** A computation that starts with a request shows it in the log, whatever
    comes of it. *)
Lemma first_request {A B} (P : Call -> Prop) (Q : B -> Prop)
    (c : Call) (answer : list Call -> Outcome A) (k : A -> M B) (w : World) :
  (forall a, io P Q (k a)) ->
  exists rest, calls (snd (bind (request c answer) k w)) = (calls w ++ c :: rest)%list.
Proof.
  intros Hk. unfold bind, request.
  destruct (answer (calls w)) as [a|e]; simpl.
  - destruct (Hk a (mkWorld (issues w) (calls w ++ [c]))) as (_ & (ext & Hc & _) & _).
    exists ext. rewrite Hc. simpl. rewrite <- app_assoc. reflexivity.
  - exists []. reflexivity.
Qed.

(** ** Sandbox pairs *)

Section SandboxPairs.
Variable env : ProcessEnv.
Variable sdk : Daytona.
Variable issue : ParsedIssue.t.
Variable anthropicApiKey : string.

Lemma createSandboxPair_unfold (w : World) :
  createSandboxPair env sdk issue anthropicApiKey w =
  match createBefore env sdk issue w w with
  | (Thrown e, w1) => (Thrown e, w1)
  | (Returned beforeResult, w1) =>
      match createAfter env sdk issue anthropicApiKey w w1 with
      | (Thrown e, w2) => (Thrown e, w2)
      | (Returned afterResult, w2) =>
          (Returned (SandboxPair.mk (snd beforeResult) (snd afterResult)), w2)
      end
  end.
Proof.
  unfold createSandboxPair, createBefore, createAfter, pairName.
  unfold bind at 1. unfold get_calls at 1. cbv zeta.
  unfold try_catch, bind at 1.
  destruct (createAndSetupSandbox _ _ _ _ _ _ _ w) as [[b|e] w1]; [|reflexivity].
  unfold bind at 1.
  destruct (createAndSetupSandbox _ _ _ _ _ _ _ w1) as [[a|e] w2]; reflexivity.
Qed.

Lemma before_is_not_after (w : World) : beforeOptions env issue w <> afterOptions env issue anthropicApiKey w.
Proof. unfold beforeOptions, afterOptions, createOptionsFor. intros [=]. Qed.

(** The first request of a sandbox setup is the [create]. *)
Lemma createAndSetupSandbox_creates_first
    (workspaceName : string) (labels : list (string * string))
    (useClaudeSnapshot : bool) (key : option string) (w : World) :
  exists rest,
    calls (snd (createAndSetupSandbox env sdk issue workspaceName labels
                  useClaudeSnapshot key w)) =
    (calls w ++
     CCreate (createOptionsFor workspaceName labels useClaudeSnapshot key) :: rest)%list.
Proof.
  unfold createAndSetupSandbox, daytona_create. cbv zeta.
  apply (first_request (fun _ => True) any).
  intros sandbox. unfold executeCommand, getWorkDir, git_clone, getPreviewLink.
  io_auto.
Qed.

(** C4, as the code has it.  When the creation of BEFORE throws,
    [createSandboxPair] throws the same error and the only sandbox ever
    requested is BEFORE: no creation of AFTER is attempted.  When BEFORE is
    set up and the creation of AFTER throws, [createSandboxPair] throws
    that error, and the caller gets no pair and no handle.  Only when both
    succeed is a pair returned. *)
Theorem createSandboxPair_outcomes (w : World) :
  match createBefore env sdk issue w w with
  | (Thrown e, w1) =>
      createSandboxPair env sdk issue anthropicApiKey w = (Thrown e, w1) /\
      exists ext,
        calls w1 = (calls w ++ ext)%list /\
        Forall (fun c => c <> CCreate (afterOptions env issue anthropicApiKey w)) ext
  | (Returned beforeResult, w1) =>
      match createAfter env sdk issue anthropicApiKey w w1 with
      | (Thrown e, w2) =>
          createSandboxPair env sdk issue anthropicApiKey w = (Thrown e, w2)
      | (Returned afterResult, w2) =>
          createSandboxPair env sdk issue anthropicApiKey w =
          (Returned (SandboxPair.mk (snd beforeResult) (snd afterResult)), w2)
      end
  end.
Proof.
  rewrite createSandboxPair_unfold.
  pose proof (io_createAndSetupSandbox env sdk issue (pairName env issue "before" w)
                (labelsFor issue "before") true None w) as (_ & (ext & Hc & Hext) & _).
  fold (createBefore env sdk issue w) in Hc.
  destruct (createBefore env sdk issue w w) as [[b|e] w1].
  - destruct (createAfter env sdk issue anthropicApiKey w w1) as [[a|e] w2]; reflexivity.
  - split; [reflexivity|]. exists ext. split; [exact Hc|].
    eapply Forall_impl; [exact Hext|].
    intros c Hs ->. simpl in Hs. apply (before_is_not_after w). symmetry. exact Hs.
Qed.

(** The first request of [createSandboxPair] is the [create] of BEFORE. *)
Lemma createSandboxPair_creates_first (w : World) :
  exists rest,
    calls (snd (createSandboxPair env sdk issue anthropicApiKey w)) =
      (calls w ++ CCreate (beforeOptions env issue w) :: rest)%list.
Proof.
  rewrite createSandboxPair_unfold.
  destruct (createAndSetupSandbox_creates_first (pairName env issue "before" w)
              (labelsFor issue "before") true None w) as (rest & Hrest).
  fold (createBefore env sdk issue w) in Hrest. fold (beforeOptions env issue w) in Hrest.
  destruct (createBefore env sdk issue w w) as [[b|e] w1]; simpl in Hrest.
  - destruct (io_createAndSetupSandbox env sdk issue (pairName env issue "after" w)
                (labelsFor issue "after") true (Some anthropicApiKey) w1)
      as (_ & (ext & Hc & _) & _).
    fold (createAfter env sdk issue anthropicApiKey w) in Hc.
    exists (rest ++ ext)%list.
    destruct (createAfter env sdk issue anthropicApiKey w w1) as [[a|e] w2]; simpl in *;
      rewrite Hc, Hrest, <- app_assoc; reflexivity.
  - exists rest. exact Hrest.
Qed.

(** C10.  Every sandbox that [createSandboxPair] asks for is asked for
    with [public: true]: among the requests it sends, each [create] has the
    flag set; the first request is the [create] of BEFORE, and once BEFORE
    is set up the next request is the [create] of AFTER. *)
Theorem sandboxes_are_created_public (w : World) :
  (exists ext,
     calls (snd (createSandboxPair env sdk issue anthropicApiKey w)) = (calls w ++ ext)%list /\
     Forall (fun c => forall options, c = CCreate options ->
                                      CreateOptions.public options = true) ext) /\
  (exists rest,
     calls (snd (createSandboxPair env sdk issue anthropicApiKey w)) =
       (calls w ++ CCreate (beforeOptions env issue w) :: rest)%list /\
     CreateOptions.public (beforeOptions env issue w) = true) /\
  (forall beforeResult w1,
     createBefore env sdk issue w w = (Returned beforeResult, w1) ->
     exists rest,
       calls (snd (createSandboxPair env sdk issue anthropicApiKey w)) =
         (calls w1 ++ CCreate (afterOptions env issue anthropicApiKey w) :: rest)%list /\
       CreateOptions.public (afterOptions env issue anthropicApiKey w) = true).
Proof.
  split; [|split].
  - destruct (io_createSandboxPair env sdk issue anthropicApiKey w)
      as (_ & (ext & Hc & Hext) & _).
    exists ext. split; [exact Hc|].
    eapply Forall_impl; [exact Hext|]. intros c Hp options ->. exact Hp.
  - destruct (createSandboxPair_creates_first w) as (rest & Hrest).
    exists rest. split; [exact Hrest|reflexivity].
  - intros b w1 Hb. rewrite createSandboxPair_unfold, Hb.
    destruct (createAndSetupSandbox_creates_first (pairName env issue "after" w)
                (labelsFor issue "after") true (Some anthropicApiKey) w1) as (rest & Hrest).
    fold (createAfter env sdk issue anthropicApiKey w) in Hrest. fold (afterOptions env issue anthropicApiKey w) in Hrest.
    exists rest. split; [|reflexivity].
    destruct (createAfter env sdk issue anthropicApiKey w w1) as [[a|e] w2]; exact Hrest.
Qed.
End SandboxPairs.

Lemma sandboxes_are_created_public_witness :
  exists beforeResult w1,
    createBefore Sample.env Sample.cooperative Sample.parsed42 Sample.emptyWorld
                 Sample.emptyWorld = (Returned beforeResult, w1) /\
    exists rest,
      calls (snd (createSandboxPair Sample.env Sample.cooperative Sample.parsed42
                    "sk-ant-key" Sample.emptyWorld)) =
        (calls w1 ++
         CCreate (afterOptions Sample.env Sample.parsed42 "sk-ant-key" Sample.emptyWorld)
         :: rest)%list /\
      CreateOptions.public
        (afterOptions Sample.env Sample.parsed42 "sk-ant-key" Sample.emptyWorld) = true.
Proof.
  destruct (sandboxes_are_created_public Sample.env Sample.cooperative Sample.parsed42
              "sk-ant-key" Sample.emptyWorld) as (_ & _ & H).
  eexists. eexists. split; [vm_compute; reflexivity|].
  eapply H. vm_compute. reflexivity.
Defined.

(** The provider refuses BEFORE: one [create] is sent, and nothing else. *)
Example refused_before_sends_one_request :
  createSandboxPair Sample.env Sample.refusesFirst Sample.parsed42 "sk-ant-key"
                    Sample.emptyWorld
  = (Thrown (mkError "DaytonaError" "quota exceeded"),
     mkWorld ∅ [CCreate (beforeOptions Sample.env Sample.parsed42 Sample.emptyWorld)]).
Proof. vm_compute. reflexivity. Qed.

(** C4, as the design document has it, fails on this run: BEFORE is
    created and set up, the provider refuses AFTER, and the caller is left
    with the error alone; the run record never learns the id of BEFORE. *)
Lemma before_handle_is_dropped :
  (exists beforeResult w1,
     createBefore Sample.env Sample.refusesSecond Sample.parsed42
                  Sample.emptyWorld Sample.emptyWorld = (Returned beforeResult, w1) /\
     Sandbox.id (fst beforeResult) = "sb-issue-42-before-1700000000000") /\
  fst (createSandboxPair Sample.env Sample.refusesSecond Sample.parsed42
         "sk-ant-key" Sample.emptyWorld)
    = Thrown (mkError "DaytonaError" "quota exceeded") /\
  InMemoryIssue.beforeWorkspaceId <$>
    (issues (snd (handler node Sample.env Sample.refusesSecond Sample.opened42
                    Sample.emptyWorld)) !! 42)
    = Some None.
Proof.
  split; [|split].
  - eexists. eexists. split; vm_compute; reflexivity.
  - vm_compute. reflexivity.
  - vm_compute. reflexivity.
Qed.

(** ** The event filter *)

Lemma isIssueOpenedEvent_false (payload : GitHubWebhookPayload.t) :
  isIssueOpenedEvent payload = false <->
  GitHubWebhookPayload.action payload <> "opened" \/
  GitHubWebhookPayload.issue payload = Undefined.
Proof.
  unfold isIssueOpenedEvent. rewrite andb_false_iff, String.eqb_neq.
  destruct (GitHubWebhookPayload.issue payload); intuition congruence.
Qed.

Section EventFilter.
Variable rt : Runtime.
Variable env : ProcessEnv.
Variable sdk : Daytona.
Variable req : Request.t.
Variable webhookSecret : string.
Variable payload : GitHubWebhookPayload.t.
Hypothesis post : Request.method req = "POST".
Hypothesis secret_set : truthy (WEBHOOK_SECRET env) = Some webhookSecret.
Hypothesis signed :
  verifyGitHubSignature rt (Request.rawBody req) (Request.x_hub_signature_256 req)
                        webhookSecret = Returned true.
Hypothesis parsed : Request.JSON_parse_rawBody req = Some payload.

Lemma handler_authenticated (w : World) :
  handler rt env sdk req w =
  try_catch
    (if negb (isIssueOpenedEvent payload)
     then ret (Response.mk 200 (MessageBody "Event ignored"))
     else processOpened rt env sdk payload)
    (fun error =>
       ret (Response.mk 500
              (ErrorMessageBody "Internal server error" (err_message error)))) w.
Proof.
  unfold handler. rewrite post. simpl. rewrite secret_set.
  unfold try_catch, bind at 1, lift. rewrite signed. simpl. rewrite parsed.
  reflexivity.
Qed.

(** An event with another action, or without an [issue] property, is
    answered with 200 "Event ignored"; nothing is stored and no request is
    sent. *)
Lemma other_events_are_ignored (w : World) :
  GitHubWebhookPayload.action payload <> "opened" \/
  GitHubWebhookPayload.issue payload = Undefined ->
  handler rt env sdk req w =
    (Returned (Response.mk 200 (MessageBody "Event ignored")), w).
Proof.
  intros H. apply isIssueOpenedEvent_false in H.
  rewrite handler_authenticated. unfold try_catch. rewrite H. reflexivity.
Qed.

(** An "opened" event whose [issue] is [null] passes the filter, and the
    first read of [payload.issue.number] throws: the answer is 500.
    Nothing is stored and no request is sent. *)
Lemma opened_null_issue_is_500 (w : World) :
  GitHubWebhookPayload.action payload = "opened" ->
  GitHubWebhookPayload.issue payload = Null ->
  handler rt env sdk req w =
    (Returned (Response.mk 500
                 (ErrorMessageBody "Internal server error"
                    "Cannot read properties of null (reading 'number')")), w).
Proof.
  intros Ha Hi. rewrite handler_authenticated.
  unfold isIssueOpenedEvent. rewrite Ha, Hi. simpl.
  unfold try_catch, processOpened, bind, lift, issue_of. rewrite Hi. reflexivity.
Qed.
End EventFilter.

Example closed_event_is_ignored :
  handler node Sample.env Sample.cooperative Sample.closed42 Sample.emptyWorld
  = (Returned (Response.mk 200 (MessageBody "Event ignored")), Sample.emptyWorld).
Proof. vm_compute. reflexivity. Qed.

(** C5.  The signed event [{"action":"opened","issue":null}]: the handler
    answers 500 "Internal server error", not 200 "Event ignored"; the store
    and the request log stay empty. *)
Theorem opened_event_with_null_issue_is_an_error :
  isIssueOpenedEvent (Sample.payloadWith "opened" Null) = true /\
  handler node Sample.env Sample.cooperative Sample.openedNullIssue Sample.emptyWorld
  = (Returned (Response.mk 500
                 (ErrorMessageBody "Internal server error"
                    "Cannot read properties of null (reading 'number')")),
     Sample.emptyWorld).
Proof. split; vm_compute; reflexivity. Qed.

(** ** The agent run *)

Lemma bind_request {A B} (c : Call) (answer : list Call -> Outcome A)
    (k : A -> M B) (w : World) :
  bind (request c answer) k w =
  match answer (calls w) with
  | Returned a => k a (mkWorld (issues w) (calls w ++ [c]))
  | Thrown e => (Thrown e, mkWorld (issues w) (calls w ++ [c]))
  end.
Proof. unfold bind, request. destruct (answer (calls w)); reflexivity. Qed.

Lemma bind_attempt_request {A B} (c : Call) (answer : list Call -> Outcome A)
    (k : unit -> M B) (w : World) :
  bind (attempt (request c answer)) k w = k tt (mkWorld (issues w) (calls w ++ [c])).
Proof.
  unfold attempt, try_catch, bind, request, ret.
  destruct (answer (calls w)); reflexivity.
Qed.

Lemma bind_attempt {A B} (m : M A) (k : unit -> M B) (w : World) :
  bind (attempt m) k w = k tt (snd (attempt m w)).
Proof.
  unfold bind. pose proof (attempt_returns m w) as H.
  destruct (attempt m w) as [[[]|e] w1]; simpl in *; congruence.
Qed.

Lemma bind_during_request {A B} (c : Call) (answer : list Call -> Outcome A)
    (background : M unit) (k : A -> M B) (w : World) :
  bind (during (request c answer) background) k w =
  match answer (calls w) with
  | Returned a => k a (snd (background (mkWorld (issues w) (calls w ++ [c]))))
  | Thrown e => (Thrown e, snd (background (mkWorld (issues w) (calls w ++ [c]))))
  end.
Proof. unfold bind, during, request. destruct (answer (calls w)); reflexivity. Qed.

(** The polls of the progress timer: each one is sent, whatever becomes of
    it. *)
Lemma progressPolls_world (sdk : Daytona) (sandbox : Sandbox.t) (polls : nat) (w : World) :
  snd (progressPolls sdk sandbox polls w) =
    mkWorld (issues w) (calls w ++ repeat (agentPoll sandbox) polls).
Proof.
  revert w. induction polls as [|polls IH]; intros w; simpl.
  - rewrite app_nil_r. destruct w; reflexivity.
  - unfold executeCommand. rewrite bind_attempt_request, IH. simpl.
    rewrite <- app_assoc. reflexivity.
Qed.

Lemma progressInterval_world (sdk : Daytona) (sandbox : Sandbox.t) (w : World) :
  snd (progressInterval sdk sandbox w) =
    mkWorld (issues w)
            (calls w ++ repeat (agentPoll sandbox) (pending_polls sdk (calls w))).
Proof. unfold progressInterval, bind, get_calls. apply progressPolls_world. Qed.

Lemma parseAgentOutput_degraded (rt : Runtime) (text : string) (exitCode : Z) :
  parseable rt text = false -> parseAgentOutput rt text exitCode = rawResult text exitCode.
Proof.
  unfold parseable, parseAgentOutput.
  destruct (match_braces text) as [j|]; [|reflexivity].
  destruct (JSON_parse rt j); [discriminate|reflexivity].
Qed.

Section AgentRun.
Variable rt : Runtime.
Variable sdk : Daytona.
Variables sandboxId repoName issueTitle issueBody : string.
Variable w : World.
Variable sandbox : Sandbox.t.
Variable workDir : option string.

Hypothesis got : sdk_get sdk (calls w) sandboxId = Returned sandbox.
Hypothesis workDir_read :
  sdk_getWorkDir sdk (calls w ++ [CGet sandboxId]) (Sandbox.id sandbox) = Returned workDir.

Lemma runClaude_after_prelude :
  runClaudeCodeInSandbox rt sdk sandboxId repoName issueTitle issueBody w =
  let awaited :=
    mkWorld (issues w)
            (agentAwaited sdk sandboxId repoName issueTitle issueBody w sandbox workDir) in
  match (agentAnswer sdk sandboxId repoName issueTitle issueBody w sandbox workDir) with
  | Thrown e => (Thrown e, awaited)
  | Returned response =>
      let w1 :=
        snd ((if has_output (ExecuteResponse.result response)
              then ret tt
              else
                attempt (executeCommand sdk sandbox "which claude"
                           (Some (agentRepoPath repoName workDir)) None) ;;;
                attempt (executeCommand sdk sandbox
                           ("test -d " +:+ (agentRepoPath repoName workDir) +:+ " && echo " +:+
                            quoted "EXISTS" +:+ " || echo " +:+ quoted "NOT FOUND")
                           (Some (agentRepoPath repoName workDir)) None))
               awaited) in
      (Returned (parseAgentOutput rt (or_else (ExecuteResponse.result response) "")
                   (ExecuteResponse.exitCode response)),
       mkWorld (issues w1)
         (calls w1 ++ [CExecuteCommand (Sandbox.id sandbox)
                         (chownToRoot (agentRepoPath repoName workDir)) None None]))
  end.
Proof.
  unfold runClaudeCodeInSandbox, daytona_get, getWorkDir.
  rewrite bind_request, got. rewrite bind_request. cbn [calls issues]. rewrite workDir_read.
  cbv zeta. fold (agentRepoPath repoName workDir). unfold executeCommand at 1.
  rewrite bind_attempt_request. cbn [calls issues].
  unfold bind at 1. unfold try_catch at 1. unfold executeCommand at 1.
  rewrite bind_during_request. cbn [calls issues].
  rewrite progressInterval_world. cbn [calls issues].
  fold (agentRequest repoName issueTitle issueBody sandbox workDir).
  replace (((calls w ++ [CGet sandboxId]) ++ [CGetWorkDir (Sandbox.id sandbox)]) ++
          [CExecuteCommand (Sandbox.id sandbox)
             (chownToClaude (agentRepoPath repoName workDir)) None None])%list
    with (agentPrelude sandboxId repoName w sandbox workDir)
    by (unfold agentPrelude; rewrite <- !app_assoc; reflexivity).
  fold (agentAnswer sdk sandboxId repoName issueTitle issueBody w sandbox workDir).
  fold (agentPolls sdk sandboxId repoName issueTitle issueBody w sandbox workDir).
  rewrite <- app_assoc.
  fold (agentAwaited sdk sandboxId repoName issueTitle issueBody w sandbox workDir).
  destruct (agentAnswer _ _ _ _ _ _ _ _) as [response|e]; [|reflexivity].
  cbv zeta.
  match goal with
  | |- context [bind ?m (fun _ => ret response) ?w0] =>
      assert (Hm : exists w1, m w0 = (Returned tt, w1))
  end.
  { destruct (has_output _).
    - eexists. reflexivity.
    - rewrite bind_attempt.
      match goal with |- context [attempt ?m ?w0] =>
        pose proof (attempt_returns m w0) as Hr;
        destruct (attempt m w0) as [[[]|e] w1]; cbn [fst] in Hr; try discriminate
      end.
      eexists. reflexivity. }
  destruct Hm as (w1 & Hm). unfold bind at 1. rewrite Hm. cbn [snd]. unfold ret.
  unfold executeCommand at 1. rewrite bind_attempt_request. reflexivity.
Qed.
End AgentRun.

Section AgentOutcomes.
Variable rt : Runtime.
Variable sdk : Daytona.
Variables sandboxId repoName issueTitle issueBody : string.
Variable w : World.
Variable sandbox : Sandbox.t.
Variable workDir : option string.
Hypothesis got : sdk_get sdk (calls w) sandboxId = Returned sandbox.
Hypothesis workDir_read :
  sdk_getWorkDir sdk (calls w ++ [CGet sandboxId]) (Sandbox.id sandbox) = Returned workDir.

Let repoPath : string := agentRepoPath repoName workDir.
Let agentCommand : Call := agentRequest repoName issueTitle issueBody sandbox workDir.
Let grant : Call :=
  CExecuteCommand (Sandbox.id sandbox) (chownToClaude repoPath) None None.
Let revert : Call :=
  CExecuteCommand (Sandbox.id sandbox) (chownToRoot repoPath) None None.
Let polls : list Call :=
  agentPolls sdk sandboxId repoName issueTitle issueBody w sandbox workDir.
Let answer : Outcome ExecuteResponse.t :=
  agentAnswer sdk sandboxId repoName issueTitle issueBody w sandbox workDir.
Let run : Outcome JsVal * World :=
  runClaudeCodeInSandbox rt sdk sandboxId repoName issueTitle issueBody w.

(** When the agent command returns, with whatever exit code, the last
    request of the run gives the repository back to root. *)
Lemma ownership_reverted_when_agent_returns (response : ExecuteResponse.t) :
  answer = Returned response ->
  exists earlier, calls (snd run) = (earlier ++ [revert])%list.
Proof.
  intros Ha. subst run answer.
  rewrite (runClaude_after_prelude rt sdk _ _ _ _ w sandbox workDir got workDir_read).
  cbv zeta. rewrite Ha. cbn [snd calls]. eexists. reflexivity.
Qed.

(** A poll of the progress timer is not the command that gives the
    repository back. *)
Lemma revert_is_no_poll (n : nat) : ~ In revert (repeat (agentPoll sandbox) n).
Proof.
  intros H. apply repeat_spec in H. subst revert.
  unfold agentPoll, chownToRoot, processCheckCommand in H. discriminate H.
Qed.

(** C6.  When the agent command throws (its timeout, a lost connection),
    the run throws the same error right away.  The requests of the run
    are the [get], the [getWorkDir], the command that grants the
    repository to the agent account, the agent command and the polls the
    progress timer has sent while the agent command was pending: the
    command that gives the repository back to root is not among them. *)
Theorem ownership_not_reverted_when_agent_throws (e : JsError) :
  answer = Thrown e ->
  fst run = Thrown e /\
  calls (snd run) =
    (calls w ++
     [CGet sandboxId; CGetWorkDir (Sandbox.id sandbox); grant; agentCommand] ++ polls)%list /\
  ~ In revert
       ([CGet sandboxId; CGetWorkDir (Sandbox.id sandbox); grant; agentCommand] ++ polls).
Proof.
  intros Ha. subst run answer.
  rewrite (runClaude_after_prelude rt sdk _ _ _ _ w sandbox workDir got workDir_read).
  cbv zeta. rewrite Ha. cbn [fst snd calls]. split; [reflexivity|]. split.
  - unfold agentAwaited, agentPrelude. rewrite <- !app_assoc. reflexivity.
  - intros H. apply in_app_or in H as [H|H].
    + subst revert grant agentCommand.
      unfold agentRequest, chownToRoot, chownToClaude, claudeCommandFor in H.
      simpl in H. destruct H as [H|[H|[H|[H|[]]]]]; discriminate H.
    + apply (revert_is_no_poll _ H).
Qed.

End AgentOutcomes.

Lemma ownership_not_reverted_when_agent_throws_witness :
  let run :=
    runClaudeCodeInSandbox node Sample.agentTimesOut "sb-after" "demo-app"
      "Button not clickable" "click does nothing" Sample.emptyWorld in
  fst run = Thrown (mkError "DaytonaError" "command timeout exceeded") /\
  commandsOf (calls (snd run)) =
    ([ "chown -R claude:claude /home/daytona/demo-app";
       claudeCommandFor "/home/daytona/demo-app"
         (base64 (promptFor "Button not clickable" "click does nothing")) ] ++
     repeat processCheckCommand 60)%list.
Proof.
  destruct (ownership_not_reverted_when_agent_throws node Sample.agentTimesOut
              "sb-after" "demo-app" "Button not clickable" "click does nothing"
              Sample.emptyWorld (Sandbox.mk "sb-after" "sb-after" (Some "started"))
              (Some "/home/daytona") eq_refl eq_refl
              (mkError "DaytonaError" "command timeout exceeded") eq_refl)
    as (Hthrown & Hcalls & _).
  cbv zeta. split; [exact Hthrown|]. rewrite Hcalls. vm_compute. reflexivity.
Defined.

(** ** The run as a whole *)

Lemma bind_first {A B} (P : Call -> Prop) (Q : B -> Prop)
    (c : Call) (m : M A) (k : A -> M B) (w : World) :
  (exists rest, calls (snd (m w)) = (calls w ++ c :: rest)%list) ->
  (forall a, io P Q (k a)) ->
  exists rest, calls (snd (bind m k w)) = (calls w ++ c :: rest)%list.
Proof.
  intros (rest & Hm) Hk. unfold bind.
  destruct (m w) as [[a|e] w1]; simpl in Hm.
  - destruct (Hk a w1) as (_ & (ext & Hc & _) & _).
    exists (rest ++ ext)%list. rewrite Hc, Hm, <- app_assoc. reflexivity.
  - exists rest. exact Hm.
Qed.

Ltac io_client :=
  repeat (io_auto;
          first [ apply io_createSandboxPair
                | apply io_setupAndRunApp
                | apply io_runClaudeCodeInSandbox
                | apply io_getPreviewUrl
                | apply io_createBranchAndPR ]).

Section Runs.
Variable rt : Runtime.
Variable env : ProcessEnv.
Variable sdk : Daytona.
Variable parsedIssue : ParsedIssue.t.
Variable anthropicApiKey : string.

Let issueNumber : Z := ParsedIssue.issueNumber parsedIssue.

Lemma io_steps1to5 : io preparing any (steps1to5 rt env sdk parsedIssue anthropicApiKey).
Proof. unfold steps1to5. io_client. Qed.

Lemma steps1to5_creates_first (w : World) :
  exists rest,
    calls (snd (steps1to5 rt env sdk parsedIssue anthropicApiKey w)) =
      (calls w ++ CCreate (beforeOptions env parsedIssue w) :: rest)%list.
Proof.
  unfold steps1to5. cbv zeta.
  eapply (bind_first preparing any).
  - apply createSandboxPair_creates_first.
  - intros pair. io_client.
Qed.


Lemma io_step6 (afterId : string) (beforePreview afterPreview : PreviewLink.t) :
  io publishing any (step6 rt env sdk parsedIssue afterId beforePreview afterPreview).
Proof. unfold step6. io_client. Qed.

(** Step 6 never throws: a failed publication is logged and dropped. *)
Lemma step6_returns (afterId : string) (beforePreview afterPreview : PreviewLink.t)
    (w : World) :
  fst (step6 rt env sdk parsedIssue afterId beforePreview afterPreview w) = Returned tt.
Proof.
  unfold step6. destruct (truthy (GITHUB_TOKEN env)); [|reflexivity].
  apply attempt_returns.
Qed.

Lemma updateIssue_present (n : Z) (updates : Updates.t) (w : World) (r : InMemoryIssue.t) :
  issues w !! n = Some r ->
  updateIssue env n updates w =
    (Returned tt,
     mkWorld (<[n := db.merge r updates (Date_now env (calls w))]> (issues w)) (calls w)).
Proof.
  intros Hr. unfold updateIssue, bind, get_calls, db.updateIssue. rewrite Hr. reflexivity.
Qed.

Lemma pipeline_unfold (w : World) (r : InMemoryIssue.t) :
  issues w !! issueNumber = Some r ->
  pipeline rt env sdk parsedIssue anthropicApiKey w =
  match steps1to5 rt env sdk parsedIssue anthropicApiKey (started env parsedIssue w r) with
  | (Thrown e, w1) => (Thrown e, w1)
  | (Returned (sandboxPair, beforePreview, afterPreview), w1) =>
      let w2 :=
        snd (step6 rt env sdk parsedIssue
               (DaytonaWorkspace.id (SandboxPair.after sandboxPair))
               beforePreview afterPreview w1) in
      (Returned (Response.mk 200
                   (ProcessedBody "Issue processed successfully" parsedIssue
                      (SandboxPair.before sandboxPair) (SandboxPair.after sandboxPair))),
       mkWorld
         (<[issueNumber :=
              db.merge (db.merge r (Updates.only_status processing)
                                 (Date_now env (calls w)))
                       (completedUpdates sandboxPair) (Date_now env (calls w2))]>
            (issues (started env parsedIssue w r)))
         (calls w2))
  end.
Proof.
  intros Hr. unfold pipeline. cbv zeta. unfold issueNumber in *.
  unfold bind at 1. rewrite (updateIssue_present _ _ _ _ Hr).
  fold (started env parsedIssue w r).
  unfold bind at 1.
  pose proof (io_steps1to5 (started env parsedIssue w r)) as (Hi1 & _ & _).
  destruct (steps1to5 _ _ _ _ _ (started env parsedIssue w r)) as [[[[pair bp] ap]|e] w1]; [|reflexivity].
  simpl in Hi1. unfold bind at 1.
  pose proof (step6_returns (DaytonaWorkspace.id (SandboxPair.after pair)) bp ap w1) as Hs.
  pose proof (io_step6 (DaytonaWorkspace.id (SandboxPair.after pair)) bp ap w1)
    as (Hi2 & _ & _).
  destruct (step6 _ _ _ _ _ _ _ w1) as [[[]|e] w2]; simpl in Hs, Hi2; [|discriminate].
  unfold bind at 1.
  assert (Hr2 : issues w2 !! issueNumber =
                Some (db.merge r (Updates.only_status processing) (Date_now env (calls w)))).
  { rewrite Hi2, Hi1. unfold started. simpl. apply lookup_insert_eq. }
  rewrite (updateIssue_present _ _ _ _ Hr2). simpl.
  rewrite Hi2, Hi1. unfold started, issueNumber. simpl.
  rewrite ?insert_insert_eq. reflexivity.
Qed.


(** C3, as the code has it.  Take a run whose record is in the store and
    has just been set to [processing].  If steps 1 to 5 return, the run
    completes whatever becomes of the publication: an error thrown by
    [createBranchAndPR] (a rejected push, a failed PR script) is dropped by
    step 6, the answer is 200, and the record ends [completed] with both
    sandbox ids.  If a step before the publication throws (the agent
    command running into its timeout is one case), the pipeline throws that
    error and has sent no publication request: no [git] command, no PR
    script, no upload. *)
Theorem publication_failure_is_not_recorded (w : World) (r : InMemoryIssue.t) :
  issues w !! issueNumber = Some r ->
  match steps1to5 rt env sdk parsedIssue anthropicApiKey (started env parsedIssue w r) with
  | (Returned (sandboxPair, beforePreview, afterPreview), w1) =>
      (forall githubToken e w',
         truthy (GITHUB_TOKEN env) = Some githubToken ->
         createBranchAndPR rt sdk
           (DaytonaWorkspace.id (SandboxPair.after sandboxPair))
           (ParsedIssue.repositoryName parsedIssue) issueNumber
           (ParsedIssue.title parsedIssue) (ParsedIssue.repositoryOwner parsedIssue)
           (ParsedIssue.repositoryName parsedIssue)
           (ParsedIssue.defaultBranch parsedIssue) githubToken
           (PreviewLink.url beforePreview) (PreviewLink.url afterPreview)
           (PreviewLink.token beforePreview) (PreviewLink.token afterPreview) w1
         = (Thrown e, w') ->
         step6 rt env sdk parsedIssue
               (DaytonaWorkspace.id (SandboxPair.after sandboxPair))
               beforePreview afterPreview w1 = (Returned tt, w')) /\
      exists w2 r',
        pipeline rt env sdk parsedIssue anthropicApiKey w =
          (Returned (Response.mk 200
                       (ProcessedBody "Issue processed successfully" parsedIssue
                          (SandboxPair.before sandboxPair)
                          (SandboxPair.after sandboxPair))), w2) /\
        issues w2 !! issueNumber = Some r' /\
        InMemoryIssue.status r' = completed /\
        InMemoryIssue.beforeWorkspaceId r' =
          Some (DaytonaWorkspace.id (SandboxPair.before sandboxPair)) /\
        InMemoryIssue.afterWorkspaceId r' =
          Some (DaytonaWorkspace.id (SandboxPair.after sandboxPair))
  | (Thrown e, w1) =>
      pipeline rt env sdk parsedIssue anthropicApiKey w = (Thrown e, w1) /\
      exists ext, calls w1 = (calls w ++ ext)%list /\ Forall preparing ext
  end.
Proof.
  intros Hr. rewrite (pipeline_unfold w r Hr).
  pose proof (io_steps1to5 (started env parsedIssue w r)) as (_ & (ext & Hc & Hext) & _).
  destruct (steps1to5 _ _ _ _ _ (started env parsedIssue w r)) as [[[[pair bp] ap]|e] w1].
  - split.
    + intros githubToken e w' Ht Hpr. unfold step6. rewrite Ht.
      unfold attempt, try_catch, bind. fold issueNumber. rewrite Hpr. reflexivity.
    + eexists. eexists. split; [reflexivity|]. simpl issues.
      split; [apply lookup_insert_eq|]. repeat split; reflexivity.
  - split; [reflexivity|]. exists ext. split; [exact Hc|exact Hext].
Qed.
End Runs.


Lemma publication_failure_is_not_recorded_witness :
  issues Sample.pendingWorld !! 42 = Some Sample.pending42 /\
  exists response w2 r',
    pipeline node Sample.env Sample.pushFails Sample.parsed42 "sk-ant-key"
             Sample.pendingWorld = (Returned response, w2) /\
    Response.status response = 200 /\
    In "git push -u origin autofix/issue-42-button-not-clickable"
       (commandsOf (calls w2)) /\
    issues w2 !! 42 = Some r' /\
    InMemoryIssue.status r' = completed.
Proof.
  split; [reflexivity|].
  pose proof (publication_failure_is_not_recorded node Sample.env Sample.pushFails
                Sample.parsed42 "sk-ant-key" Sample.pendingWorld Sample.pending42 eq_refl)
    as H.
  destruct (steps1to5 node Sample.env Sample.pushFails Sample.parsed42 "sk-ant-key" _)
    as [[[[pair bp] ap]|e] w1] eqn:E; [|vm_compute in E; discriminate E].
  destruct H as (_ & w2 & r' & Hp & Hr & Hs & _).
  exists (Response.mk 200
            (ProcessedBody "Issue processed successfully" Sample.parsed42
               (SandboxPair.before pair) (SandboxPair.after pair))), w2, r'.
  split; [exact Hp|]. split; [reflexivity|]. split; [|split; [exact Hr|exact Hs]].
  apply (f_equal snd) in Hp. simpl in Hp. rewrite <- Hp.
  vm_compute. auto 30.
Defined.

(** C3, as the design document has it, fails on these runs.  The provider
    rejects the push: the record ends [completed], not [failed].  The agent
    command runs into its timeout: the record stays [processing] and holds
    no sandbox id. *)
Lemma push_failure_ends_completed :
  (let w := snd (handler node Sample.env Sample.pushFails Sample.opened42
                   Sample.emptyWorld) in
   In "git push -u origin autofix/issue-42-button-not-clickable"
      (commandsOf (calls w)) /\
   InMemoryIssue.status <$> (issues w !! 42) = Some completed) /\
  (let w := snd (handler node Sample.env Sample.agentTimesOut Sample.opened42
                   Sample.emptyWorld) in
   InMemoryIssue.status <$> (issues w !! 42) = Some processing /\
   InMemoryIssue.beforeWorkspaceId <$> (issues w !! 42) = Some None /\
   InMemoryIssue.afterWorkspaceId <$> (issues w !! 42) = Some None).
Proof.
  split; cbv zeta.
  - split; [vm_compute; auto 30|vm_compute; reflexivity].
  - repeat split; vm_compute; reflexivity.
Qed.

(** ** A second event for the same issue *)

Section SecondEvent.
Variable rt : Runtime.
Variable env : ProcessEnv.
Variable sdk : Daytona.
Variable req : Request.t.
Variable webhookSecret daytonaApiKey anthropicApiKey : string.
Variable payload : GitHubWebhookPayload.t.
Variable parsedIssue : ParsedIssue.t.
Hypothesis post : Request.method req = "POST".
Hypothesis secret_set : truthy (WEBHOOK_SECRET env) = Some webhookSecret.
Hypothesis signed :
  verifyGitHubSignature rt (Request.rawBody req) (Request.x_hub_signature_256 req)
                        webhookSecret = Returned true.
Hypothesis body_read : Request.JSON_parse_rawBody req = Some payload.
Hypothesis opened : isIssueOpenedEvent payload = true.
Hypothesis issue_read : parseIssue payload = Returned parsedIssue.
Hypothesis valid : validateParsedIssue parsedIssue = true.
Hypothesis daytona_key : truthy (DAYTONA_API_KEY env) = Some daytonaApiKey.
Hypothesis anthropic_key : truthy (ANTHROPIC_API_KEY env) = Some anthropicApiKey.

Lemma handler_accepted (w : World) :
  handler rt env sdk req w =
  try_catch
    (pipeline rt env sdk parsedIssue anthropicApiKey)
    (fun error =>
       ret (Response.mk 500
              (ErrorMessageBody "Internal server error" (err_message error))))
    (saved env parsedIssue w).
Proof.
  rewrite (handler_authenticated rt env sdk req webhookSecret payload
             post secret_set signed body_read).
  rewrite opened. simpl negb. cbv iota.
  unfold try_catch. f_equal.
  unfold processOpened.
  assert (Hi : exists issue, issue_of payload "number" = Returned issue).
  { unfold parseIssue in issue_read.
    destruct (issue_of payload "number") as [issue|e]; [eauto|discriminate]. }
  destruct Hi as (issue & Hi).
  unfold bind at 1. unfold lift at 1. rewrite Hi.
  unfold bind at 1. unfold lift at 1. rewrite issue_read.
  rewrite valid. simpl negb. cbv iota.
  unfold bind at 1. unfold get_calls at 1.
  unfold bind at 1. unfold db.saveIssue at 1. simpl.
  rewrite daytona_key, anthropic_key. reflexivity.
Qed.

(** C1, as the code has it.  An accepted "opened" event is processed the
    same way whether or not the store already holds a record for the issue,
    and whatever the status of that record: the record is replaced by a
    fresh one (created now, first [pending], then [processing] and, if the
    run gets that far, [completed]), and a new pair is started, the first
    request being the [create] of a new BEFORE sandbox. *)
Theorem opened_event_always_starts_a_run (w : World) :
  let w' := snd (handler rt env sdk req w) in
  (exists rest,
     calls w' = (calls w ++ CCreate (beforeOptions env parsedIssue w) :: rest)%list) /\
  (exists r,
     issues w' !! ParsedIssue.issueNumber parsedIssue = Some r /\
     InMemoryIssue.createdAt r = Date_now env (calls w) /\
     InMemoryIssue.title r = ParsedIssue.title parsedIssue /\
     (InMemoryIssue.status r = processing \/ InMemoryIssue.status r = completed)).
Proof.
  cbv zeta. rewrite handler_accepted. unfold try_catch.
  assert (Hs : issues (saved env parsedIssue w) !! ParsedIssue.issueNumber parsedIssue
               = Some (freshRecord env parsedIssue w)) by apply lookup_insert_eq.
  rewrite (pipeline_unfold rt env sdk parsedIssue anthropicApiKey (saved env parsedIssue w) _ Hs).
  set (w0 := started env parsedIssue (saved env parsedIssue w) (freshRecord env parsedIssue w)).
  destruct (steps1to5_creates_first rt env sdk parsedIssue anthropicApiKey w0)
    as (rest & Hrest).
  pose proof (io_steps1to5 rt env sdk parsedIssue anthropicApiKey w0) as (Hi & _ & _).
  destruct (steps1to5 _ _ _ _ _ w0) as [[[[pair bp] ap]|e] w1]; simpl in Hrest, Hi.
  - cbv zeta. simpl snd.
    pose proof (io_step6 rt env sdk parsedIssue
                  (DaytonaWorkspace.id (SandboxPair.after pair)) bp ap w1)
      as (_ & (ext & Hc & _) & _).
    split.
    + exists (rest ++ ext)%list. simpl calls. rewrite Hc, Hrest, <- app_assoc. reflexivity.
    + eexists. split; [apply lookup_insert_eq|]. simpl. auto.
  - simpl snd. split.
    + exists rest. exact Hrest.
    + eexists. split; [rewrite Hi; apply lookup_insert_eq|]. simpl. auto.
Qed.
End SecondEvent.

Lemma opened_event_always_starts_a_run_witness :
  let w1 :=
    snd (handler node Sample.env Sample.agentTimesOut Sample.opened42 Sample.emptyWorld) in
  InMemoryIssue.status <$> (issues w1 !! 42) = Some processing /\
  exists rest r,
    calls (snd (handler node Sample.env Sample.cooperative Sample.opened42 w1)) =
      (calls w1 ++ CCreate (beforeOptions Sample.env Sample.parsed42 w1) :: rest)%list /\
    issues (snd (handler node Sample.env Sample.cooperative Sample.opened42 w1)) !! 42
      = Some r /\
    InMemoryIssue.createdAt r = Date_now Sample.env (calls w1).
Proof.
  cbv zeta. split; [vm_compute; reflexivity|].
  destruct (opened_event_always_starts_a_run node Sample.env Sample.cooperative
              Sample.opened42 Sample.secret "dtn-key" "sk-ant-key"
              (Sample.payloadWith "opened" (Defined Sample.issue42)) Sample.parsed42
              eq_refl eq_refl ltac:(vm_compute; reflexivity) eq_refl eq_refl eq_refl
              eq_refl eq_refl eq_refl
              (snd (handler node Sample.env Sample.agentTimesOut Sample.opened42
                      Sample.emptyWorld)))
    as ((rest & Hrest) & (r & Hr & Hc & _)).
  exists rest, r. split; [exact Hrest|]. split; [exact Hr|exact Hc].
Defined.

(** C1, as the design document has it, fails on this run.  The first
    delivery leaves the record of issue 42 [processing] (the agent ran into
    its timeout).  The second delivery of the same event is not dropped: it
    replaces the record and asks for two more sandboxes.  The same happens
    from a store whose record is [pending]. *)
Lemma second_opened_event_is_not_dropped :
  (let w1 :=
     snd (handler node Sample.env Sample.agentTimesOut Sample.opened42
            Sample.emptyWorld) in
   let w2 := snd (handler node Sample.env Sample.cooperative Sample.opened42 w1) in
   InMemoryIssue.status <$> (issues w1 !! 42) = Some processing /\
   issues w2 <> issues w1 /\
   List.length (List.filter is_create (calls w2)) =
     (List.length (List.filter is_create (calls w1)) + 2)%nat) /\
  (let w2 :=
     snd (handler node Sample.env Sample.cooperative Sample.opened42
            Sample.pendingWorld) in
   InMemoryIssue.status <$> (issues Sample.pendingWorld !! 42) = Some pending /\
   issues w2 <> issues Sample.pendingWorld /\
   List.length (List.filter is_create (calls w2)) = 2%nat).
Proof.
  split; cbv zeta.
  - split; [vm_compute; reflexivity|]. split; [|vm_compute; reflexivity].
    intros H. apply (f_equal (fun m => InMemoryIssue.status <$> (m !! 42))) in H.
    vm_compute in H. discriminate H.
  - split; [vm_compute; reflexivity|]. split; [|vm_compute; reflexivity].
    intros H. apply (f_equal (fun m => InMemoryIssue.status <$> (m !! 42))) in H.
    vm_compute in H. discriminate H.
Qed.

(** ** Publication *)

Section CleanTree.
Variable rt : Runtime.
Variable sdk : Daytona.
Hypothesis clean :
  forall h sandboxId cwd timeout response,
    sdk_executeCommand sdk h sandboxId "git status --short" cwd timeout = Returned response ->
    has_output (ExecuteResponse.result response) = false.

(** When [git status --short] prints nothing, [createBranchAndPR] sends
    neither [git add -A] nor [git commit]. *)
Lemma clean_tree_skips_staging
    (sandboxId repoName : string) (issueNumber : Z)
    (issueTitle repositoryOwner repositoryName defaultBranch githubToken : string)
    (beforePreviewUrl afterPreviewUrl beforePreviewToken afterPreviewToken : string) :
  io not_staging any
     (createBranchAndPR rt sdk sandboxId repoName issueNumber issueTitle
        repositoryOwner repositoryName defaultBranch githubToken
        beforePreviewUrl afterPreviewUrl beforePreviewToken afterPreviewToken).
Proof.
  unfold createBranchAndPR, daytona_get, getWorkDir, uploadFile.
  cbv zeta.
  apply io_bind_any; [io_auto|]. intros sandbox.
  apply io_bind_any; [io_auto|]. intros workDir.
  apply io_bind_any; [unfold executeCommand; io_auto|]. intros _.
  apply io_bind_any; [unfold executeCommand; io_auto|]. intros _.
  eapply (io_bind _ (fun response => has_output (ExecuteResponse.result response) = false)).
  { unfold executeCommand. apply io_request; [split; reflexivity|].
    intros h response. apply clean. }
  intros statusResult Hclean. rewrite Hclean. simpl negb. cbv iota.
  unfold executeCommand. io_auto.
Qed.
End CleanTree.

Lemma template_chars_plain (a s : string) :
  all_chars is_plain a = true ->
  template_chars (a +:+ s) =
  match template_chars s with
  | Some (t, rest) => Some (a +:+ t, rest)
  | None => None
  end.
Proof.
  induction a as [|c a IH].
  - intros _. change (EmptyString +:+ s) with s.
    destruct (template_chars s) as [[t rest]|]; reflexivity.
  - intros H. simpl in H. apply andb_true_iff in H as [Hc Ha].
    unfold is_plain in Hc. apply andb_true_iff in Hc as [Hc H3].
    apply andb_true_iff in Hc as [H1 H2].
    apply negb_true_iff in H1, H2, H3.
    change (String c a +:+ s) with (String c (a +:+ s)).
    cbn [template_chars]. rewrite H1, H2, H3. cbn [andb].
    rewrite (IH Ha). destruct (template_chars s) as [[t rest]|]; reflexivity.
Qed.

Lemma pretty_N_go_plain (x : N) (s : string) :
  all_chars is_plain s = true -> all_chars is_plain (pretty_N_go x s) = true.
Proof.
  revert s. induction (N.lt_wf_0 x) as [x _ IH]; intros s Hs.
  destruct (N.eq_dec x 0%N) as [->|Hx]; [exact Hs|].
  rewrite pretty_N_go_step by lia.
  apply IH; [apply N.div_lt; lia|].
  simpl. rewrite Hs, andb_true_r.
  unfold pretty_N_char. repeat case_match; reflexivity.
Qed.

Lemma num_plain (n : Z) : all_chars is_plain (num n) = true.
Proof.
  assert (HN : forall x : N, all_chars is_plain (pretty x) = true).
  { intros x. unfold pretty, pretty_N. case_decide; [reflexivity|].
    apply pretty_N_go_plain. reflexivity. }
  unfold num, pretty, pretty_Z. destruct n as [|q|q]; [reflexivity| |].
  - apply HN.
  - simpl. apply HN.
Qed.

(** C8.  On a clean tree nothing is staged or committed and the sentence
    about no code changes is handed to the PR script as [changesSummary]
    (see [clean_tree_skips_staging] and [clean_tree_run] around this
    theorem).  But the PR body never holds it.  Every file that
    [createBranchAndPR] uploads is a script in which [prBody] is initialised
    by [prBodySource issueNumber], and for every issue number the template
    literal at the start of that text ends at the first backquote of the
    Markdown code fence, before [${changesSummary}]: the backquotes of the
    body are written into the script without a backslash.  What follows the
    literal is an empty template literal and a line that starts with
    [${], which is no JavaScript; [node] rejects the script. *)
Theorem pr_body_literal_ends_at_the_code_fence
    (rt : Runtime) (sdk : Daytona)
    (sandboxId repoName : string) (issueNumber : Z)
    (issueTitle repositoryOwner repositoryName defaultBranch githubToken : string)
    (beforePreviewUrl afterPreviewUrl beforePreviewToken afterPreviewToken : string)
    (w : World) :
  (exists ext,
     calls (snd (createBranchAndPR rt sdk sandboxId repoName issueNumber issueTitle
                   repositoryOwner repositoryName defaultBranch githubToken
                   beforePreviewUrl afterPreviewUrl beforePreviewToken
                   afterPreviewToken w))
       = (calls w ++ ext)%list /\
     Forall (uploads_pr_script issueNumber) ext) /\
  exists rest,
    template_literal (prBodySource issueNumber) =
      Some ("## 🤖 AutoFixer Pull Request

This PR was automatically generated to address issue #" +:+ num issueNumber +:+ ".

### 📋 Summary of Changes

", rest) /\
    String.prefix ("``" +:+ newline +:+ "${changesSummary}") rest = true.
Proof.
  split.
  - assert (H : io (uploads_pr_script issueNumber) any
                  (createBranchAndPR rt sdk sandboxId repoName issueNumber issueTitle
                     repositoryOwner repositoryName defaultBranch githubToken
                     beforePreviewUrl afterPreviewUrl beforePreviewToken
                     afterPreviewToken)).
    { unfold createBranchAndPR, daytona_get, executeCommand, getWorkDir, uploadFile,
        prScript.
      io_auto. }
    destruct (H w) as (_ & Hext & _). exact Hext.
  - unfold prBodySource.
    match goal with
    | |- context [template_literal (?opening +:+ ?r)] =>
        let text := eval cbv in (drop_bytes 1 opening) in
        change (template_literal (opening +:+ r)) with (template_chars (text +:+ r));
        rewrite (template_chars_plain text) by (vm_compute; reflexivity)
    end.
    rewrite (template_chars_plain (num issueNumber)) by apply num_plain.
    match goal with
    | |- context [template_chars ?r] =>
        let v := eval vm_compute in (template_chars r) in
        change (template_chars r) with v
    end.
    cbv iota beta. eexists. split; [reflexivity|].
    vm_compute. reflexivity.
Qed.

(** The run for issue 42 on a clean tree: the commands, without [git add]
    and [git commit], and the script that is uploaded. *)
Example clean_tree_run :
  let w :=
    snd (createBranchAndPR node Sample.idle "sb-after" "demo-app" 42
           "Button not clickable" "octo" "demo-app" "main" "ghp-token"
           "https://before.example" "https://after.example" "t-before" "t-after"
           Sample.emptyWorld) in
  commandsOf (calls w) =
    [ gitConfigCommand;
      "git checkout main";
      "git status --short";
      "git checkout -b autofix/issue-42-button-not-clickable";
      "git remote set-url origin https://ghp-token@github.com/octo/demo-app.git || git remote add origin https://ghp-token@github.com/octo/demo-app.git";
      "git push -u origin autofix/issue-42-button-not-clickable";
      "node /home/daytona/demo-app/.create-pr.js" ] /\
  In (CUploadFile "sb-after"
        (prScriptHead "ghp-token" "Button not clickable" "https://before.example"
                      "t-before" "https://after.example" "t-after" NO_CHANGES_SUMMARY +:+
         prBodySource 42 +:+
         prScriptTail "octo" "demo-app" "autofix/issue-42-button-not-clickable" "main")
        "/home/daytona/demo-app/.create-pr.js")
     (calls w).
Proof. cbv zeta. split; [vm_compute; reflexivity|vm_compute; auto 40]. Qed.

(** With a modified file in the tree, everything is staged and committed
    under a message that names the issue. *)
Example changes_are_staged_and_committed :
  let w :=
    snd (createBranchAndPR node Sample.cooperative "sb-after" "demo-app" 42
           "Button not clickable" "octo" "demo-app" "main" "ghp-token"
           "https://before.example" "https://after.example" "t-before" "t-after"
           Sample.emptyWorld) in
  commandsOf (calls w) =
    [ gitConfigCommand;
      "git checkout main";
      "git status --short";
      "git checkout -b autofix/issue-42-button-not-clickable";
      "git add -A";
      "git commit -m 'AutoFix: Button not clickable

Fixes #42

This PR was automatically generated by AutoFixer.'";
      "git remote set-url origin https://ghp-token@github.com/octo/demo-app.git || git remote add origin https://ghp-token@github.com/octo/demo-app.git";
      "git push -u origin autofix/issue-42-button-not-clickable";
      "git diff main..autofix/issue-42-button-not-clickable --stat";
      "node /home/daytona/demo-app/.create-pr.js" ].
Proof. vm_compute. reflexivity. Qed.

(** * Further properties of the code *)

(** ** The brace match *)

Lemma append_String (c : ascii) (a s : string) : String c a +:+ s = String c (a +:+ s).
Proof. reflexivity. Qed.

Lemma append_Empty (s : string) : EmptyString +:+ s = s.
Proof. reflexivity. Qed.

Lemma from_first_brace_skips (a s : string) :
  all_chars (is_not "{") a = true ->
  from_first_brace (a +:+ "{" +:+ s) = Some ("{" +:+ s).
Proof.
  induction a as [|c a IH]; intros H.
  - reflexivity.
  - simpl in H. apply andb_true_iff in H as [Hc Ha].
    rewrite append_String. cbn [from_first_brace].
    unfold is_not in Hc. apply negb_true_iff in Hc. rewrite Hc. auto.
Qed.

Lemma upto_last_brace_none (b : string) :
  all_chars (is_not "}") b = true -> upto_last_brace b = None.
Proof.
  induction b as [|c b IH]; intros H; [reflexivity|].
  simpl in H. apply andb_true_iff in H as [Hc Hb].
  cbn [upto_last_brace]. rewrite (IH Hb).
  unfold is_not in Hc. apply negb_true_iff in Hc. rewrite Hc. reflexivity.
Qed.

Lemma upto_last_brace_closing (m b : string) :
  all_chars (is_not "}") b = true ->
  upto_last_brace (m +:+ "}" +:+ b) = Some (m +:+ "}").
Proof.
  intros Hb. induction m as [|c m IH].
  - rewrite append_Empty. change ("}" +:+ b) with (String "}" b).
    cbn [upto_last_brace]. rewrite (upto_last_brace_none b Hb). reflexivity.
  - rewrite append_String. cbn [upto_last_brace]. rewrite IH. reflexivity.
Qed.

Lemma from_first_brace_inv (text t : string) :
  from_first_brace text = Some t ->
  exists a s, text = a +:+ "{" +:+ s /\ t = "{" +:+ s /\ all_chars (is_not "{") a = true.
Proof.
  revert t. induction text as [|c r IH]; intros t H; [discriminate|].
  cbn [from_first_brace] in H. destruct (Ascii.eqb c "{") eqn:Hc.
  - apply Ascii.eqb_eq in Hc. subst c. injection H as <-.
    exists EmptyString, r. repeat split.
  - destruct (IH t H) as (a & s & -> & -> & Ha).
    exists (String c a), s. repeat split. simpl. unfold is_not at 1. rewrite Hc. exact Ha.
Qed.

Lemma upto_last_brace_inv (t j : string) :
  upto_last_brace t = Some j ->
  exists m b, t = m +:+ "}" +:+ b /\ j = m +:+ "}" /\ all_chars (is_not "}") b = true.
Proof.
  revert j. induction t as [|c r IH]; intros j H; [discriminate|].
  cbn [upto_last_brace] in H. destruct (upto_last_brace r) as [p|] eqn:Hr.
  - injection H as <-. destruct (IH p eq_refl) as (m & b & -> & -> & Hb).
    exists (String c m), b. repeat split. exact Hb.
  - destruct (Ascii.eqb c "}") eqn:Hc; [|discriminate].
    apply Ascii.eqb_eq in Hc. subst c. injection H as <-.
    exists EmptyString, r. repeat split.
    clear IH. induction r as [|d r IH]; [reflexivity|].
    cbn [upto_last_brace] in Hr. destruct (upto_last_brace r); [discriminate|].
    destruct (Ascii.eqb d "}") eqn:Hd; [discriminate|].
    simpl. unfold is_not at 1. rewrite Hd. auto.
Qed.

(** X1.  [text.match(/\{[\s\S]*\}/)] is greedy: it gives the part of the
    text from its first opening brace to the last closing brace after it,
    and nothing ([null]) exactly when the text has no opening brace with
    a closing brace after it.  Two JSON objects in one output are matched
    as one text. *)
Theorem match_braces_spans_first_to_last (text j : string) :
  match_braces text = Some j <->
  exists a m b,
    text = a +:+ "{" +:+ m +:+ "}" +:+ b /\ j = "{" +:+ m +:+ "}" /\
    all_chars (is_not "{") a = true /\ all_chars (is_not "}") b = true.
Proof.
  unfold match_braces. split.
  - destruct (from_first_brace text) as [t|] eqn:Ht; [|discriminate].
    intros Hj. destruct (from_first_brace_inv _ _ Ht) as (a & s & -> & -> & Ha).
    destruct (upto_last_brace_inv _ _ Hj) as (m & b & Hs & -> & Hb).
    destruct m as [|c m].
    + (* the closing brace cannot be the opening one *)
      change (String "{" s = String "}" b) in Hs. discriminate Hs.
    + change (String "{" s = String c (m +:+ "}" +:+ b)) in Hs. injection Hs as <- ->.
      exists a, m, b. repeat split; assumption.
  - intros (a & m & b & -> & -> & Ha & Hb).
    rewrite (from_first_brace_skips a _ Ha).
    change ("{" +:+ m +:+ "}" +:+ b) with (String "{" (m +:+ "}" +:+ b)).
    cbn [upto_last_brace]. rewrite (upto_last_brace_closing m b Hb). reflexivity.
Qed.

(** ** The prompt in base64 *)

Lemma base64_digit_value (n : nat) :
  (n < 64)%nat -> base64_value (base64_digit n) = Some n /\ is_base64_char (base64_digit n) = true.
Proof.
  intros Hn.
  assert (H : forallb (fun n => match base64_value (base64_digit n) with
                                | Some m => (m =? n)%nat
                                | None => false
                                end && is_base64_char (base64_digit n)) (seq 0 64) = true)
    by (vm_compute; reflexivity).
  rewrite forallb_forall in H. specialize (H n).
  assert (Hin : In n (seq 0 64)) by (apply in_seq; lia).
  specialize (H Hin). apply andb_true_iff in H as [H1 H2]. split; [|exact H2].
  destruct (base64_value (base64_digit n)) as [m|]; [|discriminate].
  apply Nat.eqb_eq in H1. congruence.
Qed.

Lemma nat_of_ascii_bound (a : ascii) : (nat_of_ascii a < 256)%nat.
Proof. destruct a as [[] [] [] [] [] [] [] []]; vm_compute; lia. Qed.

Lemma string_ind3 (P : string -> Prop) :
  P EmptyString ->
  (forall a, P (String a EmptyString)) ->
  (forall a b, P (String a (String b EmptyString))) ->
  (forall a b c r, P r -> P (String a (String b (String c r)))) ->
  forall s, P s.
Proof.
  intros H0 H1 H2 H3.
  fix IH 1. intros [|a [|b [|c r]]].
  - exact H0.
  - apply H1.
  - apply H2.
  - apply H3, IH.
Qed.

Lemma pad_value : base64_value "=" = None.
Proof. reflexivity. Qed.

(** X3.  The prompt survives its encoding: reading the base64 text back
    gives the prompt, byte for byte, so no two prompts share an
    encoding. *)
Theorem base64_decodes (s : string) : base64_decode (base64 s) = Some s.
Proof.
  induction s as [|a|a b|a b c r IH] using string_ind3.
  - reflexivity.
  - cbn [base64]. cbv zeta.
    pose proof (nat_of_ascii_bound a) as Ha.
    set (x := nat_of_ascii a) in *.
    cbn [base64_decode].
    destruct (base64_digit_value (x / 4)) as [-> _]; [apply Nat.Div0.div_lt_upper_bound; lia|].
    destruct (base64_digit_value (x mod 4 * 16)) as [-> _];
      [pose proof (Nat.mod_upper_bound x 4); lia|].
    rewrite pad_value. cbn -[Nat.div Nat.modulo].
    f_equal. f_equal.
    replace (x / 4 * 4 + x mod 4 * 16 / 16)%nat with x.
    + apply ascii_nat_embedding.
    + rewrite Nat.div_mul by lia. rewrite (Nat.div_mod_eq x 4) at 1. lia.
  - cbn [base64]. cbv zeta.
    pose proof (nat_of_ascii_bound a) as Ha. pose proof (nat_of_ascii_bound b) as Hb.
    set (x := nat_of_ascii a) in *. set (y := nat_of_ascii b) in *.
    cbn [base64_decode].
    pose proof (Nat.mod_upper_bound x 4 ltac:(lia)).
    pose proof (Nat.mod_upper_bound y 16 ltac:(lia)).
    assert (y / 16 < 16)%nat by (apply Nat.Div0.div_lt_upper_bound; lia).
    destruct (base64_digit_value (x / 4)) as [-> _]; [apply Nat.Div0.div_lt_upper_bound; lia|].
    destruct (base64_digit_value (x mod 4 * 16 + y / 16)) as [-> _]; [lia|].
    destruct (base64_digit_value (y mod 16 * 4)) as [-> _]; [lia|].
    rewrite pad_value. cbn -[Nat.div Nat.modulo].
    replace (x / 4 * 4 + (x mod 4 * 16 + y / 16) / 16)%nat with x.
    2:{ rewrite (Nat.add_comm (x mod 4 * 16)), Nat.div_add by lia.
        rewrite (Nat.div_small (y / 16)) by lia.
        rewrite (Nat.div_mod_eq x 4) at 1. lia. }
    replace ((x mod 4 * 16 + y / 16) mod 16 * 16 + y mod 16 * 4 / 4)%nat with y.
    2:{ rewrite (Nat.add_comm (x mod 4 * 16)), Nat.Div0.mod_add.
        rewrite (Nat.mod_small (y / 16)) by lia.
        rewrite Nat.div_mul by lia.
        rewrite (Nat.div_mod_eq y 16) at 1. lia. }
    unfold x, y. rewrite !ascii_nat_embedding. reflexivity.
  - cbn [base64]. cbv zeta.
    pose proof (nat_of_ascii_bound a) as Ha. pose proof (nat_of_ascii_bound b) as Hb.
    pose proof (nat_of_ascii_bound c) as Hc.
    set (x := nat_of_ascii a) in *. set (y := nat_of_ascii b) in *.
    set (z := nat_of_ascii c) in *.
    cbn [base64_decode].
    pose proof (Nat.mod_upper_bound x 4 ltac:(lia)).
    pose proof (Nat.mod_upper_bound y 16 ltac:(lia)).
    pose proof (Nat.mod_upper_bound z 64 ltac:(lia)).
    assert (y / 16 < 16)%nat by (apply Nat.Div0.div_lt_upper_bound; lia).
    assert (z / 64 < 4)%nat by (apply Nat.Div0.div_lt_upper_bound; lia).
    destruct (base64_digit_value (x / 4)) as [-> _]; [apply Nat.Div0.div_lt_upper_bound; lia|].
    destruct (base64_digit_value (x mod 4 * 16 + y / 16)) as [-> _]; [lia|].
    destruct (base64_digit_value (y mod 16 * 4 + z / 64)) as [-> _]; [lia|].
    destruct (base64_digit_value (z mod 64)) as [-> _]; [lia|].
    rewrite IH. cbv zeta.
    replace (x / 4 * 4 + (x mod 4 * 16 + y / 16) / 16)%nat with x.
    2:{ rewrite (Nat.add_comm (x mod 4 * 16)), Nat.div_add by lia.
        rewrite (Nat.div_small (y / 16)) by lia.
        rewrite (Nat.div_mod_eq x 4) at 1. lia. }
    replace ((x mod 4 * 16 + y / 16) mod 16 * 16 + (y mod 16 * 4 + z / 64) / 4)%nat with y.
    2:{ rewrite (Nat.add_comm (x mod 4 * 16)), Nat.Div0.mod_add.
        rewrite (Nat.mod_small (y / 16)) by lia.
        rewrite (Nat.add_comm (y mod 16 * 4)), Nat.div_add by lia.
        rewrite (Nat.div_small (z / 64)) by lia.
        rewrite (Nat.div_mod_eq y 16) at 1. lia. }
    replace ((y mod 16 * 4 + z / 64) mod 4 * 64 + z mod 64)%nat with z.
    2:{ rewrite (Nat.add_comm (y mod 16 * 4)), Nat.Div0.mod_add.
        rewrite (Nat.mod_small (z / 64)) by lia.
        rewrite (Nat.div_mod_eq z 64) at 1. lia. }
    unfold x, y, z. rewrite !ascii_nat_embedding. reflexivity.
Qed.

(** X2.  The base64 text of a prompt holds only letters, digits, [+], [/]
    and [=] (so no quote, backslash, dollar or space, whatever the title
    and the body of the issue hold), and four characters for every three
    bytes, the last group padded. *)
Theorem base64_text (s : string) :
  all_chars is_base64_char (base64 s) = true /\
  String.length (base64 s) = (4 * ((String.length s + 2) / 3))%nat.
Proof.
  induction s as [|a|a b|a b c r [IH1 IH2]] using string_ind3.
  - split; reflexivity.
  - pose proof (nat_of_ascii_bound a) as Ha.
    pose proof (Nat.mod_upper_bound (nat_of_ascii a) 4 ltac:(lia)).
    split; [|reflexivity]. cbn [base64]. cbv zeta. cbn [all_chars].
    destruct (base64_digit_value (nat_of_ascii a / 4)) as [_ ->];
      [apply Nat.Div0.div_lt_upper_bound; lia|].
    destruct (base64_digit_value (nat_of_ascii a mod 4 * 16)) as [_ ->]; [lia|].
    reflexivity.
  - pose proof (nat_of_ascii_bound a) as Ha. pose proof (nat_of_ascii_bound b) as Hb.
    pose proof (Nat.mod_upper_bound (nat_of_ascii a) 4 ltac:(lia)).
    pose proof (Nat.mod_upper_bound (nat_of_ascii b) 16 ltac:(lia)).
    assert (nat_of_ascii b / 16 < 16)%nat by (apply Nat.Div0.div_lt_upper_bound; lia).
    split; [|reflexivity]. cbn [base64]. cbv zeta. cbn [all_chars].
    destruct (base64_digit_value (nat_of_ascii a / 4)) as [_ ->];
      [apply Nat.Div0.div_lt_upper_bound; lia|].
    destruct (base64_digit_value (nat_of_ascii a mod 4 * 16 + nat_of_ascii b / 16)) as [_ ->]; [lia|].
    destruct (base64_digit_value (nat_of_ascii b mod 16 * 4)) as [_ ->]; [lia|].
    reflexivity.
  - pose proof (nat_of_ascii_bound a) as Ha. pose proof (nat_of_ascii_bound b) as Hb.
    pose proof (nat_of_ascii_bound c) as Hc.
    pose proof (Nat.mod_upper_bound (nat_of_ascii a) 4 ltac:(lia)).
    pose proof (Nat.mod_upper_bound (nat_of_ascii b) 16 ltac:(lia)).
    pose proof (Nat.mod_upper_bound (nat_of_ascii c) 64 ltac:(lia)).
    assert (nat_of_ascii b / 16 < 16)%nat by (apply Nat.Div0.div_lt_upper_bound; lia).
    assert (nat_of_ascii c / 64 < 4)%nat by (apply Nat.Div0.div_lt_upper_bound; lia).
    split.
    + cbn [base64]. cbv zeta. cbn [all_chars].
      destruct (base64_digit_value (nat_of_ascii a / 4)) as [_ ->];
        [apply Nat.Div0.div_lt_upper_bound; lia|].
      destruct (base64_digit_value (nat_of_ascii a mod 4 * 16 + nat_of_ascii b / 16)) as [_ ->]; [lia|].
      destruct (base64_digit_value (nat_of_ascii b mod 16 * 4 + nat_of_ascii c / 64)) as [_ ->]; [lia|].
      destruct (base64_digit_value (nat_of_ascii c mod 64)) as [_ ->]; [lia|].
      exact IH1.
    + cbn [base64]. cbv zeta. cbn [String.length]. rewrite IH2.
      replace (S (S (S (String.length r))) + 2)%nat with ((String.length r + 2) + 1 * 3)%nat by lia.
      rewrite Nat.div_add by lia. lia.
Qed.

(** ** The commit message in single quotes *)

Lemma sh_word_escaped (s : string) :
  sh_word true (escape_single_quotes s +:+ "'") = Some s.
Proof.
  induction s as [|c r IH]; [reflexivity|].
  cbn [escape_single_quotes]. destruct (Ascii.eqb c "'") eqn:Hc.
  - apply Ascii.eqb_eq in Hc. subst c.
    change (("'" +:+ backslash +:+ "''" +:+ escape_single_quotes r) +:+ "'")
      with (String "'" (String (ascii_of_nat 92) (String "'" (String "'"
              (escape_single_quotes r +:+ "'"))))).
    cbn [sh_word]. cbn [Ascii.eqb Bool.eqb ascii_of_nat ascii_of_pos]. 
    change (Ascii.eqb "'" "'") with true. cbv iota.
    change (Ascii.eqb "'" (ascii_of_nat 92)) with false. cbv iota.
    rewrite IH. reflexivity.
  - change (String c (escape_single_quotes r) +:+ "'")
      with (String c (escape_single_quotes r +:+ "'")).
    cbn [sh_word]. rewrite Hc, IH. reflexivity.
Qed.

(** X4.  The commit command is [git commit -m] followed by one shell
    word, and a shell reads that word as the commit message, whatever single
    quotes the title of the issue holds. *)
Theorem commit_message_is_quoted (issueTitle : string) (issueNumber : Z) :
  exists word,
    commitCommandFor issueTitle issueNumber = "git commit -m " +:+ word /\
    sh_word false word = Some (commitMessageFor issueTitle issueNumber).
Proof.
  exists ("'" +:+ escape_single_quotes (commitMessageFor issueTitle issueNumber) +:+ "'").
  split; [reflexivity|].
  change ("'" +:+ ?x) with (String "'" x).
  cbn [sh_word]. change (Ascii.eqb "'" "'") with true. cbv iota.
  apply sh_word_escaped.
Qed.

(** ** The shape of a slug *)

Lemma alnum_not_hyphen (c : ascii) : is_lower_alnum c = true -> is_hyphen c = false.
Proof.
  unfold is_hyphen. intros H. destruct (Ascii.eqb c "-") eqn:E; [|reflexivity].
  apply Ascii.eqb_eq in E. subst c. discriminate H.
Qed.

Lemma replace_unsafe_runs_single (in_run : bool) (s : string) :
  single_hyphens (replace_unsafe_runs in_run s) = true /\
  (in_run = true -> starts_with_hyphen (replace_unsafe_runs in_run s) = false).
Proof.
  revert in_run. induction s as [|c r IH]; intros in_run; [split; reflexivity|].
  cbn [replace_unsafe_runs]. destruct (is_lower_alnum c) eqn:Hc.
  - destruct (IH false) as [IH1 _]. cbn [single_hyphens starts_with_hyphen].
    rewrite (alnum_not_hyphen c Hc), IH1. split; reflexivity.
  - destruct in_run.
    + apply IH.
    + destruct (IH true) as [IH1 IH2]. cbn [single_hyphens starts_with_hyphen].
      rewrite (IH2 eq_refl), IH1, andb_false_r. split; [reflexivity|discriminate].
Qed.

Lemma single_hyphens_tail (c : ascii) (r : string) :
  single_hyphens (String c r) = true -> single_hyphens r = true.
Proof. cbn [single_hyphens]. intros H. apply andb_true_iff in H. apply H. Qed.

Lemma strip_leading_hyphens_single (s : string) :
  single_hyphens s = true ->
  single_hyphens (strip_leading_hyphens s) = true /\
  starts_with_hyphen (strip_leading_hyphens s) = false.
Proof.
  induction s as [|c r IH]; intros H; [split; reflexivity|].
  cbn [strip_leading_hyphens]. destruct (is_hyphen c) eqn:Hc.
  - apply IH, (single_hyphens_tail c r H).
  - split; [exact H|]. exact Hc.
Qed.

Lemma strip_trailing_hyphens_head (s : string) :
  starts_with_hyphen s = false -> starts_with_hyphen (strip_trailing_hyphens s) = false.
Proof.
  destruct s as [|c r]; [reflexivity|]. cbn [strip_trailing_hyphens starts_with_hyphen].
  intros Hc. rewrite Hc. destruct (strip_trailing_hyphens r); exact Hc.
Qed.

Lemma strip_trailing_hyphens_starts (s : string) :
  starts_with_hyphen (strip_trailing_hyphens s) = true -> starts_with_hyphen s = true.
Proof.
  intros H. destruct (starts_with_hyphen s) eqn:E; [reflexivity|].
  rewrite (strip_trailing_hyphens_head s E) in H. discriminate H.
Qed.

Lemma strip_trailing_hyphens_single (s : string) :
  single_hyphens s = true -> single_hyphens (strip_trailing_hyphens s) = true.
Proof.
  induction s as [|c r IH]; intros H; [reflexivity|].
  pose proof (single_hyphens_tail c r H) as Hr. specialize (IH Hr).
  cbn [single_hyphens] in H. apply andb_true_iff in H as [Hcr _].
  cbn [strip_trailing_hyphens].
  pose proof (strip_trailing_hyphens_starts r) as Hs.
  destruct (strip_trailing_hyphens r) as [|d t].
  - destruct (is_hyphen c) eqn:Hc; [reflexivity|].
    cbn [single_hyphens starts_with_hyphen]. rewrite andb_false_r. reflexivity.
  - cbn [single_hyphens] in *. rewrite IH, andb_true_r.
    destruct (is_hyphen c) eqn:Hc; [|reflexivity].
    destruct (starts_with_hyphen (String d t)) eqn:Hd; [|reflexivity].
    rewrite (Hs eq_refl) in Hcr. discriminate Hcr.
Qed.

Lemma substring0_head (n : nat) (s : string) :
  starts_with_hyphen s = false -> starts_with_hyphen (substring0 n s) = false.
Proof. destruct n, s; simpl; auto. Qed.

Lemma substring0_single (n : nat) (s : string) :
  single_hyphens s = true -> single_hyphens (substring0 n s) = true.
Proof.
  revert s. induction n as [|n IH]; intros [|c r] H; try reflexivity.
  cbn [substring0 single_hyphens] in *. apply andb_true_iff in H as [Hc Hr].
  rewrite (IH r Hr), andb_true_r.
  destruct (is_hyphen c); [|reflexivity]. cbn [andb] in *.
  apply negb_true_iff in Hc. rewrite (substring0_head n r Hc). reflexivity.
Qed.

Lemma replace_unsafe_runs_no_alnum (in_run : bool) (s : string) :
  no_alnum s = true -> all_chars is_hyphen (replace_unsafe_runs in_run s) = true.
Proof.
  revert in_run. induction s as [|c r IH]; intros in_run H; [reflexivity|].
  unfold no_alnum in H. cbn [all_chars] in H. apply andb_true_iff in H as [Hc Hr].
  apply negb_true_iff in Hc. cbn [replace_unsafe_runs]. rewrite Hc.
  destruct in_run; [apply IH, Hr|]. cbn [all_chars]. rewrite (IH true Hr). reflexivity.
Qed.

Lemma strip_leading_hyphens_all (s : string) :
  all_chars is_hyphen s = true -> strip_leading_hyphens s = EmptyString.
Proof.
  induction s as [|c r IH]; intros H; [reflexivity|].
  cbn [all_chars] in H. apply andb_true_iff in H as [Hc Hr].
  cbn [strip_leading_hyphens]. rewrite Hc. auto.
Qed.

Lemma replace_unsafe_runs_alnum (in_run : bool) (s : string) :
  no_alnum s = false -> all_chars is_hyphen (replace_unsafe_runs in_run s) = false.
Proof.
  revert in_run. induction s as [|c r IH]; intros in_run H; [discriminate|].
  unfold no_alnum in H. cbn [all_chars] in H. cbn [replace_unsafe_runs].
  destruct (is_lower_alnum c) eqn:Hc.
  - cbn [all_chars]. rewrite (alnum_not_hyphen c Hc). reflexivity.
  - cbn [negb andb] in H. destruct in_run; [apply IH, H|].
    cbn [all_chars]. rewrite (IH true H). apply andb_false_r.
Qed.

Lemma strip_leading_hyphens_some (s : string) :
  all_chars is_hyphen s = false -> all_chars is_hyphen (strip_leading_hyphens s) = false.
Proof.
  induction s as [|c r IH]; intros H; [discriminate|].
  cbn [all_chars] in H. cbn [strip_leading_hyphens].
  destruct (is_hyphen c) eqn:Hc; [apply IH, H|].
  cbn [all_chars]. rewrite Hc. reflexivity.
Qed.

Lemma strip_trailing_hyphens_some (s : string) :
  all_chars is_hyphen s = false -> strip_trailing_hyphens s <> EmptyString.
Proof.
  induction s as [|c r IH]; intros H; [discriminate|].
  cbn [all_chars] in H. cbn [strip_trailing_hyphens].
  destruct (strip_trailing_hyphens r) as [|d t] eqn:Hr; [|discriminate].
  destruct (is_hyphen c) eqn:Hc; [|discriminate].
  cbn [andb] in H. exfalso. apply (IH H). reflexivity.
Qed.

(** X5.  The slug of a branch name never starts with a hyphen and never
    holds two hyphens in a row; it is empty exactly when the lower-cased
    title holds no letter [a-z] and no digit (a title in another script,
    say), and the branch name then ends in the hyphen after the issue
    number. *)
Theorem slug_shape (rt : Runtime) (issueTitle : string) :
  starts_with_hyphen (slug rt issueTitle) = false /\
  single_hyphens (slug rt issueTitle) = true /\
  (slug rt issueTitle = EmptyString <-> no_alnum (toLowerCase rt issueTitle) = true).
Proof.
  unfold slug. set (lower := toLowerCase rt issueTitle).
  destruct (replace_unsafe_runs_single false lower) as [Hs _].
  destruct (strip_leading_hyphens_single _ Hs) as [Hs' Hh].
  split; [|split].
  - apply substring0_head, strip_trailing_hyphens_head, Hh.
  - apply substring0_single, strip_trailing_hyphens_single, Hs'.
  - split.
    + intros He. destruct (no_alnum lower) eqn:Hn; [reflexivity|]. exfalso.
      pose proof (strip_trailing_hyphens_some _
                    (strip_leading_hyphens_some _ (replace_unsafe_runs_alnum false _ Hn))) as Hne.
      destruct (strip_trailing_hyphens _); [congruence|discriminate He].
    + intros Hn.
      rewrite (strip_leading_hyphens_all _ (replace_unsafe_runs_no_alnum false _ Hn)).
      reflexivity.
Qed.

(** ** The signature and the store *)

(** X6.  [verifyGitHubSignature] answers [true] for one header only:
    "sha256=" followed by the digest of the body under the secret. *)
Theorem signature_accepted_iff_digest
    (rt : Runtime) (payload : string) (signature : option string) (secret : string) :
  verifyGitHubSignature rt payload signature secret = Returned true <->
  signature = Some ("sha256=" +:+ hmac_sha256_hex rt secret payload).
Proof.
  split.
  - unfold verifyGitHubSignature.
    destruct signature as [[|c r]|]; try discriminate.
    cbv zeta. unfold timingSafeEqual.
    destruct (_ =? _)%nat; [|discriminate].
    destruct (bytes_eqb _ _) eqn:H; [|discriminate]. intros _.
    apply bytes_eqb_eq in H. unfold Buffer_from in H.
    f_equal. rewrite <- (string_of_list_byte_of_string (String c r)), H.
    apply string_of_list_byte_of_string.
  - intros ->. apply verify_valid_header.
Qed.

(** X7.  What [saveIssue] stores, [getIssue] reads back under the issue
    number of the record; a record the store held under that number is
    replaced, the other numbers read as before, and neither call sends a
    request. *)
Theorem saved_issue_is_read_back (issue : InMemoryIssue.t) (n : Z) (w : World) :
  let w' := snd (db.saveIssue issue w) in
  calls w' = calls w /\
  fst (db.getIssue n w') =
    Returned (if decide (n = InMemoryIssue.issueNumber issue)
              then Some issue else issues w !! n) /\
  snd (db.getIssue n w') = w'.
Proof.
  cbv zeta. unfold db.saveIssue, db.getIssue. simpl. split; [reflexivity|].
  split; [|reflexivity]. f_equal. case_decide as Hn.
  - subst n. apply lookup_insert_eq.
  - apply lookup_insert_ne. congruence.
Qed.

(** X8.  [updateIssue] never creates a record: for a number the store
    does not hold it does nothing.  For a number it holds, it changes that
    record only: the fields of the update replace the old ones, [updatedAt]
    is the time of the call, and the issue number, the repository, the
    title, the body and [createdAt] stay. *)
Theorem updateIssue_changes_one_record
    (now issueNumber : Z) (updates : Updates.t) (w : World) :
  let w' := snd (db.updateIssue now issueNumber updates w) in
  fst (db.updateIssue now issueNumber updates w) = Returned tt /\
  calls w' = calls w /\
  (forall n, n <> issueNumber -> issues w' !! n = issues w !! n) /\
  match issues w !! issueNumber with
  | None => w' = w
  | Some issue =>
      exists issue',
        issues w' !! issueNumber = Some issue' /\
        InMemoryIssue.issueNumber issue' = InMemoryIssue.issueNumber issue /\
        InMemoryIssue.repositoryName issue' = InMemoryIssue.repositoryName issue /\
        InMemoryIssue.repositoryOwner issue' = InMemoryIssue.repositoryOwner issue /\
        InMemoryIssue.title issue' = InMemoryIssue.title issue /\
        InMemoryIssue.body issue' = InMemoryIssue.body issue /\
        InMemoryIssue.createdAt issue' = InMemoryIssue.createdAt issue /\
        InMemoryIssue.updatedAt issue' = now /\
        InMemoryIssue.status issue' =
          default (InMemoryIssue.status issue) (Updates.status updates) /\
        InMemoryIssue.beforeWorkspaceId issue' =
          from_option Some (InMemoryIssue.beforeWorkspaceId issue)
                      (Updates.beforeWorkspaceId updates) /\
        InMemoryIssue.afterWorkspaceId issue' =
          from_option Some (InMemoryIssue.afterWorkspaceId issue)
                      (Updates.afterWorkspaceId updates)
  end.
Proof.
  cbv zeta. unfold db.updateIssue.
  destruct (issues w !! issueNumber) as [issue|] eqn:Hi; simpl.
  - split; [reflexivity|]. split; [reflexivity|]. split.
    + intros n Hn. apply lookup_insert_ne. congruence.
    + eexists. split; [apply lookup_insert_eq|].
      destruct updates as [[b|] [a|] [s|]]; repeat split; reflexivity.
  - repeat split; reflexivity.
Qed.

(** ** Deliveries *)

Section Deliveries.
Variable rt : Runtime.
Variable env : ProcessEnv.
Variable sdk : Daytona.

Lemma processOpened_unfold (payload : GitHubWebhookPayload.t) (w : World) :
  processOpened rt env sdk payload w =
  match parseIssue payload with
  | Thrown e => (Thrown e, w)
  | Returned parsedIssue =>
      if negb (validateParsedIssue parsedIssue)
      then (Returned (Response.mk 400 (ErrorBody "Invalid issue data")), w)
      else
        match truthy (DAYTONA_API_KEY env) with
        | None =>
            (Returned (Response.mk 500 (ErrorBody "Daytona API key not configured")),
             abandoned env parsedIssue w)
        | Some _ =>
            match truthy (ANTHROPIC_API_KEY env) with
            | None =>
                (Returned (Response.mk 500 (ErrorBody "Anthropic API key not configured")),
                 abandoned env parsedIssue w)
            | Some anthropicApiKey =>
                pipeline rt env sdk parsedIssue anthropicApiKey (saved env parsedIssue w)
            end
        end
  end.
Proof.
  unfold processOpened, parseIssue.
  unfold bind at 1. unfold lift at 1.
  destruct (issue_of payload "number") as [issue|e]; [|reflexivity].
  unfold bind at 1. unfold lift at 1.
  destruct (negb (validateParsedIssue _)); [reflexivity|].
  unfold bind at 1. unfold get_calls at 1.
  unfold bind at 1. unfold db.saveIssue at 1.
  match goal with |- context [mkWorld ?i ?c] => change (mkWorld i c) with (saved env
    (ParsedIssue.mk (GitHubIssue.number issue) (GitHubIssue.title issue)
       (or_else (GitHubIssue.body issue) "")
       (GitHubRepository.html_url (GitHubWebhookPayload.repository payload))
       (GitHubRepository.name (GitHubWebhookPayload.repository payload))
       (GitHubUser.login (GitHubRepository.owner (GitHubWebhookPayload.repository payload)))
       (GitHubRepository.clone_url (GitHubWebhookPayload.repository payload))
       (GitHubRepository.default_branch (GitHubWebhookPayload.repository payload))
       (GitHubIssue.html_url issue)) w) end.
  set (parsedIssue := ParsedIssue.mk _ _ _ _ _ _ _ _ _).
  assert (Hfail :
    forall body,
      bind (updateIssue env (ParsedIssue.issueNumber parsedIssue) (Updates.only_status failed))
           (fun _ => ret (Response.mk 500 (ErrorBody body)))
           (saved env parsedIssue w)
      = (Returned (Response.mk 500 (ErrorBody body)), abandoned env parsedIssue w)).
  { intros body. unfold bind at 1.
    rewrite (updateIssue_present env _ _ _ (freshRecord env parsedIssue w))
      by apply lookup_insert_eq.
    unfold ret, abandoned, saved. simpl. rewrite insert_insert_eq. reflexivity. }
  destruct (truthy (DAYTONA_API_KEY env)); [|apply Hfail].
  destruct (truthy (ANTHROPIC_API_KEY env)); [reflexivity|apply Hfail].
Qed.

(** The handler, branch by branch. *)
Lemma handler_unfold (req : Request.t) (w : World) :
  handler rt env sdk req w =
  if negb (String.eqb (Request.method req) "POST")
  then (Returned (Response.mk 405 (ErrorBody "Method not allowed")), w)
  else
    match truthy (WEBHOOK_SECRET env) with
    | None => (Returned (Response.mk 500 (ErrorBody "Server configuration error")), w)
    | Some webhookSecret =>
        match verifyGitHubSignature rt (Request.rawBody req)
                (Request.x_hub_signature_256 req) webhookSecret with
        | Thrown e => (Returned (internalError e), w)
        | Returned false => (Returned (Response.mk 401 (ErrorBody "Invalid signature")), w)
        | Returned true =>
            match Request.JSON_parse_rawBody req with
            | None =>
                (Returned (internalError (mkError "SyntaxError" "Unexpected token in JSON")), w)
            | Some payload =>
                if negb (isIssueOpenedEvent payload)
                then (Returned (Response.mk 200 (MessageBody "Event ignored")), w)
                else
                  match processOpened rt env sdk payload w with
                  | (Returned response, w') => (Returned response, w')
                  | (Thrown e, w') => (Returned (internalError e), w')
                  end
            end
        end
    end.
Proof.
  unfold handler. destruct (negb _); [reflexivity|].
  unfold try_catch. destruct (truthy (WEBHOOK_SECRET env)); [|reflexivity].
  unfold bind at 1. unfold lift at 1.
  destruct (verifyGitHubSignature _ _ _ _) as [[|]|e]; try reflexivity.
  change (negb true) with false. cbv iota.
  destruct (Request.JSON_parse_rawBody req); [|reflexivity].
  destruct (negb (isIssueOpenedEvent _)); [reflexivity|].
  destruct (processOpened _ _ _ _ w) as [[r|e] w']; reflexivity.
Qed.

(** The pipeline of an accepted event, in the world where its record has
    just been stored. *)
Lemma pipeline_accepted (parsedIssue : ParsedIssue.t) (anthropicApiKey : string) (w : World) :
  pipeline rt env sdk parsedIssue anthropicApiKey (saved env parsedIssue w) =
  match steps1to5 rt env sdk parsedIssue anthropicApiKey (accepted env parsedIssue w) with
  | (Thrown e, w1) => (Thrown e, w1)
  | (Returned (sandboxPair, beforePreview, afterPreview), w1) =>
      let w2 :=
        snd (step6 rt env sdk parsedIssue
               (DaytonaWorkspace.id (SandboxPair.after sandboxPair))
               beforePreview afterPreview w1) in
      (Returned (Response.mk 200
                   (ProcessedBody "Issue processed successfully" parsedIssue
                      (SandboxPair.before sandboxPair) (SandboxPair.after sandboxPair))),
       mkWorld
         (<[ParsedIssue.issueNumber parsedIssue :=
              db.merge (db.merge (freshRecord env parsedIssue w)
                                 (Updates.only_status processing)
                                 (Date_now env (calls w)))
                       (completedUpdates sandboxPair) (Date_now env (calls w2))]>
            (issues w))
         (calls w2))
  end.
Proof.
  rewrite (pipeline_unfold rt env sdk parsedIssue anthropicApiKey _
             (freshRecord env parsedIssue w)) by apply lookup_insert_eq.
  fold (accepted env parsedIssue w).
  destruct (steps1to5 _ _ _ _ _ _) as [[[[pair bp] ap]|e] w1]; [|reflexivity].
  cbv zeta. f_equal. f_equal. unfold accepted, started, saved. simpl.
  rewrite !insert_insert_eq. reflexivity.
Qed.

Lemma accepted_store (parsedIssue : ParsedIssue.t) (w : World) :
  issues (accepted env parsedIssue w) =
    <[ParsedIssue.issueNumber parsedIssue :=
        db.merge (freshRecord env parsedIssue w) (Updates.only_status processing)
                 (Date_now env (calls w))]> (issues w) /\
  calls (accepted env parsedIssue w) = calls w.
Proof.
  unfold accepted, started, saved. simpl. rewrite insert_insert_eq. split; reflexivity.
Qed.


(** The four ways a delivery ends: without any effect; given up for a
    missing key; thrown out of steps 1 to 5; or run to its end. *)
Lemma handler_cases (req : Request.t) (w : World)
    (goal : Outcome Response.t * World -> Prop) :
  (forall response,
     In (Response.status response) [200; 400; 401; 405; 500] ->
     goal (Returned response, w)) ->
  (forall parsedIssue body,
     accepts rt env req parsedIssue ->
     truthy (DAYTONA_API_KEY env) = None \/ truthy (ANTHROPIC_API_KEY env) = None ->
     goal (Returned (Response.mk 500 (ErrorBody body)), abandoned env parsedIssue w)) ->
  (forall parsedIssue anthropicApiKey e w1,
     accepts rt env req parsedIssue ->
     steps1to5 rt env sdk parsedIssue anthropicApiKey (accepted env parsedIssue w)
       = (Thrown e, w1) ->
     goal (Returned (internalError e), w1)) ->
  (forall parsedIssue anthropicApiKey sandboxPair beforePreview afterPreview w1,
     accepts rt env req parsedIssue ->
     steps1to5 rt env sdk parsedIssue anthropicApiKey (accepted env parsedIssue w)
       = (Returned (sandboxPair, beforePreview, afterPreview), w1) ->
     let w2 :=
       snd (step6 rt env sdk parsedIssue
              (DaytonaWorkspace.id (SandboxPair.after sandboxPair))
              beforePreview afterPreview w1) in
     goal (Returned (Response.mk 200
                       (ProcessedBody "Issue processed successfully" parsedIssue
                          (SandboxPair.before sandboxPair) (SandboxPair.after sandboxPair))),
           mkWorld
             (<[ParsedIssue.issueNumber parsedIssue :=
                  db.merge (db.merge (freshRecord env parsedIssue w)
                                     (Updates.only_status processing)
                                     (Date_now env (calls w)))
                           (completedUpdates sandboxPair) (Date_now env (calls w2))]>
                (issues w))
             (calls w2))) ->
  goal (handler rt env sdk req w).
Proof.
  intros Hquiet Hkeys Hthrown Hdone.
  assert (Hq : forall status body,
             In status [200; 400; 401; 405; 500] ->
             goal (Returned (Response.mk status body), w)).
  { intros status body Hs. apply Hquiet. exact Hs. }
  rewrite handler_unfold.
  destruct (String.eqb (Request.method req) "POST") eqn:Hm;
    [|apply Hq; simpl; auto 10].
  apply String.eqb_eq in Hm. change (negb true) with false. cbv iota.
  destruct (truthy (WEBHOOK_SECRET env)) as [webhookSecret|] eqn:Hs;
    [|apply Hq; simpl; auto 10].
  destruct (verifyGitHubSignature _ _ _ _) as [[|]|e] eqn:Hv;
    try (apply Hq; simpl; auto 10).
  destruct (Request.JSON_parse_rawBody req) as [payload|] eqn:Hp;
    [|apply Hq; simpl; auto 10].
  destruct (isIssueOpenedEvent payload) eqn:Ho; [|apply Hq; simpl; auto 10].
  change (negb true) with false. cbv iota. rewrite processOpened_unfold.
  destruct (parseIssue payload) as [parsedIssue|e] eqn:Hi; [|apply Hq; simpl; auto 10].
  destruct (validateParsedIssue parsedIssue) eqn:Hvalid; [|apply Hq; simpl; auto 10].
  change (negb true) with false. cbv iota.
  assert (Ha : accepts rt env req parsedIssue).
  { split; [exact Hm|].
    unfold isIssueOpenedEvent in Ho. apply andb_true_iff in Ho as [Ha _].
    apply String.eqb_eq in Ha.
    assert (Hissue : exists issue, GitHubWebhookPayload.issue payload = Defined issue).
    { unfold parseIssue, issue_of in Hi.
      destruct (GitHubWebhookPayload.issue payload) as [| |issue]; try discriminate.
      eauto. }
    destruct Hissue as (issue & Hissue).
    exists webhookSecret, payload, issue. repeat split; assumption. }
  destruct (truthy (DAYTONA_API_KEY env)) eqn:Hd; [|apply Hkeys; auto].
  destruct (truthy (ANTHROPIC_API_KEY env)) as [key|] eqn:Hk; [|apply Hkeys; auto].
  rewrite pipeline_accepted.
  destruct (steps1to5 _ _ _ _ _ _) as [[[[pair bp] ap]|e] w1] eqn:Hsteps.
  - apply (Hdone parsedIssue key pair bp ap w1 Ha Hsteps).
  - apply (Hthrown parsedIssue key e w1 Ha Hsteps).
Qed.

(** X9.  The handler answers every request: it never throws, and the
    status of its answer is 200, 400, 401, 405 or 500. *)
Theorem handler_always_answers (req : Request.t) (w : World) :
  exists response,
    fst (handler rt env sdk req w) = Returned response /\
    In (Response.status response) [200; 400; 401; 405; 500].
Proof.
  apply handler_cases.
  - intros response Hs. exists response. split; [reflexivity|exact Hs].
  - intros. eexists. split; [reflexivity|]. simpl. auto 10.
  - intros. eexists. split; [reflexivity|]. simpl. auto 10.
  - intros. eexists. split; [reflexivity|]. simpl. auto 10.
Qed.

(** X10.  Only an accepted event has effects: when a delivery has changed
    the store or sent a request to the provider, the request was a POST
    with a valid signature whose body is an "opened" event with an issue
    that passes the validation. *)
Theorem effects_need_a_valid_opened_event (req : Request.t) (w : World) :
  snd (handler rt env sdk req w) <> w ->
  exists parsedIssue, accepts rt env req parsedIssue.
Proof.
  apply handler_cases.
  - intros response _ H. simpl in H. congruence.
  - intros parsedIssue body Ha _ _. eauto.
  - intros parsedIssue key e w1 Ha _ _. eauto.
  - intros parsedIssue key pair bp ap w1 Ha _ w2 _. eauto.
Qed.

Lemma accepts_issueNumberOf (req : Request.t) (parsedIssue : ParsedIssue.t) :
  accepts rt env req parsedIssue ->
  issueNumberOf req = Some (ParsedIssue.issueNumber parsedIssue).
Proof.
  intros (_ & s & payload & issue & _ & _ & Hp & _ & Hi & Hparse & _).
  unfold issueNumberOf. rewrite Hp, Hi.
  unfold parseIssue, issue_of in Hparse. rewrite Hi in Hparse.
  injection Hparse as <-. reflexivity.
Qed.

(** X11.  A delivery either leaves the world as it is or replaces one
    record, the one of the issue of its event, by a record created now.
    That record is never left [pending].  It is [failed] only when an API
    key is missing (the answer is 500 and no request was sent), [completed]
    only when the answer is 200 (and it then holds both sandbox ids), and
    [processing], without sandbox ids, when the answer is 500 because a
    step of the run threw. *)
Theorem delivery_end_state (req : Request.t) (w : World) :
  let run := handler rt env sdk req w in
  snd run = w \/
  exists n r response,
    issueNumberOf req = Some n /\
    issues (snd run) = <[n := r]> (issues w) /\
    fst run = Returned response /\
    InMemoryIssue.issueNumber r = n /\
    InMemoryIssue.createdAt r = Date_now env (calls w) /\
    match InMemoryIssue.status r with
    | pending => False
    | failed =>
        Response.status response = 500 /\
        calls (snd run) = calls w /\
        (truthy (DAYTONA_API_KEY env) = None \/ truthy (ANTHROPIC_API_KEY env) = None)
    | processing =>
        Response.status response = 500 /\
        InMemoryIssue.beforeWorkspaceId r = None /\
        InMemoryIssue.afterWorkspaceId r = None
    | completed =>
        Response.status response = 200 /\
        is_Some (InMemoryIssue.beforeWorkspaceId r) /\
        is_Some (InMemoryIssue.afterWorkspaceId r)
    end.
Proof.
  cbv zeta. apply handler_cases.
  - intros response _. left. reflexivity.
  - intros parsedIssue body Ha Hkeys. right.
    eexists. eexists. eexists.
    split; [apply (accepts_issueNumberOf _ _ Ha)|].
    split; [reflexivity|]. split; [reflexivity|]. simpl. auto.
  - intros parsedIssue key e w1 Ha Hsteps. right.
    pose proof (io_steps1to5 rt env sdk parsedIssue key (accepted env parsedIssue w))
      as (Hi & _ & _).
    rewrite Hsteps in Hi. change (issues w1 = issues (accepted env parsedIssue w)) in Hi.
    destruct (accepted_store parsedIssue w) as [Hstore _]. rewrite Hstore in Hi.
    eexists. eexists. eexists.
    split; [apply (accepts_issueNumberOf _ _ Ha)|].
    split; [exact Hi|]. split; [reflexivity|]. simpl. auto.
  - intros parsedIssue key pair bp ap w1 Ha Hsteps w2. right.
    eexists. eexists. eexists.
    split; [apply (accepts_issueNumberOf _ _ Ha)|].
    split; [reflexivity|]. split; [reflexivity|]. simpl. eauto 10.
Qed.
End Deliveries.

(** ** Sandboxes created *)

Lemma creates_app (a b : list Call) : creates (a ++ b) = (creates a + creates b)%nat.
Proof. unfold creates. rewrite List.filter_app, List.length_app. reflexivity. Qed.

Lemma creates_publishing (ext : list Call) : Forall publishing ext -> creates ext = O.
Proof.
  induction 1 as [|c ext Hc _ IH]; [reflexivity|].
  unfold creates in *. simpl. destruct c; simpl in *; try exact IH. contradiction.
Qed.

Lemma io_publishing_creates {A} (Q : A -> Prop) (m : M A) (w : World) :
  io publishing Q m -> creates (calls (snd (m w))) = creates (calls w).
Proof.
  intros Hm. destruct (Hm w) as (_ & (ext & -> & Hext) & _).
  rewrite creates_app, (creates_publishing ext Hext). lia.
Qed.

Lemma bind_publishing_creates {A B} (m : M A) (k : A -> M B) (w : World) :
  (forall a, io publishing any (k a)) ->
  creates (calls (snd (bind m k w))) = creates (calls (snd (m w))).
Proof.
  intros Hk. unfold bind. destruct (m w) as [[a|e] w1]; [|reflexivity].
  apply (io_publishing_creates any), Hk.
Qed.

Section Usage.
Variable rt : Runtime.
Variable env : ProcessEnv.
Variable sdk : Daytona.

Lemma io_publishing_runClaudeCodeInSandbox (sandboxId repoName issueTitle issueBody : string) :
  io publishing any (runClaudeCodeInSandbox rt sdk sandboxId repoName issueTitle issueBody).
Proof.
  unfold runClaudeCodeInSandbox, daytona_get, executeCommand, getWorkDir. io_auto.
Qed.

Lemma io_publishing_setupAndRunApp (sandboxId repoName : string) :
  io publishing any (setupAndRunApp sdk sandboxId repoName).
Proof. unfold setupAndRunApp, daytona_get, executeCommand, getWorkDir. io_auto. Qed.

Lemma io_publishing_getPreviewUrl (sandboxId : string) (port : Z) :
  io publishing any (getPreviewUrl sdk sandboxId port).
Proof. unfold getPreviewUrl, daytona_get, getPreviewLink. io_auto. Qed.

(** Setting up a sandbox sends one [create], first. *)
Lemma createAndSetupSandbox_creates_one
    (issue : ParsedIssue.t) (workspaceName : string) (labels : list (string * string))
    (useClaudeSnapshot : bool) (key : option string) (w : World) :
  creates (calls (snd (createAndSetupSandbox env sdk issue workspaceName labels
                         useClaudeSnapshot key w))) = S (creates (calls w)).
Proof.
  unfold createAndSetupSandbox, daytona_create. cbv zeta.
  rewrite bind_publishing_creates.
  - unfold request. simpl. rewrite creates_app. unfold creates at 2. simpl. lia.
  - intros sandbox. unfold executeCommand, getWorkDir, git_clone, getPreviewLink. io_auto.
Qed.

Lemma createSandboxPair_creates (issue : ParsedIssue.t) (anthropicApiKey : string) (w : World) :
  let after := creates (calls (snd (createSandboxPair env sdk issue anthropicApiKey w))) in
  match fst (createBefore env sdk issue w w) with
  | Thrown _ => after = (creates (calls w) + 1)%nat
  | Returned _ => after = (creates (calls w) + 2)%nat
  end.
Proof.
  cbv zeta. rewrite createSandboxPair_unfold.
  pose proof (createAndSetupSandbox_creates_one issue (pairName env issue "before" w)
                (labelsFor issue "before") true None w) as Hb.
  fold (createBefore env sdk issue w) in Hb.
  destruct (createBefore env sdk issue w w) as [[b|e] w1]; simpl in *; [|lia].
  pose proof (createAndSetupSandbox_creates_one issue (pairName env issue "after" w)
                (labelsFor issue "after") true (Some anthropicApiKey) w1) as Ha.
  fold (createAfter env sdk issue anthropicApiKey w) in Ha.
  destruct (createAfter env sdk issue anthropicApiKey w w1) as [[a|e] w2]; simpl in *; lia.
Qed.

Lemma steps1to5_creates (parsedIssue : ParsedIssue.t) (anthropicApiKey : string) (w : World) :
  (creates (calls (snd (steps1to5 rt env sdk parsedIssue anthropicApiKey w)))
   <= creates (calls w) + 2)%nat.
Proof.
  unfold steps1to5. cbv zeta. rewrite bind_publishing_creates.
  - pose proof (createSandboxPair_creates parsedIssue anthropicApiKey w) as H.
    cbv zeta in H. destruct (fst (createBefore _ _ _ _ _)); lia.
  - intros pair.
    repeat (io_auto;
            first [ apply io_publishing_setupAndRunApp
                  | apply io_publishing_runClaudeCodeInSandbox
                  | apply io_publishing_getPreviewUrl ]).
Qed.

(** X12.  One delivery asks the provider for at most two sandboxes. *)
Theorem delivery_creates_at_most_two_sandboxes (req : Request.t) (w : World) :
  (creates (calls (snd (handler rt env sdk req w))) <= creates (calls w) + 2)%nat.
Proof.
  apply handler_cases.
  - intros. simpl. lia.
  - intros. simpl. lia.
  - intros parsedIssue key e w1 _ Hsteps.
    pose proof (steps1to5_creates parsedIssue key (accepted env parsedIssue w)) as H.
    rewrite Hsteps in H. destruct (accepted_store env parsedIssue w) as [_ Hc].
    rewrite Hc in H. exact H.
  - intros parsedIssue key pair bp ap w1 _ Hsteps w2.
    pose proof (steps1to5_creates parsedIssue key (accepted env parsedIssue w)) as H.
    rewrite Hsteps in H. destruct (accepted_store env parsedIssue w) as [_ Hc].
    rewrite Hc in H. simpl in H. simpl calls. subst w2.
    rewrite (io_publishing_creates any _ w1 (io_step6 rt env sdk parsedIssue _ bp ap)).
    exact H.
Qed.
End Usage.

Section Pairs.
Variable env : ProcessEnv.
Variable sdk : Daytona.
Variable issue : ParsedIssue.t.
Variable anthropicApiKey : string.

Lemma io_clone_policy_createAndSetupSandbox
    (workspaceName : string) (labels : list (string * string))
    (useClaudeSnapshot : bool) (key : option string) :
  io (clone_policy env issue) any
     (createAndSetupSandbox env sdk issue workspaceName labels useClaudeSnapshot key).
Proof.
  unfold createAndSetupSandbox, daytona_create, executeCommand, getWorkDir, git_clone,
    getPreviewLink.
  cbv zeta.
  apply io_bind_any; [io_auto|]. intros sandbox.
  apply io_bind_any; [io_auto|]. intros _.
  apply io_bind_any; [io_auto|]. intros workDir.
  apply io_bind_any; [|intros _; io_auto].
  destruct (truthy (GITHUB_TOKEN env)) as [githubToken|] eqn:Ht.
  - destruct (includes "github.com" (ParsedIssue.cloneUrl issue)) eqn:Hi;
      (apply io_request; [|intros; exact I]); simpl; rewrite Ht, Hi; split; reflexivity.
  - apply io_request; [|intros; exact I]. simpl. rewrite Ht. split; reflexivity.
Qed.

(** X15.  Every clone that [createSandboxPair] sends is a clone of the
    clone URL of the issue, and it carries a user name and a password only
    if [GITHUB_TOKEN] is set and the URL holds "github.com": they are then
    "git" and the token. *)
Theorem clone_credentials_follow_the_url (w : World) :
  exists ext,
    calls (snd (createSandboxPair env sdk issue anthropicApiKey w)) = (calls w ++ ext)%list /\
    Forall (clone_policy env issue) ext.
Proof.
  assert (H : io (clone_policy env issue) any
                (createSandboxPair env sdk issue anthropicApiKey)).
  { unfold createSandboxPair. io_auto; apply io_clone_policy_createAndSetupSandbox. }
  destruct (H w) as (_ & Hext & _). exact Hext.
Qed.

(** X16.  The sandboxes [createSandboxPair] asks for are BEFORE and
    AFTER and no other: one request when the set-up of BEFORE throws, two
    otherwise.  Both are made from the Claude snapshot; only AFTER is given
    the Anthropic key in its environment, BEFORE has no environment
    variables. *)
Theorem pair_requests (w : World) :
  let before := beforeOptions env issue w in
  let after := afterOptions env issue anthropicApiKey w in
  let w' := snd (createSandboxPair env sdk issue anthropicApiKey w) in
  (exists ext, calls w' = (calls w ++ ext)%list /\ Forall (creates_pair before after) ext) /\
  creates (calls w') =
    match fst (createBefore env sdk issue w w) with
    | Thrown _ => (creates (calls w) + 1)%nat
    | Returned _ => (creates (calls w) + 2)%nat
    end /\
  CreateOptions.snapshot before = Some CLAUDE_SNAPSHOT_NAME /\
  CreateOptions.snapshot after = Some CLAUDE_SNAPSHOT_NAME /\
  CreateOptions.envVars before = None /\
  CreateOptions.envVars after =
    (if String.eqb anthropicApiKey "" then None
     else Some [("ANTHROPIC_API_KEY", anthropicApiKey)]) /\
  In ("type", "before") (CreateOptions.labels before) /\
  In ("type", "after") (CreateOptions.labels after).
Proof.
  cbv zeta. split; [|split].
  - rewrite createSandboxPair_unfold.
    pose proof (io_createAndSetupSandbox env sdk issue (pairName env issue "before" w)
                  (labelsFor issue "before") true None w) as (_ & (ext1 & Hc1 & Hext1) & _).
    fold (createBefore env sdk issue w) in Hc1. fold (beforeOptions env issue w) in Hext1.
    assert (Hweak : forall options ext,
              (options = beforeOptions env issue w \/
               options = afterOptions env issue anthropicApiKey w) ->
              Forall (setting_up options) ext ->
              Forall (creates_pair (beforeOptions env issue w)
                                   (afterOptions env issue anthropicApiKey w)) ext).
    { intros options ext Ho Hext. eapply Forall_impl; [exact Hext|].
      intros c Hc. destruct c; simpl in *; auto. subst. exact Ho. }
    destruct (createBefore env sdk issue w w) as [[b|e] w1]; simpl in Hc1.
    + pose proof (io_createAndSetupSandbox env sdk issue (pairName env issue "after" w)
                    (labelsFor issue "after") true (Some anthropicApiKey) w1)
        as (_ & (ext2 & Hc2 & Hext2) & _).
      fold (createAfter env sdk issue anthropicApiKey w) in Hc2.
      fold (afterOptions env issue anthropicApiKey w) in Hext2.
      exists (ext1 ++ ext2)%list. split.
      * destruct (createAfter env sdk issue anthropicApiKey w w1) as [[a|e] w2];
          simpl in *; rewrite Hc2, Hc1, <- app_assoc; reflexivity.
      * apply Forall_app. split.
        -- apply (Hweak _ _ (or_introl eq_refl) Hext1).
        -- apply (Hweak _ _ (or_intror eq_refl) Hext2).
    + exists ext1. split; [exact Hc1|]. apply (Hweak _ _ (or_introl eq_refl) Hext1).
  - pose proof (createSandboxPair_creates env sdk issue anthropicApiKey w) as H.
    cbv zeta in H. destruct (fst (createBefore _ _ _ _ _)); exact H.
  - split; [reflexivity|]. split; [reflexivity|]. split; [reflexivity|].
    split; [destruct anthropicApiKey; reflexivity|].
    split; simpl; auto.
Qed.
End Pairs.

Section NoToken.
Variable rt : Runtime.
Variable env : ProcessEnv.
Variable sdk : Daytona.
Hypothesis no_token : truthy (GITHUB_TOKEN env) = None.

Lemma io_unauthenticated_createAndSetupSandbox
    (issue : ParsedIssue.t) (workspaceName : string) (labels : list (string * string))
    (useClaudeSnapshot : bool) (key : option string) :
  io unauthenticated any
     (createAndSetupSandbox env sdk issue workspaceName labels useClaudeSnapshot key).
Proof.
  unfold createAndSetupSandbox, daytona_create, executeCommand, getWorkDir, git_clone,
    getPreviewLink.
  rewrite no_token. io_auto.
Qed.

Lemma io_unauthenticated_runClaudeCodeInSandbox
    (sandboxId repoName issueTitle issueBody : string) :
  io unauthenticated any
     (runClaudeCodeInSandbox rt sdk sandboxId repoName issueTitle issueBody).
Proof.
  unfold runClaudeCodeInSandbox, daytona_get, executeCommand, getWorkDir. io_auto.
Qed.

Lemma io_unauthenticated_setupAndRunApp (sandboxId repoName : string) :
  io unauthenticated any (setupAndRunApp sdk sandboxId repoName).
Proof. unfold setupAndRunApp, daytona_get, executeCommand, getWorkDir. io_auto. Qed.

Lemma io_unauthenticated_getPreviewUrl (sandboxId : string) (port : Z) :
  io unauthenticated any (getPreviewUrl sdk sandboxId port).
Proof. unfold getPreviewUrl, daytona_get, getPreviewLink. io_auto. Qed.

Lemma io_unauthenticated_steps1to5 (parsedIssue : ParsedIssue.t) (anthropicApiKey : string) :
  io unauthenticated any (steps1to5 rt env sdk parsedIssue anthropicApiKey).
Proof.
  unfold steps1to5, createSandboxPair.
  repeat (io_auto;
          first [ apply io_unauthenticated_createAndSetupSandbox
                | apply io_unauthenticated_setupAndRunApp
                | apply io_unauthenticated_runClaudeCodeInSandbox
                | apply io_unauthenticated_getPreviewUrl ]).
Qed.

(** X13.  Without a GitHub token nothing is published and no credentials
    are sent: among the requests of a delivery there is no [git] command,
    no upload and no run of a script, and every clone goes without user
    name and password. *)
Theorem no_token_no_publication (req : Request.t) (w : World) :
  exists ext,
    calls (snd (handler rt env sdk req w)) = (calls w ++ ext)%list /\
    Forall unauthenticated ext.
Proof.
  apply handler_cases.
  - intros. exists []. rewrite app_nil_r. auto.
  - intros. exists []. rewrite app_nil_r. auto.
  - intros parsedIssue key e w1 _ Hsteps.
    destruct (io_unauthenticated_steps1to5 parsedIssue key (accepted env parsedIssue w))
      as (_ & Hext & _).
    rewrite Hsteps in Hext. destruct (accepted_store env parsedIssue w) as [_ Hc].
    rewrite Hc in Hext. exact Hext.
  - intros parsedIssue key pair bp ap w1 _ Hsteps w2.
    destruct (io_unauthenticated_steps1to5 parsedIssue key (accepted env parsedIssue w))
      as (_ & Hext & _).
    rewrite Hsteps in Hext. destruct (accepted_store env parsedIssue w) as [_ Hc].
    rewrite Hc in Hext. subst w2. unfold step6. rewrite no_token. exact Hext.
Qed.
End NoToken.

Section Validation.
Variable rt : Runtime.
Variable env : ProcessEnv.
Variable sdk : Daytona.

End Validation.


(** ** The answer of the agent *)

Lemma ascii_eqb_nat (a b : ascii) : Ascii.eqb a b = (nat_of_ascii a =? nat_of_ascii b)%nat.
Proof.
  destruct (Ascii.eqb_spec a b) as [->|Hne].
  - symmetry. apply Nat.eqb_refl.
  - symmetry. apply Nat.eqb_neq. intros H. apply Hne.
    rewrite <- (ascii_nat_embedding a), <- (ascii_nat_embedding b), H. reflexivity.
Qed.

(** White space holds no brace. *)
Lemma whitespace_no_brace (s : string) :
  whitespace_width s <> O ->
  from_first_brace s = from_first_brace (drop_bytes (whitespace_width s) s).
Proof.
  destruct s as [|a r]; [reflexivity|].
  unfold whitespace_width. cbv zeta.
  assert (Hbrace : forall c, (nat_of_ascii c =? 123)%nat = false ->
                             forall t, from_first_brace (String c t) = from_first_brace t).
  { intros c Hc t. cbn [from_first_brace]. rewrite ascii_eqb_nat.
    change (nat_of_ascii "{") with 123%nat. rewrite Hc. reflexivity. }
  destruct ((nat_of_ascii a =? 32) || (9 <=? nat_of_ascii a) && (nat_of_ascii a <=? 13))%nat eqn:H1.
  { intros _. cbn [drop_bytes]. apply Hbrace. apply Nat.eqb_neq.
    apply orb_true_iff in H1 as [H|H].
    - apply Nat.eqb_eq in H. lia.
    - apply andb_true_iff in H as [Hl Hu]. apply Nat.leb_le in Hl, Hu. lia. }
  destruct r as [|b r]; [congruence|].
  destruct ((nat_of_ascii a =? 194) && (nat_of_ascii b =? 160))%nat eqn:H2.
  { intros _. cbn [drop_bytes]. apply andb_true_iff in H2 as [Ha Hb].
    apply Nat.eqb_eq in Ha, Hb.
    rewrite !Hbrace by (apply Nat.eqb_neq; lia). reflexivity. }
  destruct r as [|c r]; [congruence|].
  assert (H3 : forall k, (nat_of_ascii a =? k)%nat = true -> (128 <= k)%nat ->
               forall l, (nat_of_ascii b =? l)%nat = true -> (128 <= l)%nat ->
               (128 <= nat_of_ascii c)%nat ->
               from_first_brace (String a (String b (String c r))) = from_first_brace r).
  { intros k Hk Hk' l Hl Hl' Hc. apply Nat.eqb_eq in Hk, Hl.
    rewrite !Hbrace by (apply Nat.eqb_neq; lia). reflexivity. }
  repeat match goal with
         | |- context [if ?cond then _ else _] => destruct cond eqn:?
         end; try congruence; intros _; cbn [drop_bytes];
    repeat match goal with
           | H : (_ && _)%bool = true |- _ => apply andb_true_iff in H as [? ?]
           end;
    match goal with
    | Ha : (nat_of_ascii a =? _)%nat = true, Hb : (nat_of_ascii b =? _)%nat = true |- _ =>
        eapply (H3 _ Ha ltac:(lia) _ Hb ltac:(lia))
    end.
  all: repeat match goal with
              | H : (_ || _)%bool = true |- _ => apply orb_true_iff in H as [H|H]
              | H : (_ && _)%bool = true |- _ => apply andb_true_iff in H as [? ?]
              | H : (_ =? _)%nat = true |- _ => apply Nat.eqb_eq in H
              | H : (_ <=? _)%nat = true |- _ => apply Nat.leb_le in H
              end; lia.
Qed.

Lemma trimStart_go_no_brace (fuel : nat) (s : string) :
  from_first_brace (trimStart_go fuel s) = None -> from_first_brace s = None.
Proof.
  revert s. induction fuel as [|fuel IH]; intros s H; [exact H|].
  cbn [trimStart_go] in H.
  destruct (whitespace_width s) as [|k] eqn:Hw; [exact H|].
  rewrite whitespace_no_brace by congruence. rewrite Hw. apply IH, H.
Qed.

Lemma trimStart_go_blank (fuel : nat) (s : string) :
  trimStart_go fuel s = EmptyString -> from_first_brace s = None.
Proof.
  intros H. apply (trimStart_go_no_brace fuel). rewrite H. reflexivity.
Qed.

Lemma blank_has_no_brace (s : string) : trim s = EmptyString -> match_braces s = None.
Proof.
  unfold trim. intros H.
  assert (Hb : from_first_brace (trimStart s) = None).
  { destruct (trimStart s) as [|c r] eqn:Ht; [reflexivity|].
    cbn [trimEnd] in H. destruct (is_blank (String c r)) eqn:Hblank; [|discriminate].
    unfold is_blank in Hblank. apply String.eqb_eq in Hblank.
    apply (trimStart_go_blank _ _ Hblank). }
  unfold match_braces. unfold trimStart in Hb.
  rewrite (trimStart_go_no_brace _ _ Hb). reflexivity.
Qed.

Lemma no_output_is_unparseable (rt : Runtime) (result : option string) :
  has_output result = false -> parseable rt (or_else result "") = false.
Proof.
  unfold has_output, parseable. destruct result as [r|]; [|reflexivity].
  intros H. apply negb_false_iff, String.eqb_eq in H.
  assert (Hm : match_braces (or_else (Some r) "") = None).
  { destruct r; [reflexivity|]. apply blank_has_no_brace, H. }
  rewrite Hm. reflexivity.
Qed.

Lemma attempt_request_world {A} (c : Call) (answer : list Call -> Outcome A) (w : World) :
  snd (attempt (request c answer) w) = mkWorld (issues w) (calls w ++ [c]).
Proof.
  unfold attempt, try_catch, bind, request, ret.
  destruct (answer (calls w)); reflexivity.
Qed.

Section AgentAnswers.
Variable rt : Runtime.
Variable sdk : Daytona.
Variables sandboxId repoName issueTitle issueBody : string.
Variable w : World.
Variable sandbox : Sandbox.t.
Variable workDir : option string.
Hypothesis got : sdk_get sdk (calls w) sandboxId = Returned sandbox.
Hypothesis workDir_read :
  sdk_getWorkDir sdk (calls w ++ [CGet sandboxId]) (Sandbox.id sandbox) = Returned workDir.

Let repoPath : string := agentRepoPath repoName workDir.
Let awaited : list Call :=
  agentAwaited sdk sandboxId repoName issueTitle issueBody w sandbox workDir.
Let revert : Call :=
  CExecuteCommand (Sandbox.id sandbox) (chownToRoot repoPath) None None.
Let answer : Outcome ExecuteResponse.t :=
  agentAnswer sdk sandboxId repoName issueTitle issueBody w sandbox workDir.
Let run : Outcome JsVal * World :=
  runClaudeCodeInSandbox rt sdk sandboxId repoName issueTitle issueBody w.

(** X17.  When the output of the agent command holds JSON that parses,
    the run returns the parsed value, whatever the exit code of the command
    was: a failed agent that prints JSON is not told apart from one that
    succeeded.  The request that follows the answer is the one that gives
    the repository back to root. *)
Theorem parsed_output_is_returned
    (response : ExecuteResponse.t) (jsonText : string) (parsed : JsVal) :
  answer = Returned response ->
  match_braces (or_else (ExecuteResponse.result response) "") = Some jsonText ->
  JSON_parse rt jsonText = Some parsed ->
  fst run = Returned parsed /\
  calls (snd run) = (awaited ++ [revert])%list.
Proof.
  intros Ha Hm Hp. subst run answer.
  rewrite (runClaude_after_prelude rt sdk _ _ _ _ w sandbox workDir got workDir_read).
  cbv zeta. rewrite Ha. split.
  - cbn [fst]. unfold parseAgentOutput. rewrite Hm, Hp. reflexivity.
  - assert (Ho : has_output (ExecuteResponse.result response) = true).
    { destruct (has_output _) eqn:E; [reflexivity|].
      apply (no_output_is_unparseable rt) in E. unfold parseable in E.
      rewrite Hm, Hp in E. discriminate E. }
    rewrite Ho. reflexivity.
Qed.

(** X18.  An agent command that prints nothing, or white space only, is
    no error: the run asks the sandbox where [claude] is and whether the
    repository is there, whatever comes of these two commands gives the
    repository back to root, and returns the output as a raw result with the
    parse warning. *)
Theorem silent_agent_is_diagnosed (response : ExecuteResponse.t) :
  answer = Returned response ->
  has_output (ExecuteResponse.result response) = false ->
  fst run = Returned (rawResult (or_else (ExecuteResponse.result response) "")
                                (ExecuteResponse.exitCode response)) /\
  calls (snd run) =
    (awaited ++
     [ CExecuteCommand (Sandbox.id sandbox) "which claude" (Some repoPath) None;
       CExecuteCommand (Sandbox.id sandbox)
         ("test -d " +:+ repoPath +:+ " && echo " +:+ quoted "EXISTS" +:+
          " || echo " +:+ quoted "NOT FOUND") (Some repoPath) None;
       revert ])%list.
Proof.
  intros Ha Ho. subst run answer.
  rewrite (runClaude_after_prelude rt sdk _ _ _ _ w sandbox workDir got workDir_read).
  cbv zeta. rewrite Ha. split.
  - cbn [fst]. f_equal. apply parseAgentOutput_degraded, no_output_is_unparseable, Ho.
  - rewrite Ho. unfold executeCommand. rewrite bind_attempt_request, attempt_request_world.
    cbn [snd calls issues]. rewrite <- !app_assoc. reflexivity.
Qed.
End AgentAnswers.

(** ** Set-up of the application, and a rejected push *)



Section Setup.
Variable sdk : Daytona.
Variables sandboxId repoName : string.

End Setup.

Section RejectedPush.
Variable rt : Runtime.
Variable sdk : Daytona.
Hypothesis rejected :
  forall h sandboxId command cwd timeout response,
    String.prefix "git push" command = true ->
    sdk_executeCommand sdk h sandboxId command cwd timeout <> Returned response.

End RejectedPush.

(** ** A result the handler cannot read *)

Section UnreadableResult.
Variable rt : Runtime.
Variable env : ProcessEnv.
Variable sdk : Daytona.
Variable parsedIssue : ParsedIssue.t.
Variable anthropicApiKey : string.

(** X21.  The statement that logs the first 200 characters of
    [claudeResult.result] aborts the run when the agent's JSON holds a
    [result] that is neither absent, [null] nor a string (a number, say):
    steps 1 to 5 throw a [TypeError] right after the agent run, and the
    application in AFTER is never set up. *)
Theorem unreadable_result_aborts_the_run
    (w w1 w2 w3 : World) (sandboxPair : SandboxPair.t) (claudeResult value : JsVal) :
  createSandboxPair env sdk parsedIssue anthropicApiKey w = (Returned sandboxPair, w1) ->
  setupAndRunApp sdk (DaytonaWorkspace.id (SandboxPair.before sandboxPair))
                 (ParsedIssue.repositoryName parsedIssue) w1 = (Returned tt, w2) ->
  runClaudeCodeInSandbox rt sdk (DaytonaWorkspace.id (SandboxPair.after sandboxPair))
    (ParsedIssue.repositoryName parsedIssue) (ParsedIssue.title parsedIssue)
    (ParsedIssue.body parsedIssue) w2 = (Returned claudeResult, w3) ->
  get_prop claudeResult "result" = Returned value ->
  match value with
  | JUndefined | JNull | JStr _ => False
  | _ => True
  end ->
  steps1to5 rt env sdk parsedIssue anthropicApiKey w =
    (Thrown (mkError "TypeError" "claudeResult.result?.substring is not a function"), w3).
Proof.
  intros Hpair Hsetup Hagent Hprop Hvalue. unfold steps1to5. cbv zeta.
  unfold bind at 1. rewrite Hpair.
  unfold bind at 1. rewrite Hsetup.
  unfold bind at 1. rewrite Hagent.
  unfold bind at 1. unfold lift at 1. unfold readClaudeResult. rewrite Hprop.
  destruct value; try contradiction; reflexivity.
Qed.
End UnreadableResult.

(** ** Sample runs *)

Lemma effects_need_a_valid_opened_event_witness :
  exists parsedIssue, accepts node Sample.env Sample.opened42 parsedIssue.
Proof.
  apply (effects_need_a_valid_opened_event node Sample.env Sample.cooperative
           Sample.opened42 Sample.emptyWorld).
  intros H. apply (f_equal calls) in H. vm_compute in H. discriminate H.
Defined.

Lemma no_token_no_publication_witness :
  truthy (GITHUB_TOKEN Sample.envWithoutToken) = None /\
  exists ext,
    calls (snd (handler node Sample.envWithoutToken Sample.cooperative Sample.opened42
                  Sample.emptyWorld)) = (calls Sample.emptyWorld ++ ext)%list /\
    Forall unauthenticated ext.
Proof.
  split; [reflexivity|].
  apply (no_token_no_publication node Sample.envWithoutToken Sample.cooperative eq_refl
           Sample.opened42 Sample.emptyWorld).
Defined.

Lemma parsed_output_is_returned_witness :
  fst (runClaudeCodeInSandbox node Sample.agentFails "sb-after" "demo-app"
         "Button not clickable" "click does nothing" Sample.emptyWorld)
  = Returned (JObj [ ("type", JStr "result");
                     ("result", JStr "Fixed the click handler") ]).
Proof.
  destruct (parsed_output_is_returned node Sample.agentFails
              "sb-after" "demo-app" "Button not clickable" "click does nothing"
              Sample.emptyWorld (Sandbox.mk "sb-after" "sb-after" (Some "started"))
              (Some "/home/daytona") eq_refl eq_refl
              (ExecuteResponse.mk 1 (Some Sample.agentJson)) Sample.agentJson
              (JObj [ ("type", JStr "result");
                      ("result", JStr "Fixed the click handler") ])
              eq_refl ltac:(vm_compute; reflexivity) ltac:(vm_compute; reflexivity))
    as [Hrun _].
  exact Hrun.
Defined.

Lemma silent_agent_is_diagnosed_witness :
  commandsOf
    (calls (snd (runClaudeCodeInSandbox node Sample.silent "sb-after" "demo-app"
                   "Button not clickable" "click does nothing" Sample.emptyWorld)))
  = [ "chown -R claude:claude /home/daytona/demo-app";
      claudeCommandFor "/home/daytona/demo-app"
        (base64 (promptFor "Button not clickable" "click does nothing"));
      "which claude";
      "test -d /home/daytona/demo-app && echo " +:+ quoted "EXISTS" +:+
        " || echo " +:+ quoted "NOT FOUND";
      "chown -R root:root /home/daytona/demo-app" ].
Proof.
  destruct (silent_agent_is_diagnosed node Sample.silent
              "sb-after" "demo-app" "Button not clickable" "click does nothing"
              Sample.emptyWorld (Sandbox.mk "sb-after" "sb-after" (Some "started"))
              (Some "/home/daytona") eq_refl eq_refl
              (ExecuteResponse.mk 0 (Some "")) eq_refl eq_refl)
    as [_ Hcalls].
  rewrite Hcalls. vm_compute. reflexivity.
Defined.



Lemma unreadable_result_aborts_the_run_witness :
  fst (steps1to5 node Sample.env Sample.numeric Sample.parsed42 "sk-ant-key"
         Sample.emptyWorld)
  = Thrown (mkError "TypeError" "claudeResult.result?.substring is not a function").
Proof.
  let created :=
    eval vm_compute in
      (createSandboxPair Sample.env Sample.numeric Sample.parsed42 "sk-ant-key"
         Sample.emptyWorld) in
  lazymatch created with
  | (Returned ?pair, ?w1) =>
      let installed :=
        eval vm_compute in
          (setupAndRunApp Sample.numeric (DaytonaWorkspace.id (SandboxPair.before pair))
             "demo-app" w1) in
      lazymatch installed with
      | (Returned tt, ?w2) =>
          let ran :=
            eval vm_compute in
              (runClaudeCodeInSandbox node Sample.numeric
                 (DaytonaWorkspace.id (SandboxPair.after pair)) "demo-app"
                 "Button not clickable" "click does nothing" w2) in
          lazymatch ran with
          | (Returned ?claudeResult, ?w3) =>
              rewrite (unreadable_result_aborts_the_run node Sample.env Sample.numeric
                         Sample.parsed42 "sk-ant-key" Sample.emptyWorld w1 w2 w3 pair
                         claudeResult (JNum 5)
                         ltac:(vm_compute; reflexivity) ltac:(vm_compute; reflexivity)
                         ltac:(vm_compute; reflexivity) ltac:(vm_compute; reflexivity) I)
          end
      end
  end.
  reflexivity.
Defined.
